(** * Kontomanager client: a shallow embedding of [client.py] and [models.py]

    The development follows the layout of the client: text normalizers
    first (phone numbers, German decimals, usage bars), then the page
    parsers (overview cards, bills, call history, SIM settings, call
    forwarding) and finally the two mutation workflows.

    Conventions of the embedding.
    - A Python [str] is a [string]: the sequence of the bytes of its UTF-8
      encoding.  ASCII text is one byte per character; the euro sign and the
      umlauts of the portal's labels are the byte sequences of their
      encoding.  The character classes of [re] and the case mappings are the
      ASCII ones; bytes above 127 belong to no class and have no case.
    - A Python [float] is a binary64 number ([PrimFloat.float]).
    - An exception is a value of [exn]; code that may raise returns a
      [result].
    - The queries of the HTML selector library and [urljoin] are functions
      taken as section variables: the embedding fixes what the client does
      with their answers, not the markup they read. *)

From Stdlib Require Import ZArith NArith String Ascii List Bool Lia DecimalString.
From Stdlib Require Import Floats.PrimFloat Floats.SpecFloat Floats.FloatOps.
From stdpp Require Import gmap strings.

Set Warnings "-inexact-float,-register-all".

(** ** Characters *)

Definition code (c : ascii) : nat := nat_of_ascii c.

Definition in_range (lo hi : nat) (c : ascii) : bool :=
  (lo <=? code c)%nat && (code c <=? hi)%nat.

(** [\d] *)
Definition is_digit (c : ascii) : bool := in_range 48 57 c.

Definition is_upper (c : ascii) : bool := in_range 65 90 c.
Definition is_lower (c : ascii) : bool := in_range 97 122 c.

(** [\w] *)
Definition is_word (c : ascii) : bool :=
  is_digit c || is_upper c || is_lower c || Ascii.eqb c "_"%char.

(** [\s], and the characters [str.strip] removes: tab, line feed, vertical
    tab, form feed, carriage return, the four separators 28..31 and space. *)
Definition is_space (c : ascii) : bool :=
  in_range 9 13 c || in_range 28 31 c || Ascii.eqb c " "%char.

Definition lower_char (c : ascii) : ascii :=
  if is_upper c then ascii_of_nat (code c + 32) else c.

Definition upper_char (c : ascii) : ascii :=
  if is_lower c then ascii_of_nat (code c - 32) else c.

Definition digit_value (c : ascii) : Z := Z.of_nat (code c - 48).

(** ** Strings: the [str] methods the client calls *)

Definition is_empty (s : string) : bool :=
  match s with EmptyString => true | String _ _ => false end.

Fixpoint str_map (f : ascii -> ascii) (s : string) : string :=
  match s with
  | EmptyString => EmptyString
  | String c s' => String (f c) (str_map f s')
  end.

Fixpoint str_filter (p : ascii -> bool) (s : string) : string :=
  match s with
  | EmptyString => EmptyString
  | String c s' => if p c then String c (str_filter p s') else str_filter p s'
  end.

Fixpoint str_forall (p : ascii -> bool) (s : string) : bool :=
  match s with
  | EmptyString => true
  | String c s' => p c && str_forall p s'
  end.

(** [s.lower()] and [s.upper()] *)
Definition str_lower : string -> string := str_map lower_char.
Definition str_upper : string -> string := str_map upper_char.

(** [s.startswith(p)] *)
Fixpoint startswith (p s : string) : bool :=
  match p, s with
  | EmptyString, _ => true
  | String _ _, EmptyString => false
  | String a p', String b s' => Ascii.eqb a b && startswith p' s'
  end.

(** [sub in s] *)
Fixpoint str_contains (sub s : string) : bool :=
  startswith sub s ||
  match s with
  | EmptyString => false
  | String _ s' => str_contains sub s'
  end.

(** [s[n:]] *)
Fixpoint str_drop (n : nat) (s : string) : string :=
  match n, s with
  | O, _ => s
  | S _, EmptyString => EmptyString
  | S n', String _ s' => str_drop n' s'
  end.

(** [s[:n]] *)
Fixpoint str_take (n : nat) (s : string) : string :=
  match n, s with
  | O, _ => EmptyString
  | S _, EmptyString => EmptyString
  | S n', String c s' => String c (str_take n' s')
  end.

Fixpoint str_lstrip (s : string) : string :=
  match s with
  | EmptyString => EmptyString
  | String c s' => if is_space c then str_lstrip s' else s
  end.

Fixpoint str_rstrip (s : string) : string :=
  match s with
  | EmptyString => EmptyString
  | String c s' =>
      let r := str_rstrip s' in
      if is_empty r && is_space c then EmptyString else String c r
  end.

(** [s.strip()] *)
Definition str_strip (s : string) : string := str_rstrip (str_lstrip s).

(** [s.replace(old, new)] for a non-empty [old]: occurrences are replaced
    from the left and do not overlap.  [skip] counts the bytes of an
    occurrence that are still to be dropped. *)
Fixpoint replace_go (old new : string) (skip : nat) (s : string) : string :=
  match s with
  | EmptyString => EmptyString
  | String c s' =>
      match skip with
      | S k => replace_go old new k s'
      | O =>
          if startswith old s
          then new +:+ replace_go old new (Nat.pred (String.length old)) s'
          else String c (replace_go old new 0 s')
      end
  end.

Definition str_replace (old new s : string) : string := replace_go old new 0 s.

(** [s.split(sep)] for a one-character separator: never an empty list. *)
Fixpoint str_split (sep : ascii) (s : string) : list string :=
  match s with
  | EmptyString => [EmptyString]
  | String c s' =>
      if Ascii.eqb c sep then EmptyString :: str_split sep s'
      else match str_split sep s' with
           | [] => [String c EmptyString]
           | p :: ps => String c p :: ps
           end
  end.

(** [s.split(sep, 1)] for a one-character separator. *)
Fixpoint str_split1 (sep : ascii) (s : string) : list string :=
  match s with
  | EmptyString => [EmptyString]
  | String c s' =>
      if Ascii.eqb c sep then [EmptyString; s']
      else match str_split1 sep s' with
           | [] => [String c EmptyString]
           | p :: ps => String c p :: ps
           end
  end.

(** [s.split(sep)] for a non-empty separator of any length.  [skip] counts
    the bytes of a separator that are still to be dropped. *)
Fixpoint split_go (sep : string) (skip : nat) (s : string) : list string :=
  match s with
  | EmptyString => [EmptyString]
  | String c s' =>
      match skip with
      | S k => split_go sep k s'
      | O =>
          if startswith sep s
          then EmptyString :: split_go sep (Nat.pred (String.length sep)) s'
          else match split_go sep 0 s' with
               | [] => [String c EmptyString]
               | p :: ps => String c p :: ps
               end
      end
  end.

Definition split_on (sep s : string) : list string := split_go sep 0 s.

(** [sep.join(parts)] *)
Fixpoint str_join (sep : string) (parts : list string) : string :=
  match parts with
  | [] => EmptyString
  | [p] => p
  | p :: ps => p +:+ sep +:+ str_join sep ps
  end.

(** [s.isdigit()] *)
Definition str_isdigit (s : string) : bool :=
  negb (is_empty s) && str_forall is_digit s.

(** [int(s)] on a string of digits, most significant first. *)
Fixpoint digits_value (acc : Z) (s : string) : Z :=
  match s with
  | EmptyString => acc
  | String c s' => digits_value (10 * acc + digit_value c) s'
  end.

Definition int_of_digits (s : string) : Z := digits_value 0 s.

(** [re.sub(cls, repl, s)] for a pattern that is a single character class. *)
Fixpoint re_sub_class (cls : ascii -> bool) (repl s : string) : string :=
  match s with
  | EmptyString => EmptyString
  | String c s' =>
      if cls c then repl +:+ re_sub_class cls repl s'
      else String c (re_sub_class cls repl s')
  end.

(** ** Phone numbers *)

(** [KontomanagerClient._normalize_phone_number] *)
Definition _normalize_phone_number (number_str : string) : string :=
  if is_empty number_str then ""
  else
    let digits := re_sub_class (fun c => negb (is_digit c)) "" number_str in
    if is_empty digits then ""
    else if startswith "43" digits then "+" +:+ digits
    else if startswith "0" digits then "+43" +:+ str_drop 1 digits
    else "+43" +:+ digits.

(** ** Regular expressions: the fragment of [re] the client's patterns use

    Matching is by backtracking, as in [re]: alternatives are tried from the
    left, quantifiers are greedy, and the first way to match wins.  The
    matcher is written in continuation-passing style; the continuation
    receives the rest of the input and the groups captured so far. *)

Inductive regex : Type :=
| Cls (p : ascii -> bool)          (* one character of a class *)
| Cat (r1 r2 : regex)              (* r1 r2 *)
| Alt (r1 r2 : regex)              (* r1|r2 *)
| Opt (r : regex)                  (* r?  *)
| Star (r : regex)                 (* r*  *)
| Plus (r : regex)                 (* r+  *)
| Group (n : nat) (r : regex)      (* the n-th capturing group *)
| Eps.                             (* the empty pattern *)

(** Captured groups, the latest capture first. *)
Definition captures : Type := list (nat * string).

Fixpoint lookup_group (n : nat) (caps : captures) : option string :=
  match caps with
  | [] => None
  | (k, s) :: caps' => if Nat.eqb k n then Some s else lookup_group n caps'
  end.

(** The part of [s] consumed when [rest] is what remains of it. *)
Definition consumed (s rest : string) : string :=
  str_take (String.length s - String.length rest) s.

Section Matcher.
Context {R : Type}.

(** Greedy repetition of a body [step]: at most [fuel] rounds, each of which
    has to consume input (an empty round would not end, and [re] refuses it
    too). *)
Fixpoint rep_loop (step : string -> captures -> (string -> captures -> option R) -> option R)
    (k : string -> captures -> option R)
    (fuel : nat) (s : string) (caps : captures) : option R :=
  match fuel with
  | O => k s caps
  | S fuel' =>
      match step s caps (fun s' caps' =>
                if (String.length s' <? String.length s)%nat
                then rep_loop step k fuel' s' caps' else None) with
      | Some x => Some x
      | None => k s caps
      end
  end.

Fixpoint re_run (r : regex) (s : string) (caps : captures)
    (k : string -> captures -> option R) : option R :=
  match r with
  | Cls p =>
      match s with
      | String c s' => if p c then k s' caps else None
      | EmptyString => None
      end
  | Cat r1 r2 => re_run r1 s caps (fun s' caps' => re_run r2 s' caps' k)
  | Alt r1 r2 =>
      match re_run r1 s caps k with
      | Some x => Some x
      | None => re_run r2 s caps k
      end
  | Opt r1 =>
      match re_run r1 s caps k with
      | Some x => Some x
      | None => k s caps
      end
  | Star r1 => rep_loop (re_run r1) k (String.length s) s caps
  | Plus r1 =>
      re_run r1 s caps (fun s' caps' =>
        rep_loop (re_run r1) k (String.length s') s' caps')
  | Group n r1 =>
      re_run r1 s caps (fun s' caps' => k s' ((n, consumed s s') :: caps'))
  | Eps => k s caps
  end.

End Matcher.

(** A match object: the text of the whole match and the groups. *)
Record re_match : Type := MkMatch { group0 : string; groups : captures }.

(** [m.group(n)]; a group that took no part in the match is [None]. *)
Definition group (n : nat) (m : re_match) : option string :=
  lookup_group n (groups m).

(** [re.match(r, s)]: a match at the start of [s]; also what remains. *)
Definition re_match_at (r : regex) (s : string) : option (re_match * string) :=
  re_run r s [] (fun rest caps => Some (MkMatch (consumed s rest) caps, rest)).

(** [re.search(r, s)]: the match at the leftmost position that has one. *)
Fixpoint re_search (r : regex) (s : string) : option re_match :=
  match re_match_at r s with
  | Some (m, _) => Some m
  | None =>
      match s with
      | EmptyString => None
      | String _ s' => re_search r s'
      end
  end.

(** What a pattern matches, read declaratively: [Matches r s] when [r]
    matches the whole of [s] in some way.  The matcher picks one such way. *)
Inductive Matches : regex -> string -> Prop :=
| M_cls p c : p c = true -> Matches (Cls p) (String c "")
| M_cat r1 r2 s1 s2 : Matches r1 s1 -> Matches r2 s2 -> Matches (Cat r1 r2) (s1 +:+ s2)
| M_alt_l r1 r2 s : Matches r1 s -> Matches (Alt r1 r2) s
| M_alt_r r1 r2 s : Matches r2 s -> Matches (Alt r1 r2) s
| M_opt_none r : Matches (Opt r) ""
| M_opt_some r s : Matches r s -> Matches (Opt r) s
| M_star_nil r : Matches (Star r) ""
| M_star_cons r s1 s2 : Matches r s1 -> Matches (Star r) s2 -> Matches (Star r) (s1 +:+ s2)
| M_plus r s1 s2 : Matches r s1 -> Matches (Star r) s2 -> Matches (Plus r) (s1 +:+ s2)
| M_group n r s : Matches r s -> Matches (Group n r) s
| M_eps : Matches Eps "".

(** Pattern builders. *)
Definition chr (c : ascii) : regex := Cls (Ascii.eqb c).

(** A literal character under [re.IGNORECASE]. *)
Definition chr_i (c : ascii) : regex :=
  Cls (fun x => Ascii.eqb (lower_char x) (lower_char c)).

Fixpoint lit (s : string) : regex :=
  match s with
  | EmptyString => Eps
  | String c s' => Cat (chr c) (lit s')
  end.

Fixpoint lit_i (s : string) : regex :=
  match s with
  | EmptyString => Eps
  | String c s' => Cat (chr_i c) (lit_i s')
  end.

Definition one_of (cs : string) (c : ascii) : bool :=
  negb (str_forall (fun x => negb (Ascii.eqb x c)) cs).

(** ** Floats: [float(token)] and infinity *)

Definition prec : Z := 53.
Definition emax : Z := 1024.

(** The binary64 number nearest to [n / d] (ties to even), with the sign
    [neg]; [d] is positive.  The quotient is taken with at least 55 bits and
    its last bit records whether the division left a remainder, so that
    rounding it once gives the correctly rounded quotient. *)
Definition round_ratio (neg : bool) (n d : Z) : float :=
  let shift := Z.max 0 (55 + Z.log2 d - Z.log2 n) in
  let num := Z.shiftl n shift in
  let q := Z.div num d in
  let sticky := if Z.eqb (Z.modulo num d) 0 then 0%Z else 1%Z in
  let m := (2 * q + sticky)%Z in
  SF2Prim (binary_normalize prec emax (if neg then Z.opp m else m)
                            (- (shift + 1)) neg).

(** Digits of a decimal token: the integer they spell and how many of them
    stand after the point.  A sign or any other character is passed over. *)
Fixpoint decimal_digits (after_point : bool) (mant : Z) (frac : nat) (s : string)
    : Z * nat :=
  match s with
  | EmptyString => (mant, frac)
  | String c s' =>
      if is_digit c
      then decimal_digits after_point (10 * mant + digit_value c)%Z
             (if after_point then S frac else frac) s'
      else if Ascii.eqb c "."%char
      then decimal_digits true mant frac s'
      else decimal_digits after_point mant frac s'
  end.

(** [float(tok)] for a token of the shape [[-+]?\d*\.?\d+], the only strings
    [_parse_number] converts: the nearest binary64 number to the decimal. *)
Definition py_float (tok : string) : float :=
  let neg := startswith "-" tok in
  let '(mant, frac) := decimal_digits false 0 0 tok in
  round_ratio neg mant (10 ^ Z.of_nat frac).

(** [float('inf')] *)
Definition float_inf : float := infinity.

(** ** Decimal parsing *)

(** [[-+]?\d*\.?\d+] *)
Definition number_re : regex :=
  Cat (Opt (Cls (one_of "-+")))
 (Cat (Star (Cls is_digit))
 (Cat (Opt (chr "."%char))
      (Plus (Cls is_digit)))).

(** The local [cleaned_text] of [_parse_number]. *)
Definition cleaned_text (text : string) : string :=
  str_strip (str_replace "," "." (str_replace "." "" (str_replace "€" "" text))).

(** [KontomanagerClient._parse_number] *)
Definition _parse_number (text : string) (default : float) : float :=
  if is_empty text then default
  else
    match re_search number_re (cleaned_text text) with
    | Some m => py_float (group0 m)
    | None => default
    end.

(** ** Usage bars *)

(** A pattern that is a sequence of parts. *)
Fixpoint seq (rs : list regex) : regex :=
  match rs with
  | [] => Eps
  | [r] => r
  | r :: rs' => Cat r (seq rs')
  end.

(** [[\d\.,]] *)
Definition is_num_char (c : ascii) : bool := is_digit c || one_of ".," c.

(** [Verbraucht:\s*([\d\.,]+)\s*\(von\s*([\d\.,]+|unlimited)\s*(\w+)\)?]
    compiled with [re.IGNORECASE]. *)
Definition usage_bar_re : regex :=
  seq [ lit_i "Verbraucht:"; Star (Cls is_space);
        Group 1 (Plus (Cls is_num_char));
        Star (Cls is_space); lit_i "(von"; Star (Cls is_space);
        Group 2 (Alt (Plus (Cls is_num_char)) (lit_i "unlimited"));
        Star (Cls is_space);
        Group 3 (Plus (Cls is_word));
        Opt (chr ")"%char) ].

(** [m.group(n)] for a group that takes part in every match of its pattern. *)
Definition group_text (n : nat) (m : re_match) : string :=
  match group n m with
  | Some s => s
  | None => ""
  end.

(** [KontomanagerClient._parse_usage_bar] *)
Definition _parse_usage_bar (text : string) : float * float * string :=
  match re_search usage_bar_re text with
  | Some m =>
      let used := _parse_number (group_text 1 m) 0 in
      let total_str := group_text 2 m in
      let total :=
        if String.eqb (str_lower total_str) "unlimited" then float_inf
        else _parse_number total_str 0 in
      let unit := group_text 3 m in
      (used, total, unit)
  | None => (0%float, 0%float, "")
  end.

(** ** Exceptions *)

Inductive exn : Type :=
| KontomanagerClientError (msg : string)   (* the client's own error *)
| ValueError (msg : string)                (* [strptime] on text that is no date *)
| HTTPStatusError (status : Z)             (* [raise_for_status] *)
| RequestError (msg : string)              (* a transport failure *)
| ValidationError (msg : string)           (* a model rejected a field *)
| JSONDecodeError (msg : string)           (* [response.json()] on text that is no JSON *)
| AttributeError (msg : string)            (* a method the value does not have *)
| TypeError (msg : string).                (* a loop over a value that is no collection *)

Inductive result (A : Type) : Type :=
| Ok (a : A)
| Raise (e : exn).
Arguments Ok {A} a.
Arguments Raise {A} e.

(** [str(e)] *)
Definition exn_str (e : exn) : string :=
  match e with
  | KontomanagerClientError msg => msg
  | ValueError msg => msg
  | HTTPStatusError _ => "HTTP status error"
  | RequestError msg => msg
  | ValidationError msg => msg
  | JSONDecodeError msg => msg
  | AttributeError msg => msg
  | TypeError msg => msg
  end.

(** ** Dates: [datetime.strptime] *)

Record date : Type := MkDate { year : Z; month : Z; day : Z }.

Record datetime : Type :=
  MkDatetime { dt_date : date; hour : Z; minute : Z; second : Z }.

Definition is_leap (y : Z) : bool :=
  (y mod 4 =? 0)%Z && (negb (y mod 100 =? 0)%Z || (y mod 400 =? 0)%Z).

Definition days_in_month (y m : Z) : Z :=
  if (m =? 2)%Z then (if is_leap y then 29 else 28)%Z
  else if ((m =? 4) || (m =? 6) || (m =? 9) || (m =? 11))%Z then 30%Z
  else 31%Z.

(** The range checks of the [date] and [datetime] constructors. *)
Definition valid_date (d : date) : bool :=
  ((1 <=? year d) && (year d <=? 9999) && (1 <=? month d) && (month d <=? 12)
   && (1 <=? day d) && (day d <=? days_in_month (year d) (month d)))%Z.

Definition valid_time (h mi s : Z) : bool :=
  ((0 <=? h) && (h <=? 23) && (0 <=? mi) && (mi <=? 59) && (0 <=? s) && (s <=? 59))%Z.

(** The patterns [_strptime] puts in place of the directives, each a group
    of its own: d is 1, m is 2, Y is 3, H is 4, M is 5, S is 6. *)
Definition between (lo hi : ascii) : regex :=
  Cls (fun c => (code lo <=? code c)%nat && (code c <=? code hi)%nat).

Definition any_digit : regex := Cls is_digit.

(** [3[0-1]|[1-2]\d|0[1-9]|[1-9]| [1-9]] *)
Definition re_d : regex :=
  Alt (Cat (chr "3") (between "0" "1"))
 (Alt (Cat (between "1" "2") any_digit)
 (Alt (Cat (chr "0") (between "1" "9"))
 (Alt (between "1" "9")
      (Cat (chr " ") (between "1" "9")))))%char.

(** [1[0-2]|0[1-9]|[1-9]] *)
Definition re_m : regex :=
  Alt (Cat (chr "1") (between "0" "2"))
 (Alt (Cat (chr "0") (between "1" "9"))
      (between "1" "9"))%char.

(** [\d\d\d\d] *)
Definition re_Y : regex := seq [any_digit; any_digit; any_digit; any_digit].

(** [2[0-3]|[0-1]\d|\d] *)
Definition re_H : regex :=
  Alt (Cat (chr "2") (between "0" "3"))
 (Alt (Cat (between "0" "1") any_digit)
      any_digit)%char.

(** [[0-5]\d|\d] *)
Definition re_M : regex :=
  Alt (Cat (between "0" "5") any_digit) any_digit%char.

(** [6[0-1]|[0-5]\d|\d] *)
Definition re_S : regex :=
  Alt (Cat (chr "6") (between "0" "1"))
 (Alt (Cat (between "0" "5") any_digit)
      any_digit)%char.

(** Where the reading of a format stands: after ordinary text, inside a run
    of white space, or just after a percent sign. *)
Inductive format_state : Type := F_text | F_space | F_percent.

Definition directive (d : ascii) : option regex :=
  (if Ascii.eqb d "d" then Some (Group 1 re_d)
   else if Ascii.eqb d "m" then Some (Group 2 re_m)
   else if Ascii.eqb d "Y" then Some (Group 3 re_Y)
   else if Ascii.eqb d "H" then Some (Group 4 re_H)
   else if Ascii.eqb d "M" then Some (Group 5 re_M)
   else if Ascii.eqb d "S" then Some (Group 6 re_S)
   else None)%char.

(** The pattern of a format: a directive becomes its group, a run of
    white space becomes [\s+], any other character stands for itself
    (the pattern is compiled with [re.IGNORECASE]).  [None] for a directive
    the client's formats do not use. *)
Fixpoint format_parts (st : format_state) (fmt : string) : option (list regex) :=
  match fmt with
  | EmptyString => match st with F_percent => None | _ => Some [] end
  | String c fmt' =>
      match st with
      | F_percent =>
          match directive c, format_parts F_text fmt' with
          | Some r, Some rs => Some (r :: rs)
          | _, _ => None
          end
      | _ =>
          if is_space c then
            match st with
            | F_space => format_parts F_space fmt'
            | _ => option_map (cons (Plus (Cls is_space))) (format_parts F_space fmt')
            end
          else if Ascii.eqb c "%"%char then format_parts F_percent fmt'
          else option_map (cons (chr_i c)) (format_parts F_text fmt')
      end
  end.

Definition format_regex (fmt : string) : option regex :=
  option_map seq (format_parts F_text fmt).

(** [int(m.group(n))], and [dflt] for a directive the format does not have. *)
Definition group_int (n : nat) (dflt : Z) (m : re_match) : Z :=
  match group n m with
  | Some s => int_of_digits (str_strip s)
  | None => dflt
  end.

(** ['...'] around a text, as in the messages of [strptime]. *)
Definition quoted (s : string) : string := "'" +:+ s +:+ "'".

(** [datetime.strptime(data_string, fmt)]: the pattern of the format has to
    match at the start and up to the end of the text, and the fields have to
    make a date and a time of day. *)
Definition strptime (data_string fmt : string) : result datetime :=
  match format_regex fmt with
  | None => Raise (ValueError ("bad directive in format " +:+ quoted fmt))
  | Some r =>
      match re_match_at r data_string with
      | None =>
          Raise (ValueError ("time data " +:+ quoted data_string
                             +:+ " does not match format " +:+ quoted fmt))
      | Some (m, rest) =>
          if negb (is_empty rest)
          then Raise (ValueError ("unconverted data remains: " +:+ rest))
          else
            let d := MkDate (group_int 3 1900 m) (group_int 2 1 m) (group_int 1 1 m) in
            let h := group_int 4 0 m in
            let mi := group_int 5 0 m in
            let s := group_int 6 0 m in
            if valid_date d && valid_time h mi s
            then Ok (MkDatetime d h mi s)
            else Raise (ValueError "date or time out of range")
      end
  end.

(** [datetime.strptime(s, fmt).date()] *)
Definition strptime_date (data_string fmt : string) : result date :=
  match strptime data_string fmt with
  | Ok dt => Ok (dt_date dt)
  | Raise e => Raise e
  end.

(** ** The domain model ([models.py]) *)

Record UnitQuota : Type := MkUnitQuota {
  name : option string;
  used : float;
  total : float;
  quota_unit : string;            (* the field [unit] *)
  remaining : float;
  unlimited : bool
}.

Record PackageUsage : Type := MkPackageUsage {
  package_name : string;
  valid_from : option datetime;
  valid_until : option datetime;
  minutes : option UnitQuota;
  sms : option UnitQuota;
  data_domestic : option UnitQuota;
  data_eu : option UnitQuota;
  data_carried_over : option UnitQuota;
  monthly_cost : option float
}.

Record AccountUsage : Type := MkAccountUsage {
  phone_number : string;
  is_admin : bool;
  is_prepaid : bool;
  credit : option float;
  sim_valid_until : option date;
  last_recharge : option date;
  current_costs : float;
  next_bill_date : option date;
  packages : list PackageUsage
}.

Record BillSummary : Type := MkBillSummary {
  bill_number : string;
  bill_date : date;               (* the field [date] *)
  amount : float;
  currency : string;
  has_egn : bool;
  bill_pdf_url : string;
  egn_pdf_url : option string
}.

Record CallHistoryEntry : Type := MkCallHistoryEntry {
  timestamp : datetime;
  entry_type : string;            (* the field [type] *)
  number : string;
  duration : option string;
  cost : float
}.

Record SimSettings : Type := MkSimSettings {
  roaming_barred : option bool;
  non_eu_roaming_barred : option bool;
  roaming_sms_disable : option bool;
  int_voice_barred : option bool;
  international_sms_disable : option bool;
  mpty_barred : option bool;
  premium_barred : option bool;
  data_barred : option bool;
  data_roaming_barred : option bool;
  non_eu_data_roaming_barred : option bool
}.

Record CallForwardingRule : Type := MkCallForwardingRule {
  condition : string;
  target : string;
  target_number : option string;
  delay_seconds : option Z
}.

Record CallForwardingSettings : Type := MkCallForwardingSettings {
  rules : list CallForwardingRule;
  editable_on_phone : bool;
  voicemail_play_cli_disable : bool
}.

(** [UnitQuota(used=.., total=.., unit=.., remaining=..)] with the defaults
    of the other fields, and with [unlimited] given. *)
Definition new_quota (u t : float) (un : string) (r : float) (unl : bool) : UnitQuota :=
  MkUnitQuota None u t un r unl.

(** [quota.copy(update={"unit": un})] *)
Definition with_unit (un : string) (q : UnitQuota) : UnitQuota :=
  MkUnitQuota (name q) (used q) (total q) un (remaining q) (unlimited q).

(** [PackageUsage(package_name=title)] *)
Definition new_package (title : string) : PackageUsage :=
  MkPackageUsage title None None None None None None None None.

(** Assignments to the fields of a package. *)
Definition set_valid_from (v : datetime) (p : PackageUsage) : PackageUsage :=
  MkPackageUsage (package_name p) (Some v) (valid_until p) (minutes p) (sms p)
    (data_domestic p) (data_eu p) (data_carried_over p) (monthly_cost p).
Definition set_valid_until (v : datetime) (p : PackageUsage) : PackageUsage :=
  MkPackageUsage (package_name p) (valid_from p) (Some v) (minutes p) (sms p)
    (data_domestic p) (data_eu p) (data_carried_over p) (monthly_cost p).
Definition set_minutes_sms (q : UnitQuota) (p : PackageUsage) : PackageUsage :=
  MkPackageUsage (package_name p) (valid_from p) (valid_until p)
    (Some (with_unit "Minutes/SMS" q)) (Some (with_unit "Minutes/SMS" q))
    (data_domestic p) (data_eu p) (data_carried_over p) (monthly_cost p).
Definition set_data_domestic (q : UnitQuota) (p : PackageUsage) : PackageUsage :=
  MkPackageUsage (package_name p) (valid_from p) (valid_until p) (minutes p) (sms p)
    (Some q) (data_eu p) (data_carried_over p) (monthly_cost p).
Definition set_data_eu (q : UnitQuota) (p : PackageUsage) : PackageUsage :=
  MkPackageUsage (package_name p) (valid_from p) (valid_until p) (minutes p) (sms p)
    (data_domestic p) (Some q) (data_carried_over p) (monthly_cost p).
Definition set_data_carried_over (q : UnitQuota) (p : PackageUsage) : PackageUsage :=
  MkPackageUsage (package_name p) (valid_from p) (valid_until p) (minutes p) (sms p)
    (data_domestic p) (data_eu p) (Some q) (monthly_cost p).
Definition set_monthly_cost (c : float) (p : PackageUsage) : PackageUsage :=
  MkPackageUsage (package_name p) (valid_from p) (valid_until p) (minutes p) (sms p)
    (data_domestic p) (data_eu p) (data_carried_over p) (Some c).

Record PhoneNumber : Type := MkPhoneNumber {
  pn_name : string;               (* the field [name] *)
  pn_number : string;             (* the field [number] *)
  subscriber_id : option string;
  is_active : bool
}.

(** The artifact the tool [download_bill] returns: [Image(data=...)] with
    its field [_mime_type]. *)
Record Image : Type := MkImage {
  image_data : string;            (* the field [data] *)
  _mime_type : string
}.

(** ** Settings ([settings.py]) *)

Record Settings : Type := MkSettings {
  brand : string;
  username : string;
  password : string
}.

Definition brand_urls : list (string * string) :=
  [ ("yesss", "https://www.yesss.at/kontomanager.at/app/");
    ("georg", "https://kundencenter.georg.at/app/");
    ("xoxo", "https://xoxo.kontomanager.at/app/") ].

Fixpoint assoc (k : string) (l : list (string * string)) : option string :=
  match l with
  | [] => None
  | (k', v) :: l' => if String.eqb k' k then Some v else assoc k l'
  end.

(** [Settings.base_url] *)
Definition base_url (st : Settings) : result string :=
  match assoc (str_lower (brand st)) brand_urls with
  | Some url => Ok url
  | None => Raise (ValueError ("Unknown brand: " +:+ brand st))
  end.

(** The double quote, for the queries that hold one. *)
Definition dquote : string := String (ascii_of_nat 34) EmptyString.

(** [str(n)] *)
Definition str_of_Z (n : Z) : string := NilZero.string_of_int (Z.to_int n).

(** The decimal digits of [n], padded with zeros on the left to [width]. *)
Definition zero_padded (width : nat) (n : Z) : string :=
  let s := str_of_Z n in
  String.concat "" (repeat "0" (width - String.length s)) +:+ s.

(** [str(d)] for a date: year, month and day, as in 2024-01-31. *)
Definition date_str (d : date) : string :=
  zero_padded 4 (year d) +:+ "-" +:+ zero_padded 2 (month d) +:+ "-" +:+ zero_padded 2 (day d).

(** ** The client ([client.py])

    The portal and the libraries the client calls are variables of the
    section: the selector library (a selector made from a text, its [css]
    and [xpath] queries, the data of a node), [urljoin], the JSON decoder,
    the day [date.today()] gives, and the portal itself, which answers a
    request, given the requests sent before it, with a response or with a
    transport failure. *)

Record Response : Type := MkResponse { status_code : Z; text : string }.

Inductive Request : Type :=
| Get (url : string) (params : list (string * string))
| Post (url : string) (data : gmap string string).

(** JSON values, as [response.json()] gives them. *)
Inductive json : Type :=
| JNull
| JBool (b : bool)
| JNum (n : Z)
| JStr (s : string)
| JArr (items : list json)
| JObj (fields : list (string * json)).

(** The state of a client: its settings, the flag [_logged_in], the requests
    its session has sent (oldest first) and the warnings it has logged. *)
Record Client : Type := MkClient {
  settings : Settings;
  _logged_in : bool;
  sent : list Request;
  warnings : list string
}.

(** [KontomanagerClient(settings)] *)
Definition new_client (st : Settings) : result Client :=
  match base_url st with
  | Ok _ => Ok (MkClient st false [] [])
  | Raise e => Raise e
  end.

(** Computations of the client: they read and change its state, and return
    or raise. *)
Definition M (A : Type) : Type := Client -> result A * Client.

Definition ret {A : Type} (a : A) : M A := fun c => (Ok a, c).

Definition raise {A : Type} (e : exn) : M A := fun c => (Raise e, c).

Definition bind {A B : Type} (m : M A) (k : A -> M B) : M B :=
  fun c => match m c with
           | (Ok a, c') => k a c'
           | (Raise e, c') => (Raise e, c')
           end.

(** [try: m  except ... as e: h e] *)
Definition catch {A : Type} (m : M A) (h : exn -> M A) : M A :=
  fun c => match m c with
           | (Ok a, c') => (Ok a, c')
           | (Raise e, c') => h e c'
           end.

Definition lift {A : Type} (r : result A) : M A := fun c => (r, c).

Notation "'let*' x ':=' m 'in' k" := (bind m (fun x => k))
  (at level 10, x name, m at level 100, k at level 200).
Notation "'let*' '_' ':=' m 'in' k" := (bind m (fun _ => k))
  (at level 10, m at level 100, k at level 200).

(** [logger.warning(msg)] *)
Definition warning (msg : string) : M unit :=
  fun c => (Ok tt, MkClient (settings c) (_logged_in c) (sent c) (warnings c ++ [msg])).

Definition set_logged_in (b : bool) : M unit :=
  fun c => (Ok tt, MkClient (settings c) b (sent c) (warnings c)).

(** A loop over a list that carries the local variables [s]. *)
Fixpoint for_each {X S : Type} (body : S -> X -> M S) (l : list X) (s : S) : M S :=
  match l with
  | [] => ret s
  | x :: l' => let* s' := body s x in for_each body l' s'
  end.

(** [response.raise_for_status()] *)
Definition raise_for_status (r : Response) : M unit :=
  if ((200 <=? status_code r) && (status_code r <=? 299))%Z then ret tt
  else raise (HTTPStatusError (status_code r)).

(** [x or d] on optional text. *)
Definition or_else (o : option string) (d : string) : string :=
  match o with
  | Some s => if is_empty s then d else s
  | None => d
  end.

(** The truth value of optional text: [None] and [""] are false. *)
Definition truthy (o : option string) : bool :=
  match o with
  | Some s => negb (is_empty s)
  | None => false
  end.

(** [key, value = [x.strip() for x in text.split(":", 1)]], for a text that
    has a colon. *)
Definition key_value (text : string) : string * string :=
  match str_split1 ":" text with
  | k :: v :: _ => (str_strip k, str_strip v)
  | [k] => (str_strip k, "")
  | [] => ("", "")
  end.

(** [parts[-1]] *)
Definition last_part (parts : list string) : string := List.last parts "".

Definition contains_str (l : list string) (s : string) : bool :=
  existsb (String.eqb s) l.

(** [self._excluded_sections] *)
Definition _excluded_sections : list string :=
  [ "Ukraine Freieinheiten"; "Ihre Kostenkontrolle"; "TUR SYR Einheiten";
    "Verknüpfte Rufnummern"; "Aktuelle Kosten"; "Oft benutzt"; "Gruppenfunktion" ].

(** [([\d\.,]+)\s*MB von ([\d\.,]+)\s*MB] *)
Definition eu_data_re : regex :=
  seq [ Group 1 (Plus (Cls is_num_char)); Star (Cls is_space); lit "MB von ";
        Group 2 (Plus (Cls is_num_char)); Star (Cls is_space); lit "MB" ].

(** The pattern [r{0,n}]: at most [n] times [r], as many as possible. *)
Fixpoint at_most (n : nat) (r : regex) : regex :=
  match n with
  | O => Eps
  | S n' => Opt (Cat r (at_most n' r))
  end.

(** The pattern [r{n}]: [n] times [r]. *)
Fixpoint times (n : nat) (r : regex) : regex :=
  match n with
  | O => Eps
  | S n' => Cat r (times n' r)
  end.

(** [\+?\d{5,30}], the pattern of the tool [set_call_forwarding_rule]
    between its anchors. *)
Definition target_number_re : regex :=
  Cat (Opt (chr "+"%char))
      (Cat (times 5 (Cls is_digit)) (at_most 25 (Cls is_digit))).

(** Where [$] matches: at the end of the text, or before a line feed that
    ends it. *)
Definition at_end (rest : string) : bool :=
  is_empty rest || String.eqb rest (String (ascii_of_nat 10) "").

Section Client.

Context {Selector : Type}.
Variable from_text : string -> Selector.              (* [Selector(text=...)] *)
Variable css : string -> Selector -> list Selector.   (* [node.css(query)] *)
Variable xpath : string -> Selector -> list Selector. (* [node.xpath(query)] *)
Variable node_data : Selector -> string.              (* [node.get()] *)
Variable urljoin : string -> string -> string.
Variable json_of_text : string -> option json.        (* [response.json()] *)
Variable today : date.                                (* [date.today()] *)
Variable portal : list Request -> Request -> Response + string.
Variable attrib : string -> Selector -> option string. (* [node.attrib.get(name)] *)
Variable unquote : string -> string.                   (* [urllib.parse.unquote] *)
Variable header : string -> Response -> option string. (* [response.headers.get(name)] *)

(** [nodes.get()], [nodes.get(d)] and [nodes.getall()] on the list of nodes
    a query gives. *)
Definition get (nodes : list Selector) : option string :=
  match nodes with
  | [] => None
  | n :: _ => Some (node_data n)
  end.

Definition get_or (d : string) (nodes : list Selector) : string :=
  match get nodes with
  | Some s => s
  | None => d
  end.

Definition getall (nodes : list Selector) : list string := map node_data nodes.

(** A query on every node of a list. *)
Definition css_all (q : string) (nodes : list Selector) : list Selector :=
  flat_map (css q) nodes.

(** [self._session.get(url, params=...)] and [self._session.post(url, data=...)] *)
Definition send (rq : Request) : M Response :=
  fun c =>
    let c' := MkClient (settings c) (_logged_in c) (sent c ++ [rq]) (warnings c) in
    match portal (sent c) rq with
    | inl r => (Ok r, c')
    | inr msg => (Raise (RequestError msg), c')
    end.

Definition session_get (url : string) (params : list (string * string)) : M Response :=
  send (Get url params).

Definition session_post (url : string) (data : gmap string string) : M Response :=
  send (Post url data).

(** [KontomanagerClient.login] *)
Definition login : M unit :=
  fun c0 =>
  catch
    (let* _ := session_get "index.php" [] in
     let* response := session_post "index.php"
       (<["login_rufnummer" := username (settings c0)]>
          (<["login_passwort" := password (settings c0)]> ∅)) in
     let* _ := raise_for_status response in
     let sel := from_text (text response) in
     if truthy (get (css "#loginform" sel))
        || str_contains "Die eingegebenen Daten sind leider nicht korrekt" (text response)
     then
       let error_message :=
         or_else (get (css ("div[role=" +:+ dquote +:+ "alert" +:+ dquote
                            +:+ "] p strong::text") sel))
                 "Invalid credentials" in
       raise (KontomanagerClientError ("Login failed: " +:+ error_message))
     else set_logged_in true)
    (fun e =>
       match e with
       | HTTPStatusError code =>
           raise (KontomanagerClientError ("HTTP error during login: " +:+ str_of_Z code))
       | RequestError msg =>
           raise (KontomanagerClientError ("Network error during login: " +:+ msg))
       | _ => raise e
       end) c0.

(** [KontomanagerClient._ensure_logged_in] *)
Definition _ensure_logged_in : M unit :=
  fun c => if _logged_in c then ret tt c else login c.

(** *** The overview page *)

(** The text of a list item: [" ".join(item.css("::text").getall()).strip()] *)
Definition item_text (item : Selector) : string :=
  str_strip (str_join " " (getall (css "::text" item))).

(** One round of the loop over the progress items of a card; the local
    variables are the package and the flag [has_usage_data]. *)
Definition progress_step (st : PackageUsage * bool) (item : Selector)
    : PackageUsage * bool :=
  let '(package, has_usage_data) := st in
  let heading := str_lower (get_or "" (css ".progress-heading::text" item)) in
  let bar_right_text := get_or "" (css ".bar-label-right::text" item) in
  let '(used_, total_, unit_) := _parse_usage_bar bar_right_text in
  if is_empty unit_ then (package, has_usage_data)
  else
    let quota :=
      new_quota used_ total_ unit_ (total_ - used_)%float
                (PrimFloat.eqb total_ float_inf) in
    if str_contains "minuten/sms" heading then (set_minutes_sms quota package, true)
    else if str_contains "datenvolumen" heading then (set_data_domestic quota package, true)
    else (package, true).

(** One round of the loop over the detail rows of a card. *)
Definition detail_step (package : PackageUsage) (detail_item : Selector)
    : M PackageUsage :=
  let text_ := item_text detail_item in
  if negb (str_contains ":" text_) then ret package
  else
    let '(key, value) := key_value text_ in
    let key_lower := str_replace "&uuml;" "ü" (str_lower key) in
    if String.eqb key_lower "gültig von" then
      let* v := lift (strptime value "%d.%m.%Y %H:%M") in
      ret (set_valid_from v package)
    else if String.eqb key_lower "gültig bis" then
      let* v := lift (strptime value "%d.%m.%Y %H:%M") in
      ret (set_valid_until v package)
    else if String.eqb key_lower "gesamtkosten" then
      ret (set_monthly_cost (_parse_number value 0) package)
    else if str_contains "preis" key_lower
            && match monthly_cost package with None => true | Some _ => false end then
      ret (set_monthly_cost (_parse_number value 0) package)
    else if String.eqb key_lower "datenvolumen eu verbleibend" then
      match re_search eu_data_re value with
      | Some m =>
          let remaining_eu := _parse_number (group_text 1 m) 0 in
          let total_eu := _parse_number (group_text 2 m) 0 in
          ret (set_data_eu
                 (new_quota (total_eu - remaining_eu)%float total_eu "MB" remaining_eu false)
                 package)
      | None => ret package
      end
    else if String.eqb key_lower "datenmitnahme aus den vormonaten" then
      ret (set_data_carried_over
             (new_quota 0 (_parse_number value 0) "MB" (_parse_number value 0) false)
             package)
    else ret package.

(** The body of [for card in sel.css("div.card")] for a card that is a
    contract or usage package: the package it adds, if it adds one. *)
Definition package_card (title : string) (card : Selector) : M (option PackageUsage) :=
  let '(package, has_usage_data) :=
    fold_left progress_step (css ".progress-item" card) (new_package title, false) in
  let* package := for_each detail_step (css ".collapse .list-group-item" card) package in
  ret (if has_usage_data then Some package else None).

(** The local variables of [get_account_usage] that the loop over the
    cards changes: [packages] and the entries of [account_details]. *)
Record overview : Type := MkOverview {
  ov_packages : list PackageUsage;
  ov_credit : option float;
  ov_sim_valid_until : option date;
  ov_last_recharge : option date
}.

(** The local variables of the loop over the items of the prepaid SIM card. *)
Record sim_info : Type := MkSimInfo {
  si_total_credit : float;
  si_sim_valid_until : option date;
  si_last_recharge : option date
}.

Definition sim_info_step (si : sim_info) (item : Selector) : M sim_info :=
  let text_ := item_text item in
  if negb (str_contains ":" text_) then ret si
  else
    let '(key, value) := key_value text_ in
    let key_lower := str_strip (str_lower key) in
    if String.eqb key_lower "ihr aktuelles standardguthaben"
       || String.eqb key_lower "ihr aktuelles bonusguthaben" then
      ret (MkSimInfo (si_total_credit si + _parse_number value 0)%float
                     (si_sim_valid_until si) (si_last_recharge si))
    else if str_contains "letzte aufladung" key_lower then
      match strptime_date value "%d.%m.%Y" with
      | Ok d => ret (MkSimInfo (si_total_credit si) (si_sim_valid_until si) (Some d))
      | Raise (ValueError _) =>
          let* _ := warning ("Could not parse last_recharge date: " +:+ value) in
          ret si
      | Raise e => raise e
      end
    else if str_contains "gültigkeit ihrer yesss! sim-karte" key_lower then
      match strptime_date value "%d.%m.%Y" with
      | Ok d => ret (MkSimInfo (si_total_credit si) (Some d) (si_last_recharge si))
      | Raise (ValueError _) =>
          let* _ := warning ("Could not parse sim_valid_until date: " +:+ value) in
          ret si
      | Raise e => raise e
      end
    else ret si.

Definition tariff_step (pkgs : list PackageUsage) (item : Selector) : list PackageUsage :=
  let text_ := str_strip (get_or "" (css "::text" item)) in
  if str_contains "tarif:" (str_lower text_)
  then pkgs ++ [new_package (str_strip (last_part (str_split ":" text_)))]
  else pkgs.

(** One round of [for card in sel.css("div.card")]. *)
Definition card_step (prepaid : bool) (ov : overview) (card : Selector) : M overview :=
  let title := str_replace ":" "" (str_strip (get_or "" (css ".card-title::text" card))) in
  if is_empty title || contains_str _excluded_sections title then ret ov
  else if prepaid && String.eqb title "SIM Info" then
    let* si := for_each sim_info_step (css ".list-group-item" card)
                 (MkSimInfo 0 (ov_sim_valid_until ov) (ov_last_recharge ov)) in
    ret (MkOverview
           (fold_left tariff_step (css ".list-group-item .bold" card) (ov_packages ov))
           (Some (si_total_credit si)) (si_sim_valid_until si) (si_last_recharge si))
  else
    let* p := package_card title card in
    ret (match p with
         | Some package =>
             MkOverview (ov_packages ov ++ [package]) (ov_credit ov)
                        (ov_sim_valid_until ov) (ov_last_recharge ov)
         | None => ov
         end).

(** One round of the loop over the detail rows of the costs card of a
    contract; the local variables are [current_costs] and [next_bill_date]. *)
Definition costs_step (st : float * option date) (detail_item : Selector)
    : M (float * option date) :=
  let text_ := item_text detail_item in
  if str_contains ":" text_ then
    let '(key, value) := key_value text_ in
    if str_contains "Vorläufige Kosten" key then ret (_parse_number value 0, snd st)
    else if str_contains "Vorläufiges Rechnungsdatum" key then
      let* d := lift (strptime_date value "%d.%m.%Y") in
      ret (fst st, Some d)
    else ret st
  else ret st.

(** [KontomanagerClient.get_account_usage] *)
Definition get_account_usage : M AccountUsage :=
  let* _ := _ensure_logged_in in
  catch
    (let* response := session_get "kundendaten.php" [] in
     let* _ := raise_for_status response in
     let sel := from_text (text response) in
     let prepaid :=
       str_contains "wertkarte" (str_lower (get_or "" (css "h1:first-of-type::text" sel))) in
     let raw_phone_text := str_strip (get_or "" (css "#user-dropdown span::text" sel)) in
     let admin := str_contains "admin" (str_lower raw_phone_text) in
     let phone_number_part := str_strip (last_part (split_on " - " raw_phone_text)) in
     let active_phone_number := _normalize_phone_number phone_number_part in
     let* ov := for_each (card_step prepaid) (css "div.card" sel)
                  (MkOverview [] None None None) in
     let costs_card :=
       xpath "//h1[contains(text(), 'Aktuelle Kosten')]/ancestor::div[@class='card']" sel in
     let* costs :=
       match costs_card with
       | [] => ret (0%float, None)
       | _ :: _ =>
           if prepaid then
             ret (_parse_number (get_or "" (css_all ".progress-heading::text" costs_card)) 0,
                  None)
           else
             for_each costs_step (css_all ".collapse .list-group-item" costs_card)
                      (0%float, None)
       end in
     ret (MkAccountUsage active_phone_number admin prepaid (ov_credit ov)
            (ov_sim_valid_until ov) (ov_last_recharge ov) (fst costs) (snd costs)
            (ov_packages ov)))
    (fun e =>
       match e with
       | RequestError msg =>
           raise (KontomanagerClientError ("HTTP error fetching account usage: " +:+ msg))
       | _ =>
           raise (KontomanagerClientError ("Failed to parse account usage: " +:+ exn_str e))
       end).

(** *** Bills *)

(** What [list_bills] reads from a row: the stripped text of the date cell
    and the two links. *)
Definition row_date_raw (row : Selector) : string :=
  str_strip (get_or "" (xpath "li[1]/div/div[2]/text()" row)).

Definition row_bill_pdf_url (row : Selector) : option string :=
  get (xpath "li[4]/div/div/a/@href" row).

Definition row_egn_pdf_url (row : Selector) : option string :=
  get (xpath "li[5]/div/div/a/@href" row).

(** [strptime(date_raw, "%d.%m.%Y").date() if date_raw else date.today()] *)
Definition row_date (row : Selector) : result date :=
  if negb (is_empty (row_date_raw row))
  then strptime_date (row_date_raw row) "%d.%m.%Y"
  else Ok today.

(** The [BillSummary(...)] made from a row, given the base address and the
    date of the bill. *)
Definition bill_of_row (base : string) (d : date) (row : Selector) : BillSummary :=
  MkBillSummary
    (str_strip (get_or "" (xpath "li[3]/div/div[2]/text()" row)))
    d
    (_parse_number (get_or "" (xpath "li[2]/div/div[2]/text()" row)) 0)
    "EUR"
    (truthy (row_egn_pdf_url row))
    (urljoin base (or_else (row_bill_pdf_url row) ""))
    (if truthy (row_egn_pdf_url row)
     then Some (urljoin base (or_else (row_egn_pdf_url row) "")) else None).

Definition skip_warning (d : date) : string :=
  "Skipping a bill entry from " +:+ date_str d +:+ " because no PDF URL was found.".

(** One round of [for row in sel.xpath(...)] of [list_bills]; the local
    variable is the list [bills]. *)
Definition bill_step (bills : list BillSummary) (row : Selector) : M (list BillSummary) :=
  fun c =>
  (let* bill_date_ := lift (row_date row) in
   if negb (truthy (row_bill_pdf_url row)) then
     let* _ := warning (skip_warning bill_date_) in
     ret bills
   else
     let* base := lift (base_url (settings c)) in
     ret (bills ++ [bill_of_row base bill_date_ row])) c.

(** A row has a main link when [bill_pdf_url] is neither [None] nor empty. *)
Definition has_main_link (row : Selector) : bool := truthy (row_bill_pdf_url row).

(** A row and the bill returned for it. *)
Definition bill_for (base : string) (row : Selector) (b : BillSummary) : Prop :=
  exists d, row_date row = Ok d /\ b = bill_of_row base d row.

(** The query that selects the rows of the bill list. *)
Definition bill_rows_query : string :=
  "//ul[@class=" +:+ dquote +:+ "list-group mt-3" +:+ dquote +:+ "]".

(** [KontomanagerClient.list_bills] *)
Definition list_bills : M (list BillSummary) :=
  let* _ := _ensure_logged_in in
  catch
    (let* response := session_get "rechnungen.php" [] in
     let* _ := raise_for_status response in
     let sel := from_text (text response) in
     let* bills :=
       for_each bill_step (xpath bill_rows_query sel) [] in
     let* _ :=
       match bills with
       | [] => warning "No bills found on the page. The layout might have changed or there are no bills."
       | _ :: _ => ret tt
       end in
     ret bills)
    (fun e =>
       match e with
       | RequestError msg =>
           raise (KontomanagerClientError ("HTTP error fetching bills list: " +:+ msg))
       | _ =>
           raise (KontomanagerClientError ("Failed to parse bills list: " +:+ exn_str e))
       end).

(** *** Call history *)

(** The loop that builds the dictionary [data] of a history block. *)
Definition history_row_step (data : gmap string string) (row : Selector)
    : gmap string string :=
  let key_node := css ".bold::text" row in
  match key_node with
  | [] => data
  | _ :: _ =>
      let key := str_lower (str_strip (str_replace ":" "" (get_or "" key_node))) in
      let value_node := xpath "div/div[2]/text()" row in
      let value := str_strip (get_or "" value_node) in
      <[key := value]> data
  end.

(** [data.get(k, d)] *)
Definition dict_get (k d : string) (data : gmap string string) : string :=
  match data !! k with
  | Some v => v
  | None => d
  end.

(** The dictionary [data] of a history block. *)
Definition block_data (item : Selector) : gmap string string :=
  fold_left history_row_step (css "li.list-group-item" item) ∅.

(** One round of [for item in sel.css("ul.list-group.mt-3")]; the local
    variable is the list [history]. *)
Definition history_step (history : list CallHistoryEntry) (item : Selector)
    : M (list CallHistoryEntry) :=
  let data := block_data item in
  let timestamp_str := data !! "datum/uhrzeit" in
  if negb (truthy timestamp_str) then
    let* _ := warning "Skipping a call history item because its timestamp is missing." in
    ret history
  else
    let timestamp_str := or_else timestamp_str "" in
    let dauer_kosten_str := dict_get "dauer/kosten" "" data in
    let parts := str_split "/" dauer_kosten_str in
    let duration_ :=
      match parts with
      | p0 :: _ => str_strip p0
      | [] => "0:00:00"
      end in
    let cost_str :=
      match parts with
      | _ :: p1 :: _ => str_strip p1
      | _ => "0"
      end in
    match strptime timestamp_str "%d.%m.%Y %H:%M:%S" with
    | Ok ts =>
        let entry :=
          MkCallHistoryEntry ts (dict_get "art" "Unbekannt" data)
            (dict_get "nummer" "" data) (Some duration_) (_parse_number cost_str 0) in
        ret (history ++ [entry])
    | Raise (ValueError _) =>
        let* _ := warning ("Could not parse date for call history item: '"
                           +:+ timestamp_str +:+ "'. Skipping.") in
        ret history
    | Raise e => raise e
    end.

(** [KontomanagerClient.list_call_history] *)
Definition list_call_history : M (list CallHistoryEntry) :=
  let* _ := _ensure_logged_in in
  let* response := session_get "gespraeche.php" [] in
  let* _ := raise_for_status response in
  let sel := from_text (text response) in
  for_each history_step (css "ul.list-group.mt-3" sel) [].

(** *** SIM settings *)

(** [obj.get(k)] on a JSON object; of two fields of one name the later one
    counts. *)
Fixpoint obj_get (k : string) (fields : list (string * json)) : option json :=
  match fields with
  | [] => None
  | (k', v) :: fields' =>
      match obj_get k fields' with
      | Some v' => Some v'
      | None => if String.eqb k' k then Some v else None
      end
  end.

(** [v.get(k, d)] on any JSON value: only objects have the method. *)
Definition json_get (k : string) (d : json) (v : json) : result json :=
  match v with
  | JObj fields =>
      Ok (match obj_get k fields with Some x => x | None => d end)
  | _ => Raise (AttributeError "object has no attribute 'get'")
  end.

(** The items a [for] loop over a JSON value visits: the elements of a
    list, the keys of an object, the characters of a text. *)
Definition json_iter (v : json) : result (list json) :=
  match v with
  | JArr items => Ok items
  | JObj fields => Ok (map (fun kv => JStr (fst kv)) fields)
  | JStr s => Ok (map (fun c => JStr (String c "")) (list_ascii_of_string s))
  | _ => Raise (TypeError "object is not iterable")
  end.

(** The names of the fields of the model: [SimSettings.model_fields]. *)
Definition sim_model_fields : list string :=
  [ "roaming_barred"; "non_eu_roaming_barred"; "roaming_sms_disable";
    "int_voice_barred"; "international_sms_disable"; "mpty_barred";
    "premium_barred"; "data_barred"; "data_roaming_barred";
    "non_eu_data_roaming_barred" ].

(** What the model makes of a value given for a field of type
    [Optional[bool]]: [None] and the booleans stand, the numbers 0 and 1 and
    the usual words for yes and no are read as booleans, anything else is
    rejected. *)
Definition validate_optional_bool (v : json) : result (option bool) :=
  match v with
  | JNull => Ok None
  | JBool b => Ok (Some b)
  | JNum n =>
      if (n =? 0)%Z then Ok (Some false)
      else if (n =? 1)%Z then Ok (Some true)
      else Raise (ValidationError "Input should be a valid boolean")
  | JStr s =>
      if contains_str ["1"; "on"; "t"; "true"; "y"; "yes"] (str_lower s) then Ok (Some true)
      else if contains_str ["0"; "off"; "f"; "false"; "n"; "no"] (str_lower s)
      then Ok (Some false)
      else Raise (ValidationError "Input should be a valid boolean")
  | _ => Raise (ValidationError "Input should be a valid boolean")
  end.

(** The field [k] of [SimSettings( **settings_data )]. *)
Definition sim_field (settings_data : gmap string json) (k : string)
    : result (option bool) :=
  match settings_data !! k with
  | Some v => validate_optional_bool v
  | None => Ok None
  end.

Definition result_bind {A B : Type} (r : result A) (k : A -> result B) : result B :=
  match r with
  | Ok a => k a
  | Raise e => Raise e
  end.

(** [SimSettings( **settings_data )] *)
Definition make_sim_settings (settings_data : gmap string json) : result SimSettings :=
  result_bind (sim_field settings_data "roaming_barred") (fun f1 =>
  result_bind (sim_field settings_data "non_eu_roaming_barred") (fun f2 =>
  result_bind (sim_field settings_data "roaming_sms_disable") (fun f3 =>
  result_bind (sim_field settings_data "int_voice_barred") (fun f4 =>
  result_bind (sim_field settings_data "international_sms_disable") (fun f5 =>
  result_bind (sim_field settings_data "mpty_barred") (fun f6 =>
  result_bind (sim_field settings_data "premium_barred") (fun f7 =>
  result_bind (sim_field settings_data "data_barred") (fun f8 =>
  result_bind (sim_field settings_data "data_roaming_barred") (fun f9 =>
  result_bind (sim_field settings_data "non_eu_data_roaming_barred") (fun f10 =>
  Ok (MkSimSettings f1 f2 f3 f4 f5 f6 f7 f8 f9 f10))))))))))).

(** One round of [for item in api_response.get("data", [])]; the local
    variable is the dictionary [settings_data]. *)
Definition sim_item_step (settings_data : gmap string json) (item : json)
    : result (gmap string json) :=
  result_bind (json_get "key" (JStr "") item) (fun k =>
  match k with
  | JStr key_text =>
      let key := str_replace "-" "_" key_text in
      if contains_str sim_model_fields key then
        result_bind (json_get "value" (JBool false) item) (fun v =>
        Ok (<[key := v]> settings_data))
      else Ok settings_data
  | _ => Raise (AttributeError "object has no attribute 'replace'")
  end).

Fixpoint sim_items_loop (settings_data : gmap string json) (items : list json)
    : result (gmap string json) :=
  match items with
  | [] => Ok settings_data
  | item :: items' =>
      result_bind (sim_item_step settings_data item) (fun d => sim_items_loop d items')
  end.

(** [v == s] for a JSON value and a text. *)
Definition json_is_str (s : string) (v : json) : bool :=
  match v with
  | JStr s' => String.eqb s' s
  | _ => false
  end.

(** [repr] of the response, for the message of the error; the fields of an
    object and the elements of a list are left out. *)
Definition json_repr (v : json) : string :=
  match v with
  | JObj _ => "{...}"
  | JArr _ => "[...]"
  | JStr s => quoted s
  | JNum n => str_of_Z n
  | JBool true => "True"
  | JBool false => "False"
  | JNull => "None"
  end.

(** What [get_sim_settings] does with the decoded response. *)
Definition sim_settings_of_json (api_response : json) : result SimSettings :=
  result_bind (json_get "status" JNull api_response) (fun status =>
  if negb (json_is_str "OK" status) then
    Raise (KontomanagerClientError
             ("SIM settings API returned an error: " +:+ json_repr api_response))
  else
    result_bind (json_get "data" (JArr []) api_response) (fun data =>
    result_bind (json_iter data) (fun items =>
    result_bind (sim_items_loop ∅ items) make_sim_settings))).

(** [KontomanagerClient.get_sim_settings] *)
Definition get_sim_settings : M SimSettings :=
  let* _ := _ensure_logged_in in
  let* response := session_post "einstellungen_sim_getdata.php" ∅ in
  let* _ := raise_for_status response in
  match json_of_text (text response) with
  | Some api_response => lift (sim_settings_of_json api_response)
  | None => raise (JSONDecodeError "Expecting value")
  end.

(** The form [set_sim_setting] posts: the dictionary [payload]. *)
Definition sim_payload (setting_name : string) (enabled : bool) (token : string)
    : gmap string string :=
  <["key" := str_replace "_" "-" setting_name]>
    (<["value" := if enabled then "t" else "f"]> (<["token" := token]> ∅)).

(** [KontomanagerClient.set_sim_setting] *)
Definition set_sim_setting (setting_name : string) (enabled : bool) : M string :=
  let* _ := _ensure_logged_in in
  let* form_page_res := session_get "einstellungen_sim.php" [] in
  let* _ := raise_for_status form_page_res in
  let sel := from_text (text form_page_res) in
  let token := get (css "input[name='token']::attr(value)" sel) in
  if negb (truthy token) then
    raise (KontomanagerClientError "Could not find CSRF token to change SIM settings.")
  else
    let payload := sim_payload setting_name enabled (or_else token "") in
    let* response := session_post "einstellungen_sim_setdata.php" payload in
    let* _ := raise_for_status response in
    if negb (String.eqb (str_upper (str_strip (text response))) "OK") then
      raise (KontomanagerClientError
               ("Failed to set '" +:+ setting_name +:+ "'. API response: " +:+ text response))
    else
      ret ("Successfully set '" +:+ setting_name +:+ "' to "
           +:+ (if enabled then "enabled" else "disabled") +:+ ".").

(** *** Call forwarding *)

Definition rule_ids : list string := ["alle"; "nann"; "wtel"; "nerr"].

(** The body of [for rid in rule_ids] of [get_call_forwarding_settings]:
    the rule read for the condition [rid]. *)
Definition read_rule (sel : Selector) (rid : string) : CallForwardingRule :=
  let target_ :=
    let t := get (css ("select[name='" +:+ rid +:+ "_akt'] option[selected='selected']::attr(value)") sel) in
    if negb (truthy t)
    then get_or "d" (css ("select[name='" +:+ rid +:+ "_akt']::attr(value)") sel)
    else or_else t "" in
  let target_number_ :=
    if String.eqb target_ "a"
    then get (css ("input[name='" +:+ rid +:+ "_rn']::attr(value)") sel)
    else None in
  let delay_seconds_ :=
    if String.eqb rid "nann" then
      let delay_str :=
        let d := get (css "select[name='nann_sek'] option[selected='selected']::attr(value)" sel) in
        if negb (truthy d)
        then get_or "25" (css "select[name='nann_sek']::attr(value)" sel)
        else or_else d "" in
      if negb (is_empty delay_str) && str_isdigit delay_str
      then Some (int_of_digits delay_str) else None
    else None in
  MkCallForwardingRule rid target_ target_number_ delay_seconds_.

(** What [get_call_forwarding_settings] reads from the page. *)
Definition read_call_forwarding (sel : Selector) : CallForwardingSettings :=
  let rules_ := map (read_rule sel) rule_ids in
  let editable_on_phone_val :=
    get_or "d" (css "select[name='btel_akt'] option[selected='selected']::attr(value)" sel) in
  let voicemail_play_cli_val :=
    get_or "d" (css "select[name='voicemail_play_cli_disable'] option[selected='selected']::attr(value)" sel) in
  MkCallForwardingSettings rules_
    (String.eqb editable_on_phone_val "a")
    (String.eqb voicemail_play_cli_val "d").

(** [KontomanagerClient.get_call_forwarding_settings] *)
Definition get_call_forwarding_settings : M CallForwardingSettings :=
  let* _ := _ensure_logged_in in
  let* response := session_get "einstellungen_rufumleitung.php" [] in
  let* _ := raise_for_status response in
  ret (read_call_forwarding (from_text (text response))).

(** One round of [for rule in current_settings.rules] of
    [set_call_forwarding_rule]; the local variable is the payload. *)
Definition payload_step (rule_to_set : CallForwardingRule)
    (payload : gmap string string) (rule : CallForwardingRule) : gmap string string :=
  let rule_to_apply :=
    if String.eqb (condition rule) (condition rule_to_set) then rule_to_set else rule in
  let payload := <[condition rule_to_apply +:+ "_akt" := target rule_to_apply]> payload in
  let payload :=
    if truthy (target_number rule_to_apply)
    then <[condition rule_to_apply +:+ "_rn" := or_else (target_number rule_to_apply) ""]> payload
    else payload in
  if String.eqb (condition rule_to_apply) "nann" then
    match delay_seconds rule_to_apply with
    | Some d => <["nann_sek" := str_of_Z d]> payload
    | None => payload
    end
  else payload.

(** The form [set_call_forwarding_rule] posts. *)
Definition forwarding_payload (current_settings : CallForwardingSettings)
    (token : string) (rule_to_set : CallForwardingRule) : gmap string string :=
  let payload : gmap string string := <["dosubmit" := "1"]> (<["token" := token]> ∅) in
  let payload := fold_left (payload_step rule_to_set) (rules current_settings) payload in
  let payload :=
    <["btel_akt" := if editable_on_phone current_settings then "a" else "d"]> payload in
  <["voicemail_play_cli_disable" :=
      if voicemail_play_cli_disable current_settings then "a" else "d"]> payload.

(** [KontomanagerClient.set_call_forwarding_rule] *)
Definition set_call_forwarding_rule (rule_to_set : CallForwardingRule) : M string :=
  let* _ := _ensure_logged_in in
  let* current_settings := get_call_forwarding_settings in
  let* response := session_get "einstellungen_rufumleitung.php" [] in
  let* _ := raise_for_status response in
  let sel := from_text (text response) in
  let token := get (css "input[name='token']::attr(value)" sel) in
  if negb (truthy token) then
    raise (KontomanagerClientError "Could not find CSRF token for call forwarding.")
  else
    let payload := forwarding_payload current_settings (or_else token "") rule_to_set in
    let* post_response := session_post "einstellungen_rufumleitung.php" payload in
    let* _ := raise_for_status post_response in
    if str_contains "Fehler" (text post_response)
       || str_contains "error" (str_lower (text post_response)) then
      raise (KontomanagerClientError
               "Failed to set call forwarding rule. The server reported an error.")
    else
      ret ("Successfully updated call forwarding rule for condition '"
           +:+ condition rule_to_set +:+ "'.").

(** *** Phone numbers of the account *)

(** A query on every node of a list, for [xpath]. *)
Definition xpath_all (q : string) (nodes : list Selector) : list Selector :=
  flat_map (xpath q) nodes.

(** [subscriber=([^&]+)] *)
Definition subscriber_re : regex :=
  Cat (lit "subscriber=") (Group 1 (Plus (Cls (fun c => negb (Ascii.eqb c "&"%char))))).

(** The name and the raw number [get_phone_numbers] reads from the link or
    links of an entry. *)
Definition entry_name (links : list Selector) : string :=
  str_strip (get_or "" (css_all "span.bold::text" links)).

Definition entry_number_raw (links : list Selector) : string :=
  str_strip (get_or "" (xpath_all "./br/following-sibling::text()[1]" links)).

(** The subscriber identifier in the address of a link. *)
Definition entry_subscriber (link : Selector) : option string :=
  let href := match attrib "href" link with Some h => h | None => "" end in
  match re_search subscriber_re href with
  | Some m => Some (unquote (group_text 1 m))
  | None => None
  end.

(** The entry of the active number, if the page shows one with a name and
    a number. *)
Definition active_entry (sel : Selector) : list PhoneNumber :=
  let active_item_selector :=
    xpath ".//h6[contains(text(), 'Aktuell gewählte Rufnummer:')]/parent::li/following-sibling::li[1]/a"
          sel in
  match active_item_selector with
  | [] => []
  | _ :: _ =>
      let name_ := entry_name active_item_selector in
      let number_raw := entry_number_raw active_item_selector in
      if negb (is_empty name_) && negb (is_empty number_raw)
      then [MkPhoneNumber name_ (_normalize_phone_number number_raw) None true]
      else []
  end.

(** One round of [for item_selector in other_items_selectors]; the local
    variable is the list [numbers]. *)
Definition other_entry_step (numbers : list PhoneNumber) (item_selector : Selector)
    : list PhoneNumber :=
  let name_ := entry_name [item_selector] in
  let number_raw := entry_number_raw [item_selector] in
  let sub_id := entry_subscriber item_selector in
  if negb (is_empty name_) && negb (is_empty number_raw)
  then numbers ++ [MkPhoneNumber name_ (_normalize_phone_number number_raw) sub_id false]
  else numbers.

(** What [get_phone_numbers] reads from the page. *)
Definition read_phone_numbers (sel : Selector) : list PhoneNumber :=
  fold_left other_entry_step
    (xpath ".//h6[contains(text(), 'Rufnummer wechseln:')]/following-sibling::ul/li/a" sel)
    (active_entry sel).

(** [KontomanagerClient.get_phone_numbers] *)
Definition get_phone_numbers : M (list PhoneNumber) :=
  let* _ := _ensure_logged_in in
  let* response := session_get "kundendaten.php" [] in
  let* _ := raise_for_status response in
  let numbers := read_phone_numbers (from_text (text response)) in
  let* _ :=
    match numbers with
    | [] => warning "Could not find any phone numbers in the dropdown."
    | _ :: _ => ret tt
    end in
  ret numbers.

(** [KontomanagerClient.switch_active_phone_number] *)
Definition switch_active_phone_number (subscriber : string) : M string :=
  let* _ := _ensure_logged_in in
  let* response :=
    session_get "kundendaten.php"
      [("groupaction", "change_subscriber"); ("subscriber", subscriber)] in
  let* _ := raise_for_status response in
  let sel := from_text (text response) in
  let raw_phone_text := str_strip (get_or "" (css "#user-dropdown span::text" sel)) in
  let new_active_number :=
    _normalize_phone_number (str_strip (last_part (split_on " - " raw_phone_text))) in
  ret ("Successfully switched active number to " +:+ new_active_number +:+ ".").

(** *** Downloading a bill *)

(** [next((b for b in bills if b.bill_number == bill_number), None)] *)
Definition find_bill (bill_number_ : string) (bills : list BillSummary)
    : option BillSummary :=
  List.find (fun b => String.eqb (bill_number b) bill_number_) bills.

(** [KontomanagerClient.get_bill]; the result is the body of the response. *)
Definition get_bill (bill_number_ bill_type : string) : M string :=
  if negb (contains_str ["bill"; "egn"] (str_lower bill_type)) then
    raise (KontomanagerClientError
             ("Invalid bill_type: '" +:+ bill_type +:+ "'. Must be 'bill' or 'egn'."))
  else
    let* _ := _ensure_logged_in in
    let* bills := list_bills in
    match find_bill bill_number_ bills with
    | None =>
        raise (KontomanagerClientError
                 ("Bill with number '" +:+ bill_number_ +:+ "' not found."))
    | Some target_bill =>
        let url_to_fetch :=
          if String.eqb (str_lower bill_type) "bill"
          then Some (bill_pdf_url target_bill) else egn_pdf_url target_bill in
        if negb (truthy url_to_fetch) then
          raise (KontomanagerClientError
                   ("Document type '" +:+ bill_type +:+ "' is not available for bill "
                    +:+ bill_number_ +:+ "."))
        else
          catch
            (let* response := session_get (or_else url_to_fetch "") [] in
             let* _ := raise_for_status response in
             let content_type :=
               match header "content-type" response with Some v => v | None => "" end in
             let* _ :=
               if negb (str_contains "application/pdf" content_type)
               then warning ("Expected a PDF but got content-type: "
                             +:+ match header "content-type" response with
                                 | Some v => v
                                 | None => "None"
                                 end +:+ ".")
               else ret tt in
             ret (text response))
            (fun e =>
               match e with
               | HTTPStatusError code =>
                   raise (KontomanagerClientError
                            ("HTTP error " +:+ str_of_Z code +:+ " fetching PDF for bill "
                             +:+ bill_number_ +:+ "."))
               | RequestError msg =>
                   raise (KontomanagerClientError
                            ("Network error fetching PDF for bill " +:+ bill_number_
                             +:+ ": " +:+ msg))
               | _ => raise e
               end)
    end.

(** *** The tools of the server ([server.py])

    A tool calls a method of the client and hands a client error to
    [handle_client_error], which logs it and raises it again: the outcome
    of the tool is the outcome of the method.  The arguments of a tool are
    taken as they come: the check of their types, which the framework makes
    before the call, is not a part of the embedding. *)

(** [try: m  except KontomanagerClientError as e: handle_client_error(e)] *)
Definition tool {A : Type} (m : M A) : M A :=
  catch m (fun e => raise e).

(** The tool [download_bill] *)
Definition tool_download_bill (bill_number_ document_type : string) : M Image :=
  tool (let* pdf_content := get_bill bill_number_ document_type in
        ret (MkImage pdf_content "application/pdf")).

(** The tool [set_sim_setting] *)
Definition tool_set_sim_setting (setting_name : string) (enabled : bool) : M string :=
  tool (let api_key := str_replace "_" "-" setting_name in
        set_sim_setting api_key enabled).

(** The tool [toggle_roaming] *)
Definition tool_toggle_roaming (enabled : bool) : M string :=
  tool (set_sim_setting "roaming-barred" (negb enabled)).

(** [re.match(r'^\+?\d{5,30}$', target_number)]: the pattern has to match
    from the start, and what is left after it has to be nothing or a single
    final line feed, where [$] matches too. *)
Definition target_number_ok (target_number_ : string) : bool :=
  match re_run target_number_re target_number_ []
          (fun rest _ => if at_end rest then Some tt else None) with
  | Some _ => true
  | None => false
  end.

(** The tool [set_call_forwarding_rule] *)
Definition tool_set_call_forwarding_rule (condition_ target_ : string)
    (target_number_ : option string) (delay_seconds_ : option Z) : M string :=
  if String.eqb target_ "a" && negb (truthy target_number_) then
    raise (ValueError "target_number must be provided when target is 'a'.")
  else if truthy target_number_ && negb (target_number_ok (or_else target_number_ "")) then
    raise (ValueError
             "Invalid target_number format. It should be a valid international phone number.")
  else
    let rule := MkCallForwardingRule condition_ target_ target_number_ delay_seconds_ in
    tool (set_call_forwarding_rule rule).

End Client.

(** ** A small model of pages, for examples

    A node holds its data and, for each query it answers, the nodes the
    query selects.  A site gives the text of each address, and the node a
    text is read as. *)

Inductive node : Type :=
| Node (data : string) (answers : list (string * list node)).

Definition node_text (n : node) : string :=
  match n with Node d _ => d end.

Fixpoint answers_to (q : string) (answers : list (string * list node)) : list node :=
  match answers with
  | [] => []
  | (q', ns) :: answers' => if String.eqb q' q then ns else answers_to q answers'
  end.

Definition node_query (q : string) (n : node) : list node :=
  match n with Node _ answers => answers_to q answers end.

(** A node that is only a piece of text or the value of an attribute. *)
Definition leaf (s : string) : node := Node s [].

Fixpoint page_of (pages : list (string * node)) (txt : string) : node :=
  match pages with
  | [] => Node "" []
  | (t, n) :: pages' => if String.eqb t txt then n else page_of pages' txt
  end.

(** A portal that answers every request to a known address with status 200
    and the text of the address, whatever was sent before, and any other
    request with status 404. *)
Definition static_portal (gets posts : list (string * string))
    (_ : list Request) (rq : Request) : Response + string :=
  match rq with
  | Get url _ =>
      match assoc url gets with
      | Some body => inl (MkResponse 200 body)
      | None => inl (MkResponse 404 "")
      end
  | Post url _ =>
      match assoc url posts with
      | Some body => inl (MkResponse 200 body)
      | None => inl (MkResponse 404 "")
      end
  end.

(** A client that is logged in and has sent nothing yet. *)
Definition logged_in_client : Client :=
  MkClient (MkSettings "yesss" "06641234567" "secret") true [] [].

(** ** Vocabulary of the properties *)

(** The state of a client after one more request. *)
Definition after (c : Client) (rq : Request) : Client :=
  MkClient (settings c) (_logged_in c) (sent c ++ [rq]) (warnings c).

(** The state of a client after one more warning. *)
Definition warned (c : Client) (msg : string) : Client :=
  MkClient (settings c) (_logged_in c) (sent c) (warnings c ++ [msg]).

(** A status [raise_for_status] lets pass. *)
Definition is_success (r : Response) : bool :=
  ((200 <=? status_code r) && (status_code r <=? 299))%Z.

(** A step of the matcher is sound when a run that succeeds has split the
    input into a part the pattern matches and a rest on which the
    continuation succeeded. *)
Definition sound_step {R : Type} (r : regex)
    (step : string -> captures -> (string -> captures -> option R) -> option R) : Prop :=
  forall s caps k x, step s caps k = Some x ->
    exists s1 s2 caps', s = s1 +:+ s2 /\ Matches r s1 /\ k s2 caps' = Some x.

(** The shape of a numeric token: an optional sign, digits, an optional
    point, and at least one digit. *)
Definition number_token (tok : string) : Prop :=
  exists sign ip dot fp : string,
    tok = sign +:+ ip +:+ dot +:+ fp
    /\ (sign = "" \/ sign = "-" \/ sign = "+")
    /\ str_forall is_digit ip = true
    /\ (dot = "" \/ dot = ".")
    /\ str_forall is_digit fp = true /\ is_empty fp = false.

Definition no_digit (s : string) : bool := str_forall (fun c => negb (is_digit c)) s.

(** All the ways to write a text in upper and lower case letters. *)
Fixpoint case_variants (s : string) : list string :=
  match s with
  | EmptyString => [EmptyString]
  | String c s' =>
      flat_map (fun w => [String c w; String (upper_char c) w]) (case_variants s')
  end.

Definition unlimited_bar (w : string) : string :=
  "Verbraucht: 1 (von " +:+ w +:+ " MB)".

(** The duration and the cost text [history_step] takes from the combined
    field. *)
Definition duration_of (dauer_kosten_str : string) : string :=
  match str_split "/" dauer_kosten_str with
  | p0 :: _ => str_strip p0
  | [] => "0:00:00"
  end.

Definition cost_text_of (dauer_kosten_str : string) : string :=
  match str_split "/" dauer_kosten_str with
  | _ :: p1 :: _ => str_strip p1
  | _ => "0"
  end.

Definition missing_timestamp_warning : string :=
  "Skipping a call history item because its timestamp is missing.".

Definition bad_timestamp_warning (timestamp_str : string) : string :=
  "Could not parse date for call history item: '" +:+ timestamp_str +:+ "'. Skipping.".

(** The fields of a rule in the form: its target, its target number when it
    has one, and for the no-answer rule its delay when it has one. *)
Definition rule_fields (r : CallForwardingRule) (form : gmap string string) : Prop :=
  form !! (condition r +:+ "_akt") = Some (target r)
  /\ form !! (condition r +:+ "_rn")
     = (if truthy (target_number r) then target_number r else None)
  /\ (condition r = "nann" -> form !! "nann_sek" = str_of_Z <$> delay_seconds r).

(** What one round of the loop over the rules writes, for the rule [r] it
    applies. *)
Definition emit (r : CallForwardingRule) (payload : gmap string string)
    : gmap string string :=
  payload_step r payload r.

Definition is_some {A : Type} (o : option A) : bool :=
  match o with Some _ => true | None => false end.

Definition forwarding_page : Request := Get "einstellungen_rufumleitung.php" [].

(** The three ways the overview parser makes a quota.  From a usage bar:
    [remaining] is the float difference of [total] and [used], and
    [unlimited] says whether [total] is infinite.  From the EU row:
    [remaining] is read, [used] is the float difference of [total] and
    [remaining].  From the carried-over row: nothing is used and all of
    [total] remains. *)
Definition bar_quota (q : UnitQuota) : Prop :=
  remaining q = (total q - used q)%float
  /\ unlimited q = PrimFloat.eqb (total q) infinity.

Definition eu_quota (q : UnitQuota) : Prop :=
  used q = (total q - remaining q)%float /\ unlimited q = false.

Definition carried_over_quota (q : UnitQuota) : Prop :=
  used q = 0%float /\ remaining q = total q /\ unlimited q = false.

Definition holds {A : Type} (P : A -> Prop) (o : option A) : Prop :=
  match o with
  | Some a => P a
  | None => True
  end.

Definition package_quotas (p : PackageUsage) : Prop :=
  holds bar_quota (minutes p) /\ holds bar_quota (sms p)
  /\ holds bar_quota (data_domestic p)
  /\ holds eu_quota (data_eu p)
  /\ holds carried_over_quota (data_carried_over p).


(** The field of the settings that a name of the model stands for. *)
Definition sim_setting (field : string) (s : SimSettings) : option bool :=
  if String.eqb field "roaming_barred" then roaming_barred s
  else if String.eqb field "non_eu_roaming_barred" then non_eu_roaming_barred s
  else if String.eqb field "roaming_sms_disable" then roaming_sms_disable s
  else if String.eqb field "int_voice_barred" then int_voice_barred s
  else if String.eqb field "international_sms_disable" then international_sms_disable s
  else if String.eqb field "mpty_barred" then mpty_barred s
  else if String.eqb field "premium_barred" then premium_barred s
  else if String.eqb field "data_barred" then data_barred s
  else if String.eqb field "data_roaming_barred" then data_roaming_barred s
  else if String.eqb field "non_eu_data_roaming_barred" then non_eu_data_roaming_barred s
  else None.

(** A key/value item of the SIM settings response, and a response with
    status "OK" that lists such items. *)
Definition sim_item (kv : string * bool) : json :=
  JObj [("key", JStr (fst kv)); ("value", JBool (snd kv))].

Definition sim_response (items : list (string * bool)) : json :=
  JObj [("status", JStr "OK"); ("data", JArr (map sim_item items))].

(** What a list of items reports for a field: the value of the last item
    whose key, with "-" turned into "_", is the name of the field. *)
Definition reported_from (field : string) (acc : option bool) (items : list (string * bool))
    : option bool :=
  fold_left (fun acc kv =>
               if String.eqb (str_replace "-" "_" (fst kv)) field then Some (snd kv) else acc)
            items acc.

Definition reported (field : string) (items : list (string * bool)) : option bool :=
  reported_from field None items.

(** The queries for the selected values of the two page-wide selectors. *)
Definition btel_query : string :=
  "select[name='btel_akt'] option[selected='selected']::attr(value)".

Definition voicemail_query : string :=
  "select[name='voicemail_play_cli_disable'] option[selected='selected']::attr(value)".

(** ** An example site

    The text of each page of the example site is its name; [example_pages]
    gives the node each name is read as. *)

Definition text_node (q s : string) : string * list node := (q, [leaf s]).

(** The overview of a contract: one card "Mein Tarif" with a data bar, the
    EU data row and the carried-over row. *)
Definition example_card : node :=
  Node "" [
    text_node ".card-title::text" "Mein Tarif";
    (".progress-item",
     [Node "" [ text_node ".progress-heading::text" "Datenvolumen";
                text_node ".bar-label-right::text" "Verbraucht: 3 (von 5 GB)" ]]);
    (".collapse .list-group-item",
     [Node "" [("::text", [leaf "Datenvolumen EU verbleibend:"; leaf "512,3 MB von 10.240 MB"])];
      Node "" [("::text", [leaf "Datenmitnahme aus den Vormonaten:"; leaf "1.024 MB"])]])
  ].

Definition example_overview : node :=
  Node "" [
    text_node "h1:first-of-type::text" "Mein Vertrag";
    text_node "#user-dropdown span::text" "Admin - 0664 1234567";
    ("div.card", [example_card])
  ].

(** An overview whose data bar reports a used volume of 400 digits. *)
Definition huge_number : string := String.concat "" (repeat "9" 400).

Definition huge_card : node :=
  Node "" [
    text_node ".card-title::text" "Mein Tarif";
    (".progress-item",
     [Node "" [ text_node ".progress-heading::text" "Datenvolumen";
                text_node ".bar-label-right::text"
                  ("Verbraucht: " +:+ huge_number +:+ " (von 5 GB)") ]])
  ].

Definition huge_overview : node :=
  Node "" [
    text_node "h1:first-of-type::text" "Mein Vertrag";
    text_node "#user-dropdown span::text" "0664 1234567";
    ("div.card", [huge_card])
  ].

(** A bill list of three rows: a full row, a row without a main link, and
    a row with an empty date cell and no itemized record. *)
Definition example_bills : node :=
  Node "" [
    (bill_rows_query,
     [Node "" [ text_node "li[1]/div/div[2]/text()" " 01.10.2024 ";
                text_node "li[2]/div/div[2]/text()" "12,34 €";
                text_node "li[3]/div/div[2]/text()" "R-1001";
                text_node "li[4]/div/div/a/@href" "rechnung.php?id=1001";
                text_node "li[5]/div/div/a/@href" "egn.php?id=1001" ];
      Node "" [ text_node "li[1]/div/div[2]/text()" "01.09.2024";
                text_node "li[2]/div/div[2]/text()" "9,99 €";
                text_node "li[3]/div/div[2]/text()" "R-1000" ];
      Node "" [ text_node "li[1]/div/div[2]/text()" "  ";
                text_node "li[2]/div/div[2]/text()" "5,00 €";
                text_node "li[3]/div/div[2]/text()" "R-0999";
                text_node "li[4]/div/div/a/@href" "rechnung.php?id=999" ]])
  ].

(** A history block: a row of a label in bold and its value. *)
Definition history_row (label value : string) : node :=
  Node "" [ text_node ".bold::text" label; text_node "div/div[2]/text()" value ].

(** A block that has a timestamp and no duration/cost field. *)
Definition example_block : node :=
  Node "" [
    ("li.list-group-item",
     [ history_row "Datum/Uhrzeit:" "01.10.2024 10:15:00";
       history_row "Art:" "SMS";
       history_row "Nummer:" "+436641234567" ])
  ].

Definition example_calls : node :=
  Node "" [("ul.list-group.mt-3", [example_block])].

Definition token_query : string := "input[name='token']::attr(value)".

Definition example_sim_page : node :=
  Node "" [text_node token_query "tok123"].

(** The call forwarding page: both page-wide selectors have a value
    selected, "a" for "btel_akt" and "d" for "voicemail_play_cli_disable". *)
Definition example_forwarding : node :=
  Node "" [
    text_node token_query "tok456";
    text_node "select[name='alle_akt'] option[selected='selected']::attr(value)" "a";
    text_node "input[name='alle_rn']::attr(value)" "06601234567";
    text_node "select[name='nann_akt'] option[selected='selected']::attr(value)" "m";
    text_node "select[name='nann_sek'] option[selected='selected']::attr(value)" "20";
    text_node btel_query "a";
    text_node voicemail_query "d"
  ].

Definition example_pages : list (string * node) :=
  [ ("overview", example_overview); ("bills", example_bills);
    ("calls", example_calls); ("sim", example_sim_page);
    ("forwarding", example_forwarding) ].

Definition example_from_text : string -> node := page_of example_pages.

(** The portal of the example site; it answers the change of a SIM setting
    with "ok" in lower case and a line feed. *)
Definition example_portal : list Request -> Request -> Response + string :=
  static_portal
    [ ("kundendaten.php", "overview"); ("rechnungen.php", "bills");
      ("gespraeche.php", "calls"); ("einstellungen_sim.php", "sim");
      ("einstellungen_rufumleitung.php", "forwarding") ]
    [ ("einstellungen_sim_getdata.php", "sim-settings");
      ("einstellungen_sim_setdata.php", String "o" (String "k" (String (ascii_of_nat 10) "")));
      ("einstellungen_rufumleitung.php", "Gespeichert") ].

Definition example_json (txt : string) : option json :=
  if String.eqb txt "sim-settings"
  then Some (sim_response [("roaming-barred", true)])
  else None.

Definition example_urljoin (base url : string) : string := base +:+ url.

Definition example_today : date := MkDate 2026 11 4.

Definition example_base : string := "https://www.yesss.at/kontomanager.at/app/".

(** An item the loop of [get_sim_settings] passes over: an object whose key
    is absent, or is a text that, with "-" read as "_", names no field of
    the model. *)
Definition names_no_field (item : json) : bool :=
  match item with
  | JObj fields =>
      match obj_get "key" fields with
      | Some (JStr k) => negb (contains_str sim_model_fields (str_replace "-" "_" k))
      | Some _ => false
      | None => true
      end
  | _ => false
  end.

(** A response with status "OK" and any list of items as data. *)
Definition ok_response (items : list json) : json :=
  JObj [("status", JStr "OK"); ("data", JArr items)].

Definition example_rule : CallForwardingRule :=
  MkCallForwardingRule "wtel" "a" (Some "06769876543") None.

Definition example_usage_run : result AccountUsage * Client :=
  get_account_usage example_from_text node_query node_query node_text
    example_portal logged_in_client.

Definition huge_usage_run : result AccountUsage * Client :=
  get_account_usage (fun _ => huge_overview) node_query node_query node_text
    example_portal logged_in_client.

Definition example_sim_run : result string * Client :=
  set_sim_setting example_from_text node_query node_text example_portal
    "roaming_barred" true logged_in_client.

Definition example_sim_answer : Response :=
  MkResponse 200 (String "o" (String "k" (String (ascii_of_nat 10) ""))).

Definition example_bills_run : result (list BillSummary) * Client :=
  list_bills example_from_text node_query node_query node_text example_urljoin
    example_today example_portal logged_in_client.

Definition example_bill_rows : list node :=
  node_query bill_rows_query example_bills.

(** ** Vocabulary of further properties *)

(** The request that sends the credentials. *)
Definition is_login_post (rq : Request) : bool :=
  match rq with
  | Post url _ => String.eqb url "index.php"
  | Get _ _ => false
  end.

(** What a method of a client that is logged in leaves as it was: from [c]
    to [c'] the client stays logged in, keeps its settings, and the requests
    it has sent since hold no post of the credentials. *)
Definition session_kept (c c' : Client) : Prop :=
  _logged_in c' = true
  /\ settings c' = settings c
  /\ exists new, sent c' = sent c ++ new
                 /\ forallb (fun rq => negb (is_login_post rq)) new = true.

(** A computation that raises nothing but the client error. *)
Definition client_errors_only {A : Type} (m : M A) : Prop :=
  forall c e c', m c = (Raise e, c') -> exists msg, e = KontomanagerClientError msg.

(** A computation that keeps the session of every client that is logged in. *)
Definition steady {A : Type} (m : M A) : Prop :=
  forall c, _logged_in c = true -> session_kept c (snd (m c)).

Definition is_client_error (e : exn) : Prop :=
  exists msg, e = KontomanagerClientError msg.

(** An outcome that, when it is an exception, is one of a given kind. *)
Definition raises_only {A : Type} (P : exn -> Prop) (r : result A) : Prop :=
  match r with
  | Ok _ => True
  | Raise e => P e
  end.

(** An entry as [get_phone_numbers] makes them: the name is not empty, and
    the number is empty or starts with the country code. *)
Definition well_formed_entry (p : PhoneNumber) : Prop :=
  is_empty (pn_name p) = false
  /\ (pn_number p = "" \/ startswith "+43" (pn_number p) = true).

Definition no_numbers_warning : string :=
  "Could not find any phone numbers in the dropdown.".

(** The request that switches the active number. *)
Definition switch_request (subscriber : string) : Request :=
  Get "kundendaten.php" [("groupaction", "change_subscriber"); ("subscriber", subscriber)].

(** A continuation that accepts the rest [s], whatever was captured. *)
Definition accepts {R : Type} (k : string -> captures -> option R) (s : string) : Prop :=
  forall caps, exists x, k s caps = Some x.

(** The digits of a text, in their order. *)
Definition digits_of (s : string) : string := str_filter is_digit s.

(** What a pattern matches and what it captures on the way: with the
    captures [c0] before the match, [Captures r s c0 c1] when [r] matches
    the whole of [s] in some way that leaves the captures [c1]. *)
Inductive Captures : regex -> string -> captures -> captures -> Prop :=
| C_cls p c c0 : p c = true -> Captures (Cls p) (String c "") c0 c0
| C_cat r1 r2 s1 s2 c0 c1 c2 :
    Captures r1 s1 c0 c1 -> Captures r2 s2 c1 c2 -> Captures (Cat r1 r2) (s1 +:+ s2) c0 c2
| C_alt_l r1 r2 s c0 c1 : Captures r1 s c0 c1 -> Captures (Alt r1 r2) s c0 c1
| C_alt_r r1 r2 s c0 c1 : Captures r2 s c0 c1 -> Captures (Alt r1 r2) s c0 c1
| C_opt_none r c0 : Captures (Opt r) "" c0 c0
| C_opt_some r s c0 c1 : Captures r s c0 c1 -> Captures (Opt r) s c0 c1
| C_star_nil r c0 : Captures (Star r) "" c0 c0
| C_star_cons r s1 s2 c0 c1 c2 :
    Captures r s1 c0 c1 -> Captures (Star r) s2 c1 c2 -> Captures (Star r) (s1 +:+ s2) c0 c2
| C_plus r s1 s2 c0 c1 c2 :
    Captures r s1 c0 c1 -> Captures (Star r) s2 c1 c2 -> Captures (Plus r) (s1 +:+ s2) c0 c2
| C_group n r s c0 c1 : Captures r s c0 c1 -> Captures (Group n r) s c0 ((n, s) :: c1)
| C_eps c0 : Captures Eps "" c0 c0.

(** A pattern without groups. *)
Fixpoint group_free (r : regex) : bool :=
  match r with
  | Cls _ | Eps => true
  | Cat r1 r2 | Alt r1 r2 => group_free r1 && group_free r2
  | Opt r1 | Star r1 | Plus r1 => group_free r1
  | Group _ _ => false
  end.

(** The three groups of a usage bar: the used amount, the total or the
    word for no limit, and the unit. *)
Definition usage_bar_groups (g1 g2 g3 : string) : Prop :=
  (str_forall is_num_char g1 = true /\ is_empty g1 = false)
  /\ ((str_forall is_num_char g2 = true /\ is_empty g2 = false)
      \/ str_lower g2 = "unlimited")
  /\ (str_forall is_word g3 = true /\ is_empty g3 = false).

(** A step of the matcher that accounts for its captures. *)
Definition captures_step {R : Type} (r : regex)
    (step : string -> captures -> (string -> captures -> option R) -> option R) : Prop :=
  forall s caps k x, step s caps k = Some x ->
    exists s1 s2 caps', s = s1 +:+ s2 /\ Captures r s1 caps caps' /\ k s2 caps' = Some x.

(** A text that holds a usage bar somewhere. *)
Definition holds_usage_bar (text : string) : Prop :=
  exists pre bar post, text = pre +:+ bar +:+ post /\ Matches usage_bar_re bar.

(** A progress item whose label on the right holds a usage bar. *)
Definition shows_usage {Selector : Type} (css : string -> Selector -> list Selector)
    (node_data : Selector -> string) (item : Selector) : bool :=
  is_some (re_search usage_bar_re (get_or node_data "" (css ".bar-label-right::text" item))).

(** A name that [get_account_usage] accepts as the title of a package. *)
Definition package_title (title : string) : Prop :=
  is_empty title = false /\ contains_str _excluded_sections title = false.

(** What the overview of a contract leaves unset and what it calls a
    package. *)
Definition contract_overview (ov : overview) : Prop :=
  ov_credit ov = None /\ ov_sim_valid_until ov = None /\ ov_last_recharge ov = None
  /\ Forall (fun p => package_title (package_name p)) (ov_packages ov).

(** What every rule read from the forwarding page satisfies: a target
    number only with the target "a", a delay only for the no-answer rule,
    and no negative delay. *)
Definition rule_as_read (r : CallForwardingRule) : Prop :=
  (is_some (target_number r) = true -> target r = "a")
  /\ (is_some (delay_seconds r) = true -> condition r = "nann")
  /\ (forall d, delay_seconds r = Some d -> (0 <= d)%Z).

(** How [set_call_forwarding_rule] judges the answer to its form. *)
Definition reports_error (body : string) : bool :=
  str_contains "Fehler" body || str_contains "error" (str_lower body).

Definition line_feed : string := String (ascii_of_nat 10) "".

(** The texts the tool [set_call_forwarding_rule] lets pass as a target
    number: an optional plus sign, five to thirty digits, and nothing more
    but for a line feed at the very end. *)
Definition phone_shape (n : string) : Prop :=
  exists sign digits nl,
    n = sign +:+ digits +:+ nl
    /\ (sign = "" \/ sign = "+")
    /\ str_forall is_digit digits = true
    /\ (5 <= String.length digits <= 30)%nat
    /\ (nl = "" \/ nl = line_feed).

(** A character of ASCII. *)
Definition is_ascii (c : ascii) : bool := (code c <? 128)%nat.

(** The form [login] posts. *)
Definition credentials (st : Settings) : gmap string string :=
  <["login_rufnummer" := username st]> (<["login_passwort" := password st]> ∅).

Definition login_page : Request := Get "index.php" [].

Definition login_post (st : Settings) : Request := Post "index.php" (credentials st).

(** What every bill [list_bills] returns satisfies: the currency is the
    euro, and the bill says it has an itemized record exactly when it
    carries the address of one. *)
Definition bill_as_listed (b : BillSummary) : Prop :=
  currency b = "EUR" /\ has_egn b = is_some (egn_pdf_url b).

(** ** More of the example site *)

(** An attribute of a node of the page model: the answer to the query
    made of "@" and its name. *)
Definition node_attrib (attr : string) (n : node) : option string :=
  match node_query ("@" +:+ attr) n with
  | [] => None
  | a :: _ => Some (node_text a)
  end.

(** The content type of the example answers: a body that starts as a PDF
    file does is one. *)
Definition example_header (field : string) (r : Response) : option string :=
  if String.eqb field "content-type"
  then Some (if startswith "%PDF" (text r) then "application/pdf" else "text/html")
  else None.

(** A link of the menu of phone numbers. *)
Definition number_link (label number href : string) : node :=
  Node "" [ text_node "span.bold::text" label;
            text_node "./br/following-sibling::text()[1]" number;
            text_node "@href" href ].

(** A page with the active number and two others, the second of them
    without a name. *)
Definition example_numbers : node :=
  Node "" [
    (".//h6[contains(text(), 'Aktuell gewählte Rufnummer:')]/parent::li/following-sibling::li[1]/a",
     [number_link "Anna" " 0664 1234567 " ""]);
    (".//h6[contains(text(), 'Rufnummer wechseln:')]/following-sibling::ul/li/a",
     [number_link "Ben" "0676/7654321" "kundendaten.php?groupaction=change_subscriber&subscriber=abc123&x=1";
      number_link "" "0699 1111111" "kundendaten.php?subscriber=zzz"])
  ].

Definition example_numbers_run : result (list PhoneNumber) * Client :=
  get_phone_numbers (fun _ => example_numbers) node_query node_query node_text
    example_portal node_attrib (fun s => s) logged_in_client.

(** The example portal with the first bill behind the address of its
    link. *)
Definition example_bill_address : string := example_base +:+ "rechnung.php?id=1001".

Definition bill_portal : list Request -> Request -> Response + string :=
  static_portal
    [ ("rechnungen.php", "bills"); (example_bill_address, "%PDF-1.4 R-1001") ] [].

Definition example_get_bill (n t : string) : result string * Client :=
  get_bill example_from_text node_query node_query node_text example_urljoin
    example_today bill_portal example_header n t logged_in_client.

(** A bill list whose second row has a date cell that is no date, and no
    link. *)
Definition bad_bills : node :=
  Node "" [
    (bill_rows_query,
     [Node "" [ text_node "li[1]/div/div[2]/text()" "01.10.2024";
                text_node "li[3]/div/div[2]/text()" "R-1001";
                text_node "li[4]/div/div/a/@href" "rechnung.php?id=1001" ];
      Node "" [ text_node "li[1]/div/div[2]/text()" "gestern";
                text_node "li[3]/div/div[2]/text()" "R-1000" ]])
  ].

(** A portal that lets a client in, and a client that is not logged in. *)
Definition login_portal : list Request -> Request -> Response + string :=
  static_portal [("index.php", "login")] [("index.php", "welcome")].

Definition new_example_client : Client :=
  MkClient (MkSettings "yesss" "06641234567" "secret") false [] [].

(** A portal that cannot be reached. *)
Definition offline_portal (_ : list Request) (_ : Request) : Response + string :=
  inr "connection refused".

(** Two rules for conditions that are none of the four. *)
Definition unknown_rule_1 : CallForwardingRule :=
  MkCallForwardingRule "immer" "a" (Some "+436641234567") (Some 10%Z).

Definition unknown_rule_2 : CallForwardingRule :=
  MkCallForwardingRule "" "d" None None.
(** * Properties *)

(** ** Strings *)

Lemma is_empty_true (s : string) : is_empty s = true -> s = "".
Proof. destruct s; [reflexivity | discriminate]. Qed.

Lemma append_cons (c : ascii) (s t : string) :
  String c s +:+ t = String c (s +:+ t).
Proof. reflexivity. Qed.

Lemma append_empty_l (t : string) : "" +:+ t = t.
Proof. reflexivity. Qed.

Lemma strip_non_digits_filter (s : string) :
  re_sub_class (fun c => negb (is_digit c)) "" s = str_filter is_digit s.
Proof.
  induction s as [|c s IH]; simpl; [reflexivity|].
  destruct (is_digit c); simpl; now rewrite IH.
Qed.

Lemma filter_all (p : ascii -> bool) (s : string) :
  str_forall p (str_filter p s) = true.
Proof.
  induction s as [|c s IH]; simpl; [reflexivity|].
  destruct (p c) eqn:E; simpl; [rewrite E|]; exact IH.
Qed.

Lemma filter_fixed (p : ascii -> bool) (s : string) :
  str_forall p s = true -> str_filter p s = s.
Proof.
  induction s as [|c s IH]; simpl; [reflexivity|].
  intros [Hc Hs]%andb_prop. rewrite Hc. now rewrite IH.
Qed.

Lemma startswith_split (p s : string) :
  startswith p s = true -> s = p +:+ str_drop (String.length p) s.
Proof.
  revert s. induction p as [|a p IH]; intros s; simpl; [reflexivity|].
  destruct s as [|b s]; [discriminate|].
  intros [Hab Hs]%andb_prop. apply Ascii.eqb_eq in Hab. subst b.
  rewrite append_cons. f_equal. now apply IH.
Qed.

Lemma forall_drop (p : ascii -> bool) (n : nat) (s : string) :
  str_forall p s = true -> str_forall p (str_drop n s) = true.
Proof.
  revert s. induction n as [|n IH]; intros s H; simpl; [destruct s; exact H|].
  destruct s as [|c s]; [reflexivity|].
  simpl in H. apply andb_prop in H as [_ H]. now apply IH.
Qed.

(** ** Phone numbers *)

(** The results of the normalizer: nothing, or the country prefix and digits. *)
Lemma normalize_shape (x : string) :
  _normalize_phone_number x = "" \/
  exists d, str_forall is_digit d = true /\ _normalize_phone_number x = "+43" +:+ d.
Proof.
  unfold _normalize_phone_number.
  destruct (is_empty x); [now left|].
  rewrite strip_non_digits_filter.
  pose proof (filter_all is_digit x) as Hall.
  destruct (is_empty (str_filter is_digit x)); [now left|]. right.
  destruct (startswith "43" (str_filter is_digit x)) eqn:E43.
  - exists (str_drop 2 (str_filter is_digit x)). split.
    + now apply forall_drop.
    + apply startswith_split in E43. rewrite E43 at 1. reflexivity.
  - destruct (startswith "0" (str_filter is_digit x)).
    + eexists. split; [|reflexivity]. now apply forall_drop.
    + eexists. split; [|reflexivity]. exact Hall.
Qed.

(** A number in normal form is left as it is. *)
Lemma normalize_normal (d : string) :
  str_forall is_digit d = true ->
  _normalize_phone_number ("+43" +:+ d) = "+43" +:+ d.
Proof.
  intros Hd. unfold _normalize_phone_number. simpl is_empty. cbv iota.
  rewrite strip_non_digits_filter.
  change (str_filter is_digit ("+43" +:+ d)) with ("43" +:+ str_filter is_digit d).
  rewrite (filter_fixed _ _ Hd). reflexivity.
Qed.

(** C2: phone normalization is idempotent, and its result is the empty
    string or starts with "+43". *)
Theorem normalize_phone_number_idempotent (x : string) :
  _normalize_phone_number (_normalize_phone_number x) = _normalize_phone_number x
  /\ (_normalize_phone_number x = "" \/
      startswith "+43" (_normalize_phone_number x) = true).
Proof.
  destruct (normalize_shape x) as [E | (d & Hd & E)]; rewrite E.
  - split; [reflexivity | now left].
  - split; [now apply normalize_normal | now right].
Qed.

(** ** The matcher against the declarative reading of patterns *)

Lemma append_assoc (s1 s2 s3 : string) : (s1 +:+ s2) +:+ s3 = s1 +:+ (s2 +:+ s3).
Proof. induction s1 as [|c s1 IH]; [reflexivity|]. rewrite !append_cons. now rewrite IH. Qed.

Lemma append_empty_r (s : string) : s +:+ "" = s.
Proof. induction s as [|c s IH]; [reflexivity|]. rewrite append_cons. now rewrite IH. Qed.

Lemma length_append (s1 s2 : string) :
  String.length (s1 +:+ s2) = (String.length s1 + String.length s2)%nat.
Proof. induction s1 as [|c s1 IH]; [reflexivity|]. rewrite append_cons. simpl. now rewrite IH. Qed.

Lemma take_append (s1 s2 : string) : str_take (String.length s1) (s1 +:+ s2) = s1.
Proof. induction s1 as [|c s1 IH]; [reflexivity|]. rewrite append_cons. simpl. now rewrite IH. Qed.

Lemma consumed_append (s1 s2 : string) : consumed (s1 +:+ s2) s2 = s1.
Proof.
  unfold consumed. rewrite length_append.
  replace (String.length s1 + String.length s2 - String.length s2)%nat
    with (String.length s1) by lia.
  apply take_append.
Qed.

Lemma rep_loop_sound {R : Type} (r : regex)
    (step : string -> captures -> (string -> captures -> option R) -> option R) :
  sound_step r step ->
  forall fuel k s caps x, rep_loop step k fuel s caps = Some x ->
    exists s1 s2 caps', s = s1 +:+ s2 /\ Matches (Star r) s1 /\ k s2 caps' = Some x.
Proof.
  intros Hstep fuel. induction fuel as [|fuel IH]; intros k s caps x H; simpl in H.
  - exists ""%string, s, caps. repeat split; [constructor | exact H].
  - destruct (step s caps _) as [y|] eqn:E.
    + injection H as ->.
      apply Hstep in E as (s1 & s2 & caps1 & -> & Hm & Hk).
      destruct (_ <? _)%nat; [|discriminate].
      apply IH in Hk as (t1 & t2 & caps2 & -> & Hm2 & Hk).
      exists (s1 +:+ t1), t2, caps2. rewrite append_assoc.
      repeat split; [now constructor | exact Hk].
    + exists ""%string, s, caps. repeat split; [constructor | exact H].
Qed.

Lemma re_run_sound {R : Type} (r : regex) : sound_step (R := R) r (re_run r).
Proof.
  induction r as [p | r1 IH1 r2 IH2 | r1 IH1 r2 IH2 | r1 IH1 | r1 IH1 | r1 IH1 | n r1 IH1 | ];
    intros s caps k x H; simpl in H.
  - destruct s as [|c s]; [discriminate|].
    destruct (p c) eqn:E; [|discriminate].
    exists (String c ""), s, caps. repeat split; [now constructor | exact H].
  - apply IH1 in H as (s1 & s2 & caps1 & -> & Hm1 & H).
    apply IH2 in H as (t1 & t2 & caps2 & -> & Hm2 & H).
    exists (s1 +:+ t1), t2, caps2. rewrite append_assoc.
    repeat split; [now constructor | exact H].
  - destruct (re_run r1 s caps k) as [y|] eqn:E.
    + injection H as ->. apply IH1 in E as (s1 & s2 & caps1 & -> & Hm & Hk).
      exists s1, s2, caps1. repeat split; [now apply M_alt_l | exact Hk].
    + apply IH2 in H as (s1 & s2 & caps1 & -> & Hm & Hk).
      exists s1, s2, caps1. repeat split; [now apply M_alt_r | exact Hk].
  - destruct (re_run r1 s caps k) as [y|] eqn:E.
    + injection H as ->. apply IH1 in E as (s1 & s2 & caps1 & -> & Hm & Hk).
      exists s1, s2, caps1. repeat split; [now apply M_opt_some | exact Hk].
    + exists ""%string, s, caps. repeat split; [constructor | exact H].
  - now apply (rep_loop_sound r1 _ IH1) in H.
  - apply IH1 in H as (s1 & s2 & caps1 & -> & Hm1 & H).
    apply (rep_loop_sound r1 _ IH1) in H as (t1 & t2 & caps2 & -> & Hm2 & H).
    exists (s1 +:+ t1), t2, caps2. rewrite append_assoc.
    repeat split; [now constructor | exact H].
  - apply IH1 in H as (s1 & s2 & caps1 & -> & Hm & Hk).
    eexists s1, s2, _. repeat split; [now constructor | exact Hk].
  - exists ""%string, s, caps. repeat split; [constructor | exact H].
Qed.

(** A match at the start: the matched text is a prefix the pattern matches. *)
Lemma re_match_at_sound (r : regex) (s : string) (m : re_match) (rest : string) :
  re_match_at r s = Some (m, rest) ->
  s = group0 m +:+ rest /\ Matches r (group0 m).
Proof.
  unfold re_match_at. intros H.
  apply re_run_sound in H as (s1 & s2 & caps & -> & Hm & H).
  injection H as <- <-. simpl. rewrite consumed_append. now split.
Qed.

(** A search that succeeds found text that the pattern matches, inside the
    input. *)
Lemma re_search_sound (r : regex) (s : string) (m : re_match) :
  re_search r s = Some m ->
  exists pre post, s = pre +:+ group0 m +:+ post /\ Matches r (group0 m).
Proof.
  induction s as [|c s IH]; simpl.
  - destruct (re_match_at r "") as [[m' rest]|] eqn:E; [|discriminate].
    intros [= ->]. apply re_match_at_sound in E as [E Hm].
    exists ""%string, rest. now split.
  - destruct (re_match_at r (String c s)) as [[m' rest]|] eqn:E.
    + intros [= ->]. apply re_match_at_sound in E as [E Hm].
      exists ""%string, rest. now split.
    + intros H. apply IH in H as (pre & post & -> & Hm).
      exists (String c pre), post. now split.
Qed.

(** ** Decimal parsing *)

Lemma forall_append (p : ascii -> bool) (s1 s2 : string) :
  str_forall p (s1 +:+ s2) = str_forall p s1 && str_forall p s2.
Proof.
  induction s1 as [|c s1 IH]; [reflexivity|].
  rewrite append_cons. simpl. rewrite IH. now rewrite andb_assoc.
Qed.

Lemma one_of_cons (a c : ascii) (cs : string) :
  one_of (String a cs) c = Ascii.eqb a c || one_of cs c.
Proof.
  unfold one_of. cbn [str_forall]. now destruct (Ascii.eqb a c).
Qed.

Lemma matches_cls_inv (p : ascii -> bool) (s : string) :
  Matches (Cls p) s -> exists c, s = String c "" /\ p c = true.
Proof. intros H. inversion H; subst. eauto. Qed.

Lemma matches_cat_inv (r1 r2 : regex) (s : string) :
  Matches (Cat r1 r2) s ->
  exists s1 s2, s = s1 +:+ s2 /\ Matches r1 s1 /\ Matches r2 s2.
Proof. intros H. inversion H; subst. eauto. Qed.

Lemma matches_opt_inv (r : regex) (s : string) :
  Matches (Opt r) s -> s = "" \/ Matches r s.
Proof. intros H. inversion H; subst; auto. Qed.

Lemma matches_alt_inv (r1 r2 : regex) (s : string) :
  Matches (Alt r1 r2) s -> Matches r1 s \/ Matches r2 s.
Proof. intros H. inversion H; subst; auto. Qed.

Lemma matches_plus_inv (r : regex) (s : string) :
  Matches (Plus r) s ->
  exists s1 s2, s = s1 +:+ s2 /\ Matches r s1 /\ Matches (Star r) s2.
Proof. intros H. inversion H; subst. eauto. Qed.

Lemma matches_group_inv (n : nat) (r : regex) (s : string) :
  Matches (Group n r) s -> Matches r s.
Proof. intros H. now inversion H; subst. Qed.

Lemma matches_eps_inv (s : string) : Matches Eps s -> s = "".
Proof. intros H. now inversion H. Qed.

Lemma matches_star_class (p : ascii -> bool) (s : string) :
  Matches (Star (Cls p)) s -> str_forall p s = true.
Proof.
  intros H. remember (Star (Cls p)) as r eqn:Er.
  induction H; try discriminate; [reflexivity|].
  injection Er as ->. rewrite forall_append.
  apply matches_cls_inv in H as (c & -> & Hc). simpl. rewrite Hc. simpl.
  now apply IHMatches2.
Qed.

Lemma matches_plus_class (p : ascii -> bool) (s : string) :
  Matches (Plus (Cls p)) s -> str_forall p s = true /\ is_empty s = false.
Proof.
  intros (s1 & s2 & -> & H1 & H2)%matches_plus_inv.
  apply matches_cls_inv in H1 as (c & -> & Hc). apply matches_star_class in H2.
  rewrite append_cons, append_empty_l. simpl. rewrite Hc, H2. now split.
Qed.

Lemma number_re_token (tok : string) : Matches number_re tok -> number_token tok.
Proof.
  unfold number_re.
  intros (sign & t1 & -> & Hsign & H1)%matches_cat_inv.
  apply matches_cat_inv in H1 as (ip & t2 & -> & Hip & H2).
  apply matches_cat_inv in H2 as (dot & fp & -> & Hdot & Hfp).
  exists sign, ip, dot, fp. split; [reflexivity|].
  apply matches_star_class in Hip. apply matches_plus_class in Hfp as [Hfp Hne].
  repeat split; try assumption.
  - apply matches_opt_inv in Hsign as [->|Hc]; [now left|].
    apply matches_cls_inv in Hc as (c & -> & Hp).
    rewrite !one_of_cons in Hp.
    destruct (Ascii.eqb "-" c) eqn:E1.
    + apply Ascii.eqb_eq in E1 as <-. right; now left.
    + destruct (Ascii.eqb "+" c) eqn:E2; [|discriminate].
      apply Ascii.eqb_eq in E2 as <-. right; now right.
  - apply matches_opt_inv in Hdot as [->|Hc]; [now left|].
    apply matches_cls_inv in Hc as (c & -> & Hp).
    unfold chr in Hp. apply Ascii.eqb_eq in Hp as <-. now right.
Qed.

(** Every token [_parse_number] hands to [float] is a numeric token, so the
    conversion never raises. *)
Lemma parse_number_token (s : string) (m : re_match) :
  re_search number_re s = Some m -> number_token (group0 m).
Proof.
  intros H. apply re_search_sound in H as (pre & post & _ & Hm).
  now apply number_re_token.
Qed.

Lemma no_digit_not_all_digits (s : string) :
  no_digit s = true -> str_forall is_digit s = true -> is_empty s = true.
Proof.
  destruct s as [|c s]; [reflexivity|]. unfold no_digit. simpl.
  destruct (is_digit c); discriminate.
Qed.

(** Text without a digit has no numeric token. *)
Lemma search_number_no_digit (s : string) :
  no_digit s = true -> re_search number_re s = None.
Proof.
  intros Hs. destruct (re_search number_re s) as [m|] eqn:E; [|reflexivity].
  exfalso. apply re_search_sound in E as (pre & post & -> & Hm).
  apply number_re_token in Hm as (sign & ip & dot & fp & Etok & _ & _ & _ & Hfp & Hne).
  unfold no_digit in Hs. rewrite Etok, !forall_append in Hs.
  repeat (apply andb_prop in Hs as [? Hs] || apply andb_prop in Hs as [Hs ?]).
  repeat match goal with H : (_ && _) = true |- _ => apply andb_prop in H as [? ?] end.
  assert (is_empty fp = true) by (apply no_digit_not_all_digits; assumption).
  congruence.
Qed.

Lemma forall_replace_go (p : ascii -> bool) (old new : string) (skip : nat) (s : string) :
  str_forall p new = true -> str_forall p s = true ->
  str_forall p (replace_go old new skip s) = true.
Proof.
  intros Hnew. revert skip. induction s as [|c s IH]; intros skip Hs; [reflexivity|].
  simpl in Hs. apply andb_prop in Hs as [Hc Hs]. simpl.
  destruct skip as [|k]; [|now apply IH].
  destruct (startswith old (String c s)).
  - rewrite forall_append, Hnew. now apply IH.
  - simpl. rewrite Hc. now apply IH.
Qed.

Lemma forall_lstrip (p : ascii -> bool) (s : string) :
  str_forall p s = true -> str_forall p (str_lstrip s) = true.
Proof.
  induction s as [|c s IH]; [reflexivity|]. simpl. intros H.
  destruct (is_space c); [|exact H]. apply andb_prop in H as [_ H]. now apply IH.
Qed.

Lemma forall_rstrip (p : ascii -> bool) (s : string) :
  str_forall p s = true -> str_forall p (str_rstrip s) = true.
Proof.
  induction s as [|c s IH]; [reflexivity|]. simpl. intros [Hc Hs]%andb_prop.
  destruct (is_empty (str_rstrip s) && is_space c); [reflexivity|].
  simpl. rewrite Hc. now apply IH.
Qed.

Lemma forall_strip (p : ascii -> bool) (s : string) :
  str_forall p s = true -> str_forall p (str_strip s) = true.
Proof. intros H. unfold str_strip. now apply forall_rstrip, forall_lstrip. Qed.

(** Cleaning brings no digit into a text that has none. *)
Lemma cleaned_text_no_digit (text : string) :
  no_digit text = true -> no_digit (cleaned_text text) = true.
Proof.
  intros H. unfold cleaned_text, no_digit, str_replace.
  apply forall_strip. repeat (apply forall_replace_go; [reflexivity|]). exact H.
Qed.



(** ** Usage bars *)

Lemma lower_char_inv (c : ascii) :
  c = lower_char c \/ c = upper_char (lower_char c).
Proof.
  destruct c as [[] [] [] [] [] [] [] []]; vm_compute; auto.
Qed.

Lemma lower_case_variants (w : string) : In w (case_variants (str_lower w)).
Proof.
  induction w as [|c w IH]; [now left|].
  change (str_lower (String c w)) with (String (lower_char c) (str_lower w)).
  cbn [case_variants]. apply in_flat_map. exists w. split; [exact IH|].
  destruct (lower_char_inv c) as [E | E]; rewrite <- E; simpl; auto.
Qed.

Lemma unlimited_variants_parse :
  map (fun w => _parse_usage_bar (unlimited_bar w)) (case_variants "unlimited")
  = repeat (1%float, float_inf, "MB"%string) 512.
Proof. vm_compute. reflexivity. Qed.

(** The word in any letter case, as the total of a bar. *)
Lemma parse_usage_bar_unlimited (w : string) :
  str_lower w = "unlimited" ->
  _parse_usage_bar (unlimited_bar w) = (1%float, float_inf, "MB"%string).
Proof.
  intros Hw. pose proof (lower_case_variants w) as Hin. rewrite Hw in Hin.
  apply (in_map (fun w => _parse_usage_bar (unlimited_bar w))) in Hin.
  rewrite unlimited_variants_parse in Hin.
  now apply repeat_spec in Hin.
Qed.

Lemma string_eqb_refl' (s t : string) : s = t -> String.eqb s t = true.
Proof. intros ->. apply String.eqb_refl. Qed.



(** ** The matcher finds a match when there is one *)

Lemma rep_loop_nil_complete {R : Type}
    (step : string -> captures -> (string -> captures -> option R) -> option R)
    (k : string -> captures -> option R) (fuel : nat) (s : string) (caps : captures) :
  accepts k s -> exists x, rep_loop step k fuel s caps = Some x.
Proof.
  intros Hk. destruct fuel as [|fuel]; cbn [rep_loop]; [apply Hk|].
  destruct (step s caps _) as [x|]; [eauto | apply Hk].
Qed.

Lemma re_run_complete_gen {R : Type} (r : regex) (s1 : string) :
  Matches r s1 ->
  (forall s2 caps (k : string -> captures -> option R),
     accepts k s2 -> exists x, re_run r (s1 +:+ s2) caps k = Some x)
  /\ (forall r', r = Star r' ->
      forall fuel s2 caps (k : string -> captures -> option R),
        (String.length (s1 +:+ s2) <= fuel)%nat -> accepts k s2 ->
        exists x, rep_loop (re_run r') k fuel (s1 +:+ s2) caps = Some x).
Proof.
  induction 1 as [p c Hp | r1 r2 s1 s2 H1 [IH1 _] H2 [IH2 _] | r1 r2 s H1 [IH1 _]
                 | r1 r2 s H2 [IH2 _] | r | r s H1 [IH1 _] | r
                 | r s1 s2 H1 [IH1 _] H2 [_ IH2] | r s1 s2 H1 [IH1 _] H2 [_ IH2]
                 | n r s H1 [IH1 _] | ].
  - split; [|discriminate]. intros s2 caps k Hk. rewrite append_cons, append_empty_l. cbn [re_run].
    rewrite Hp. apply Hk.
  - split; [|discriminate]. intros s3 caps k Hk. cbn [re_run]. rewrite append_assoc.
    apply IH1. intros caps'. now apply IH2.
  - split; [|discriminate]. intros s2 caps k Hk. cbn [re_run].
    destruct (IH1 s2 caps k Hk) as [x ->]. eauto.
  - split; [|discriminate]. intros s2 caps k Hk. cbn [re_run].
    destruct (re_run r1 _ _ _); [eauto | now apply IH2].
  - split; [|discriminate]. intros s2 caps k Hk. cbn [re_run]. rewrite append_empty_l.
    destruct (re_run r _ _ _); [eauto | apply Hk].
  - split; [|discriminate]. intros s2 caps k Hk. cbn [re_run].
    destruct (IH1 s2 caps k Hk) as [x ->]. eauto.
  - split.
    + intros s2 caps k Hk. cbn [re_run]. now apply rep_loop_nil_complete.
    + intros r' _ fuel s2 caps k _ Hk. now apply rep_loop_nil_complete.
  - assert (forall fuel s3 caps (k : string -> captures -> option R),
              (String.length ((s1 +:+ s2) +:+ s3) <= fuel)%nat -> accepts k s3 ->
              exists x, rep_loop (re_run r) k fuel ((s1 +:+ s2) +:+ s3) caps = Some x) as L.
    { intros fuel s3 caps k Hf Hk. destruct s1 as [|c s1].
      - rewrite append_empty_l in *. now apply (IH2 r eq_refl).
      - rewrite append_assoc in *. destruct fuel as [|fuel].
        + rewrite append_cons in Hf. cbn in Hf. lia.
        + cbn [rep_loop].
          destruct (IH1 (s2 +:+ s3) caps
                      (fun s' caps' =>
                         if (String.length s' <? String.length (String c s1 +:+ (s2 +:+ s3)))%nat
                         then rep_loop (re_run r) k fuel s' caps' else None)) as [x ->];
            [|eauto].
          intros caps'. rewrite append_cons in *. cbn [String.length] in *.
          rewrite !length_append in Hf. rewrite !length_append.
          replace (_ <? _)%nat with true by (symmetry; apply Nat.ltb_lt; lia).
          apply (IH2 r eq_refl); [|exact Hk]. rewrite length_append. lia. }
    split.
    + intros s3 caps k Hk. cbn [re_run]. now apply L.
    + intros r' [= <-]. exact L.
  - split; [|discriminate]. intros s3 caps k Hk. cbn [re_run]. rewrite append_assoc.
    apply IH1. intros caps'. now apply (IH2 r eq_refl).
  - split; [|discriminate]. intros s2 caps k Hk. cbn [re_run].
    apply IH1. intros caps'. apply Hk.
  - split; [|discriminate]. intros s2 caps k Hk. cbn [re_run]. apply Hk.
Qed.

Lemma re_run_complete {R : Type} (r : regex) (s1 s2 : string) (caps : captures)
    (k : string -> captures -> option R) :
  Matches r s1 -> accepts k s2 -> exists x, re_run r (s1 +:+ s2) caps k = Some x.
Proof. intros H. now apply (re_run_complete_gen r s1 H). Qed.

Lemma re_match_at_complete (r : regex) (s1 s2 : string) :
  Matches r s1 -> exists m rest, re_match_at r (s1 +:+ s2) = Some (m, rest).
Proof.
  intros H. unfold re_match_at.
  destruct (re_run_complete r s1 s2 []
              (fun rest caps => Some (MkMatch (consumed (s1 +:+ s2) rest) caps, rest)) H)
    as [[m rest] E]; [intros caps; eauto|]. eauto.
Qed.

Lemma re_search_complete (r : regex) (pre s1 post : string) :
  Matches r s1 -> exists m, re_search r (pre +:+ s1 +:+ post) = Some m.
Proof.
  intros H. induction pre as [|c pre IH].
  - rewrite append_empty_l. destruct (re_match_at_complete r s1 post H) as (m & rest & E).
    exists m. destruct (s1 +:+ post); cbn [re_search]; now rewrite E.
  - rewrite append_cons. cbn [re_search].
    destruct (re_match_at r _) as [[m rest]|]; [eauto | exact IH].
Qed.

(** The match [re_search] returns starts where no earlier position has a
    match. *)
Lemma re_search_leftmost (r : regex) (s : string) (m : re_match) :
  re_search r s = Some m ->
  exists pre rest,
    s = pre +:+ rest
    /\ (exists rest', re_match_at r rest = Some (m, rest'))
    /\ forall p1 p2, pre = p1 +:+ p2 -> is_empty p2 = false ->
         re_match_at r (p2 +:+ rest) = None.
Proof.
  induction s as [|c s IH]; cbn [re_search].
  - destruct (re_match_at r "") as [[m' rest']|] eqn:E; [|discriminate].
    intros [= ->]. exists "", "". split; [reflexivity|]. split; [eauto|].
    intros p1 p2 Hp. destruct p1; [|discriminate]. rewrite append_empty_l in Hp.
    now subst p2.
  - destruct (re_match_at r (String c s)) as [[m' rest']|] eqn:E.
    + intros [= ->]. exists "", (String c s). split; [reflexivity|]. split; [eauto|].
      intros p1 p2 Hp. destruct p1; [|discriminate]. rewrite append_empty_l in Hp.
      now subst p2.
    + intros Hs. destruct (IH Hs) as (pre & rest & -> & Hm & Hleft).
      exists (String c pre), rest. split; [reflexivity|]. split; [exact Hm|].
      intros p1 p2 Hp Hne. destruct p1 as [|c1 p1].
      * rewrite append_empty_l in Hp. subst p2. exact E.
      * rewrite append_cons in Hp. injection Hp as _ Hp. now apply (Hleft p1 p2).
Qed.

(** ** Digits of a text *)

Lemma space_not_digit (c : ascii) : is_space c = true -> is_digit c = false.
Proof. destruct c as [[] [] [] [] [] [] [] []]; vm_compute; congruence. Qed.

Lemma digits_append (a b : string) : digits_of (a +:+ b) = digits_of a +:+ digits_of b.
Proof.
  unfold digits_of. induction a as [|c a IH]; [reflexivity|].
  rewrite append_cons. cbn [str_filter]. destruct (is_digit c); [|exact IH].
  now rewrite append_cons, IH.
Qed.

Lemma no_digit_digits (s : string) : no_digit s = is_empty (digits_of s).
Proof.
  unfold no_digit, digits_of. induction s as [|c s IH]; [reflexivity|].
  cbn [str_forall str_filter]. destruct (is_digit c); [reflexivity | exact IH].
Qed.

Lemma digits_none (s : string) : no_digit s = true -> digits_of s = "".
Proof. rewrite no_digit_digits. apply is_empty_true. Qed.

(** Replacing a text without digits by a text without digits keeps the
    digits. *)
Lemma digits_replace_go (old new : string) :
  is_empty old = false -> no_digit old = true -> no_digit new = true ->
  forall s skip t,
    no_digit t = true -> startswith t s = true -> String.length t = skip ->
    digits_of (replace_go old new skip s) = digits_of s.
Proof.
  intros Hne Hold Hnew. induction s as [|c s IH]; intros skip t Ht Hst Hlen; [reflexivity|].
  cbn [replace_go]. destruct skip as [|k].
  - destruct (startswith old (String c s)) eqn:E.
    + destruct old as [|a old']; [discriminate|]. cbn [startswith] in E.
      apply andb_prop in E as [Ea E']. apply Ascii.eqb_eq in Ea. subst a.
      unfold no_digit in Hold. cbn [str_forall] in Hold.
      apply andb_prop in Hold as [Hc Hold'].
      rewrite digits_append, (digits_none new Hnew), append_empty_l.
      cbn [String.length Nat.pred].
      rewrite (IH (String.length old') old' Hold' E' eq_refl).
      unfold digits_of. cbn [str_filter]. apply negb_true_iff in Hc. now rewrite Hc.
    + unfold digits_of in *. cbn [str_filter].
      rewrite (IH 0%nat "" eq_refl eq_refl eq_refl). reflexivity.
  - destruct t as [|a t']; [discriminate|]. cbn [startswith] in Hst.
    apply andb_prop in Hst as [Ea Hst']. apply Ascii.eqb_eq in Ea. subst a.
    unfold no_digit in Ht. cbn [str_forall] in Ht. apply andb_prop in Ht as [Hc Ht'].
    cbn [String.length] in Hlen. injection Hlen as Hlen.
    rewrite (IH k t' Ht' Hst' Hlen).
    unfold digits_of. cbn [str_filter]. apply negb_true_iff in Hc. now rewrite Hc.
Qed.

Lemma digits_replace (old new s : string) :
  is_empty old = false -> no_digit old = true -> no_digit new = true ->
  digits_of (str_replace old new s) = digits_of s.
Proof.
  intros H1 H2 H3. unfold str_replace.
  now apply (digits_replace_go old new H1 H2 H3 s 0%nat "").
Qed.

Lemma digits_lstrip (s : string) : digits_of (str_lstrip s) = digits_of s.
Proof.
  unfold digits_of. induction s as [|c s IH]; [reflexivity|]. cbn [str_lstrip].
  destruct (is_space c) eqn:E; [|reflexivity].
  cbn [str_filter]. now rewrite (space_not_digit c E).
Qed.

Lemma digits_rstrip (s : string) : digits_of (str_rstrip s) = digits_of s.
Proof.
  unfold digits_of. induction s as [|c s IH]; [reflexivity|]. cbn [str_rstrip].
  destruct (is_empty (str_rstrip s)) eqn:E; cbn [andb].
  - destruct (is_space c) eqn:Sp.
    + cbn [str_filter]. rewrite (space_not_digit c Sp), <- IH.
      now rewrite (is_empty_true _ E).
    + cbn [str_filter]. now rewrite IH.
  - cbn [str_filter]. now rewrite IH.
Qed.

Lemma digits_strip (s : string) : digits_of (str_strip s) = digits_of s.
Proof. unfold str_strip. now rewrite digits_rstrip, digits_lstrip. Qed.

Lemma digits_cleaned (text : string) : digits_of (cleaned_text text) = digits_of text.
Proof.
  unfold cleaned_text. rewrite digits_strip.
  rewrite !digits_replace; reflexivity.
Qed.

(** ** Numbers in a text *)

Lemma digit_matches_number (d : ascii) :
  is_digit d = true -> Matches number_re (String d "").
Proof.
  intros Hd. unfold number_re.
  change (String d "") with ("" +:+ ("" +:+ ("" +:+ (String d "" +:+ "")))).
  repeat constructor. exact Hd.
Qed.

(** Where the pattern for numbers has no match, no digit stands. *)
Lemma no_match_no_digit (rest : string) :
  forall pre,
  (forall p1 p2, pre = p1 +:+ p2 -> is_empty p2 = false ->
     re_match_at number_re (p2 +:+ rest) = None) ->
  no_digit pre = true.
Proof.
  induction pre as [|c pre IH]; intros H; [reflexivity|].
  unfold no_digit. cbn [str_forall]. fold (no_digit pre).
  rewrite IH.
  - destruct (is_digit c) eqn:Hd; [|reflexivity].
    specialize (H "" (String c pre) eq_refl eq_refl).
    rewrite append_cons in H.
    destruct (re_match_at_complete number_re (String c "") (pre +:+ rest)
                (digit_matches_number c Hd)) as (m & r & E).
    rewrite append_cons, append_empty_l in E. congruence.
  - intros p1 p2 -> Hne. now apply (H (String c p1) p2).
Qed.

Lemma has_digit_split (s : string) :
  no_digit s = false ->
  exists pre d post, s = pre +:+ String d post /\ is_digit d = true.
Proof.
  unfold no_digit. induction s as [|c s IH]; [discriminate|]. cbn [str_forall].
  destruct (is_digit c) eqn:Hd; cbn [negb andb].
  - intros _. exists "", c, s. split; [reflexivity | exact Hd].
  - intros H. destruct (IH H) as (pre & d & post & -> & Hdig).
    exists (String c pre), d, post. split; [reflexivity | exact Hdig].
Qed.

Lemma search_number_digit (s : string) :
  no_digit s = false -> exists m, re_search number_re s = Some m.
Proof.
  intros H. destruct (has_digit_split s H) as (pre & d & post & -> & Hd).
  change (String d post) with (String d "" +:+ post).
  apply re_search_complete. now apply digit_matches_number.
Qed.


(** ** Forms of a phone number *)

Lemma digits_fixed (d : string) : str_forall is_digit d = true -> digits_of d = d.
Proof. apply filter_fixed. Qed.

Lemma normalize_digits (d : string) :
  str_forall is_digit d = true ->
  _normalize_phone_number d
  = if is_empty d then ""
    else if startswith "43" d then "+" +:+ d
    else if startswith "0" d then "+43" +:+ str_drop 1 d
    else "+43" +:+ d.
Proof.
  intros H. unfold _normalize_phone_number.
  rewrite strip_non_digits_filter. fold (digits_of d). rewrite (digits_fixed d H).
  destruct (is_empty d); reflexivity.
Qed.


(** ** What the groups of a match hold *)

Lemma rep_loop_captures {R : Type} (r : regex)
    (step : string -> captures -> (string -> captures -> option R) -> option R) :
  captures_step r step ->
  forall fuel k s caps x, rep_loop step k fuel s caps = Some x ->
    exists s1 s2 caps', s = s1 +:+ s2 /\ Captures (Star r) s1 caps caps' /\ k s2 caps' = Some x.
Proof.
  intros Hstep fuel. induction fuel as [|fuel IH]; intros k s caps x H; simpl in H.
  - exists ""%string, s, caps. repeat split; [constructor | exact H].
  - destruct (step s caps _) as [y|] eqn:E.
    + injection H as ->.
      apply Hstep in E as (s1 & s2 & caps1 & -> & Hm & Hk).
      destruct (_ <? _)%nat; [|discriminate].
      apply IH in Hk as (t1 & t2 & caps2 & -> & Hm2 & Hk).
      exists (s1 +:+ t1), t2, caps2. rewrite append_assoc.
      repeat split; [now apply C_star_cons with caps1 | exact Hk].
    + exists ""%string, s, caps. repeat split; [constructor | exact H].
Qed.

Lemma re_run_captures {R : Type} (r : regex) : captures_step (R := R) r (re_run r).
Proof.
  induction r as [p | r1 IH1 r2 IH2 | r1 IH1 r2 IH2 | r1 IH1 | r1 IH1 | r1 IH1 | n r1 IH1 | ];
    intros s caps k x H; simpl in H.
  - destruct s as [|c s]; [discriminate|].
    destruct (p c) eqn:E; [|discriminate].
    exists (String c ""), s, caps. repeat split; [now constructor | exact H].
  - apply IH1 in H as (s1 & s2 & caps1 & -> & Hm1 & H).
    apply IH2 in H as (t1 & t2 & caps2 & -> & Hm2 & H).
    exists (s1 +:+ t1), t2, caps2. rewrite append_assoc.
    repeat split; [now apply C_cat with caps1 | exact H].
  - destruct (re_run r1 s caps k) as [y|] eqn:E.
    + injection H as ->. apply IH1 in E as (s1 & s2 & caps1 & -> & Hm & Hk).
      exists s1, s2, caps1. repeat split; [now apply C_alt_l | exact Hk].
    + apply IH2 in H as (s1 & s2 & caps1 & -> & Hm & Hk).
      exists s1, s2, caps1. repeat split; [now apply C_alt_r | exact Hk].
  - destruct (re_run r1 s caps k) as [y|] eqn:E.
    + injection H as ->. apply IH1 in E as (s1 & s2 & caps1 & -> & Hm & Hk).
      exists s1, s2, caps1. repeat split; [now apply C_opt_some | exact Hk].
    + exists ""%string, s, caps. repeat split; [constructor | exact H].
  - now apply (rep_loop_captures r1 _ IH1) in H.
  - apply IH1 in H as (s1 & s2 & caps1 & -> & Hm1 & H).
    apply (rep_loop_captures r1 _ IH1) in H as (t1 & t2 & caps2 & -> & Hm2 & H).
    exists (s1 +:+ t1), t2, caps2. rewrite append_assoc.
    repeat split; [now apply C_plus with caps1 | exact H].
  - apply IH1 in H as (s1 & s2 & caps1 & -> & Hm & Hk).
    rewrite consumed_append in Hk.
    eexists s1, s2, _. repeat split; [constructor; exact Hm | exact Hk].
  - exists ""%string, s, caps. repeat split; [constructor | exact H].
Qed.

Lemma captures_matches (r : regex) (s : string) (c0 c1 : captures) :
  Captures r s c0 c1 -> Matches r s.
Proof. induction 1; eauto using Matches. Qed.

Lemma captures_group_free (r : regex) (s : string) (c0 c1 : captures) :
  Captures r s c0 c1 -> group_free r = true -> c1 = c0.
Proof.
  induction 1; cbn [group_free]; intros G; try reflexivity; try discriminate;
    try (apply andb_prop in G as [G1 G2]); try congruence; auto.
  - rewrite IHCaptures2, IHCaptures1; auto.
  - rewrite IHCaptures2, IHCaptures1; auto.
  - rewrite IHCaptures2, IHCaptures1; auto.
Qed.

Lemma captures_cat_inv (r1 r2 : regex) (s : string) (c0 c2 : captures) :
  Captures (Cat r1 r2) s c0 c2 ->
  exists s1 s2 c1, s = s1 +:+ s2 /\ Captures r1 s1 c0 c1 /\ Captures r2 s2 c1 c2.
Proof. intros H. inversion H; subst. eauto 8. Qed.

Lemma captures_group_inv (n : nat) (r : regex) (s : string) (c0 c2 : captures) :
  Captures (Group n r) s c0 c2 -> exists c1, c2 = (n, s) :: c1 /\ Captures r s c0 c1.
Proof. intros H. inversion H; subst. eauto. Qed.

Lemma re_match_at_captures (r : regex) (s : string) (m : re_match) (rest : string) :
  re_match_at r s = Some (m, rest) -> Captures r (group0 m) [] (groups m).
Proof.
  unfold re_match_at. intros H.
  apply re_run_captures in H as (s1 & s2 & caps & -> & Hm & H).
  injection H as <- <-. simpl. now rewrite consumed_append.
Qed.

Lemma lit_i_group_free (s : string) : group_free (lit_i s) = true.
Proof. induction s as [|c s IH]; [reflexivity | exact IH]. Qed.

Lemma matches_lit_i (w : string) :
  forall s, Matches (lit_i w) s -> str_lower s = str_lower w.
Proof.
  induction w as [|c w IH]; intros s H; cbn [lit_i] in H.
  - now apply matches_eps_inv in H as ->.
  - apply matches_cat_inv in H as (s1 & s2 & -> & H1 & H2).
    apply matches_cls_inv in H1 as (x & -> & Hx). apply Ascii.eqb_eq in Hx.
    rewrite append_cons, append_empty_l. unfold str_lower in *. cbn [str_map].
    now rewrite Hx, (IH s2 H2).
Qed.

(** The groups of a match of the pattern for usage bars. *)
Lemma usage_bar_captures (s : string) (caps : captures) :
  Captures usage_bar_re s [] caps ->
  exists g1 g2 g3, caps = [(3, g3); (2, g2); (1, g1)]%nat /\ usage_bar_groups g1 g2 g3.
Proof.
  unfold usage_bar_re. cbn [seq]. intros H.
  apply captures_cat_inv in H as (s1 & t1 & c1 & _ & H1 & H).
  apply captures_group_free in H1; [|apply lit_i_group_free]. subst c1.
  apply captures_cat_inv in H as (s2 & t2 & c2 & _ & H2 & H).
  apply captures_group_free in H2; [|reflexivity]. subst c2.
  apply captures_cat_inv in H as (g1 & t3 & c3 & _ & H3 & H).
  apply captures_group_inv in H3 as (c3' & -> & H3).
  pose proof (captures_group_free _ _ _ _ H3 eq_refl) as ->.
  apply captures_matches, matches_plus_class in H3.
  apply captures_cat_inv in H as (s4 & t4 & c4 & _ & H4 & H).
  apply captures_group_free in H4; [|reflexivity]. subst c4.
  apply captures_cat_inv in H as (s5 & t5 & c5 & _ & H5 & H).
  apply captures_group_free in H5; [|apply lit_i_group_free]. subst c5.
  apply captures_cat_inv in H as (s6 & t6 & c6 & _ & H6 & H).
  apply captures_group_free in H6; [|reflexivity]. subst c6.
  apply captures_cat_inv in H as (g2 & t7 & c7 & _ & H7 & H).
  apply captures_group_inv in H7 as (c7' & -> & H7).
  pose proof (captures_group_free _ _ _ _ H7 (lit_i_group_free "unlimited")) as E7.
  cbn [group_free andb] in E7.
  assert (c7' = [(1, g1)]%nat) as -> by (apply (captures_group_free _ _ _ _ H7); reflexivity).
  clear E7.
  apply captures_cat_inv in H as (s8 & t8 & c8 & _ & H8 & H).
  apply captures_group_free in H8; [|reflexivity]. subst c8.
  apply captures_cat_inv in H as (g3 & t9 & c9 & _ & H9 & H).
  apply captures_group_inv in H9 as (c9' & -> & H9).
  pose proof (captures_group_free _ _ _ _ H9 eq_refl) as ->.
  apply captures_matches, matches_plus_class in H9.
  apply captures_group_free in H; [|reflexivity]. subst caps.
  exists g1, g2, g3. split; [reflexivity|].
  split; [exact H3|]. split; [|exact H9].
  apply captures_matches, matches_alt_inv in H7 as [H7|H7].
  - left. now apply matches_plus_class.
  - right. exact (matches_lit_i "unlimited" g2 H7).
Qed.

Lemma search_usage_bar_groups (text : string) (m : re_match) :
  re_search usage_bar_re text = Some m ->
  exists g1 g2 g3, groups m = [(3, g3); (2, g2); (1, g1)]%nat /\ usage_bar_groups g1 g2 g3.
Proof.
  intros H. apply re_search_leftmost in H as (pre & rest & _ & (rest' & Hat) & _).
  apply (usage_bar_captures (group0 m)). exact (re_match_at_captures _ _ _ _ Hat).
Qed.


(** ** The pattern for target numbers *)

Lemma take_drop (n : nat) (s : string) : str_take n s +:+ str_drop n s = s.
Proof.
  revert s. induction n as [|n IH]; intros s; [reflexivity|].
  destruct s as [|c s]; [reflexivity|]. cbn [str_take str_drop].
  now rewrite append_cons, IH.
Qed.

Lemma forall_take (p : ascii -> bool) (n : nat) (s : string) :
  str_forall p s = true -> str_forall p (str_take n s) = true.
Proof.
  revert s. induction n as [|n IH]; intros s H; [reflexivity|].
  destruct s as [|c s]; [reflexivity|]. cbn [str_take str_forall] in *.
  apply andb_prop in H as [-> H]. now rewrite IH.
Qed.

Lemma length_take (n : nat) (s : string) :
  (n <= String.length s)%nat -> String.length (str_take n s) = n.
Proof.
  revert s. induction n as [|n IH]; intros s H; [reflexivity|].
  destruct s as [|c s]; cbn [String.length] in H; [lia|].
  cbn [str_take String.length]. rewrite IH; lia.
Qed.

Lemma length_drop (n : nat) (s : string) :
  String.length (str_drop n s) = (String.length s - n)%nat.
Proof.
  revert s. induction n as [|n IH]; intros s; [cbn; lia|].
  destruct s as [|c s]; [reflexivity|]. cbn [str_drop String.length]. now rewrite IH.
Qed.

Lemma matches_times (p : ascii -> bool) (n : nat) (s : string) :
  Matches (times n (Cls p)) s <-> str_forall p s = true /\ String.length s = n.
Proof.
  revert s. induction n as [|n IH]; intros s; cbn [times].
  - split.
    + intros H. apply matches_eps_inv in H as ->. now split.
    + intros [_ H]. destruct s; [constructor | discriminate].
  - split.
    + intros H. apply matches_cat_inv in H as (s1 & s2 & -> & H1 & H2).
      apply matches_cls_inv in H1 as (c & -> & Hc). apply IH in H2 as [H2 L].
      rewrite append_cons, append_empty_l. cbn [str_forall String.length].
      now rewrite Hc, H2, L.
    + intros [H L]. destruct s as [|c s]; [discriminate|].
      cbn [str_forall String.length] in *. apply andb_prop in H as [Hc H].
      change (String c s) with (String c "" +:+ s). constructor; [now constructor|].
      apply IH. split; [exact H | lia].
Qed.

Lemma matches_at_most (p : ascii -> bool) (n : nat) (s : string) :
  Matches (at_most n (Cls p)) s <-> str_forall p s = true /\ (String.length s <= n)%nat.
Proof.
  revert s. induction n as [|n IH]; intros s; cbn [at_most].
  - split.
    + intros H. apply matches_eps_inv in H as ->. split; [reflexivity | cbn; lia].
    + intros [_ H]. destruct s; [constructor | cbn in H; lia].
  - split.
    + intros H. apply matches_opt_inv in H as [-> | H]; [split; [reflexivity | cbn; lia]|].
      apply matches_cat_inv in H as (s1 & s2 & -> & H1 & H2).
      apply matches_cls_inv in H1 as (c & -> & Hc). apply IH in H2 as [H2 L].
      rewrite append_cons, append_empty_l. cbn [str_forall String.length].
      rewrite Hc, H2. split; [reflexivity | lia].
    + intros [H L]. destruct s as [|c s]; [constructor|].
      cbn [str_forall String.length] in *. apply andb_prop in H as [Hc H].
      apply M_opt_some. change (String c s) with (String c "" +:+ s).
      constructor; [now constructor|]. apply IH. split; [exact H | lia].
Qed.

Lemma matches_target_number (s : string) :
  Matches target_number_re s <->
  exists sign digits,
    s = sign +:+ digits /\ (sign = "" \/ sign = "+")
    /\ str_forall is_digit digits = true /\ (5 <= String.length digits <= 30)%nat.
Proof.
  unfold target_number_re. split.
  - intros H. apply matches_cat_inv in H as (sign & rest & -> & Hs & H).
    apply matches_cat_inv in H as (d1 & d2 & -> & H1 & H2).
    apply matches_times in H1 as [F1 L1]. apply matches_at_most in H2 as [F2 L2].
    exists sign, (d1 +:+ d2). split; [reflexivity|]. split.
    + apply matches_opt_inv in Hs as [-> | Hs]; [now left | right].
      apply matches_cls_inv in Hs as (c & -> & Hc). apply Ascii.eqb_eq in Hc. now subst c.
    + rewrite forall_append, F1, F2, length_append. split; [reflexivity | lia].
  - intros (sign & digits & -> & Hs & F & L).
    constructor.
    + destruct Hs as [-> | ->]; [constructor|]. apply M_opt_some. now constructor.
    + rewrite <- (take_drop 5 digits). constructor.
      * apply matches_times. split; [now apply forall_take | apply length_take; lia].
      * apply matches_at_most. split; [now apply forall_drop|]. rewrite length_drop. lia.
Qed.

Lemma at_end_inv (rest : string) : at_end rest = true <-> rest = "" \/ rest = line_feed.
Proof.
  unfold at_end. split.
  - intros H. apply orb_prop in H as [H | H].
    + left. now apply is_empty_true.
    + right. now apply String.eqb_eq in H.
  - intros [-> | ->]; reflexivity.
Qed.

(** ** Replacing one character by another *)

Lemma replace_char_cons (a b c : ascii) (s : string) :
  str_replace (String a "") (String b "") (String c s)
  = String (if Ascii.eqb a c then b else c) (str_replace (String a "") (String b "") s).
Proof.
  unfold str_replace. cbn [replace_go startswith String.length Nat.pred].
  destruct (Ascii.eqb a c); cbn [andb]; [|reflexivity].
  now rewrite append_cons, append_empty_l.
Qed.

Lemma contains_char_cons (a c : ascii) (s : string) :
  str_contains (String a "") (String c s) = Ascii.eqb a c || str_contains (String a "") s.
Proof.
  cbn [str_contains startswith]. destruct (Ascii.eqb a c); [reflexivity|].
  destruct s; reflexivity.
Qed.

Lemma replace_char_gone (a b : ascii) (s : string) :
  Ascii.eqb a b = false ->
  str_contains (String a "") (str_replace (String a "") (String b "") s) = false.
Proof.
  intros Hab. induction s as [|c s IH]; [reflexivity|].
  rewrite replace_char_cons, contains_char_cons, IH, orb_false_r.
  destruct (Ascii.eqb a c) eqn:E; [exact Hab | exact E].
Qed.

Lemma replace_char_absent (a b : ascii) (s : string) :
  str_contains (String a "") s = false -> str_replace (String a "") (String b "") s = s.
Proof.
  induction s as [|c s IH]; [reflexivity|].
  rewrite contains_char_cons, replace_char_cons. intros H.
  apply orb_false_elim in H as [-> H]. now rewrite IH.
Qed.

Lemma replace_char_back (a b : ascii) (s : string) :
  str_contains (String b "") s = false ->
  str_replace (String b "") (String a "") (str_replace (String a "") (String b "") s) = s.
Proof.
  induction s as [|c s IH]; [reflexivity|].
  rewrite contains_char_cons, !replace_char_cons. intros H.
  apply orb_false_elim in H as [Hc H]. rewrite (IH H).
  destruct (Ascii.eqb a c) eqn:E.
  - rewrite Ascii.eqb_refl. apply Ascii.eqb_eq in E. now subst c.
  - now rewrite Hc.
Qed.


(** ** The client: running its computations *)

Lemma bind_ok {A B : Type} (m : M A) (k : A -> M B) (c c' : Client) (a : A) :
  m c = (Ok a, c') -> bind m k c = k a c'.
Proof. intros H. unfold bind. now rewrite H. Qed.

Lemma bind_raise {A B : Type} (m : M A) (k : A -> M B) (c c' : Client) (e : exn) :
  m c = (Raise e, c') -> bind m k c = (Raise e, c').
Proof. intros H. unfold bind. now rewrite H. Qed.

Lemma raise_for_status_ok (r : Response) (c : Client) :
  is_success r = true -> raise_for_status r c = (Ok tt, c).
Proof. unfold raise_for_status, is_success. now intros ->. Qed.

Lemma truthy_some (s : string) : is_empty s = false -> truthy (Some s) = true.
Proof. unfold truthy. now intros ->. Qed.

Lemma or_else_some (s d : string) : is_empty s = false -> or_else (Some s) d = s.
Proof. unfold or_else. now intros ->. Qed.

Lemma truthy_inv (o : option string) :
  truthy o = true -> exists s, o = Some s /\ is_empty s = false.
Proof.
  destruct o as [s|]; [|discriminate]. unfold truthy.
  destruct (is_empty s) eqn:E; [discriminate|]. intros _. now exists s.
Qed.

Section ClientProperties.

Context {Selector : Type}.
Variable from_text : string -> Selector.
Variable css : string -> Selector -> list Selector.
Variable xpath : string -> Selector -> list Selector.
Variable node_data : Selector -> string.
Variable urljoin : string -> string -> string.
Variable json_of_text : string -> option json.
Variable today : date.
Variable portal : list Request -> Request -> Response + string.

Lemma send_ok (c : Client) (rq : Request) (r : Response) :
  portal (sent c) rq = inl r -> send portal rq c = (Ok r, after c rq).
Proof. intros H. unfold send. now rewrite H. Qed.

Lemma ensure_logged_in_done (c : Client) :
  _logged_in c = true ->
  _ensure_logged_in from_text css node_data portal c = (Ok tt, c).
Proof. intros H. unfold _ensure_logged_in. now rewrite H. Qed.

(** *** Changing a SIM setting *)



(** *** The list of bills *)

Local Abbreviation bill_step' := (bill_step xpath node_data urljoin today).
Local Abbreviation row_date_raw' := (row_date_raw xpath node_data).
Local Abbreviation row_bill_pdf_url' := (row_bill_pdf_url xpath node_data).
Local Abbreviation row_egn_pdf_url' := (row_egn_pdf_url xpath node_data).
Local Abbreviation row_date' := (row_date xpath node_data today).
Local Abbreviation bill_of_row' := (bill_of_row xpath node_data urljoin).
Local Abbreviation bill_for' := (bill_for xpath node_data urljoin today).
Local Abbreviation has_main_link' := (has_main_link xpath node_data).
Local Abbreviation list_bills' :=
  (list_bills from_text css xpath node_data urljoin today portal).

(** The three ways a round of the loop ends. *)
Lemma bill_step_run (base : string) (bills : list BillSummary) (row : Selector) (c : Client) :
  base_url (settings c) = Ok base ->
  bill_step' bills row c =
    match row_date' row with
    | Raise e => (Raise e, c)
    | Ok d =>
        if has_main_link' row then (Ok (bills ++ [bill_of_row' base d row]), c)
        else (Ok bills, warned c (skip_warning d))
    end.
Proof.
  intros Hbase. unfold bill_step, has_main_link.
  unfold bind at 1. unfold lift at 1.
  destruct (row_date' row) as [d|e]; [|reflexivity].
  destruct (truthy (row_bill_pdf_url' row)); cbn [negb].
  - unfold bind, lift. rewrite Hbase. reflexivity.
  - reflexivity.
Qed.

(** The loop: the bills added are those of the rows with a main link, in
    their order; the client keeps its settings and what it has sent. *)
Lemma bill_loop_run (base : string) (rows : list Selector) :
  forall (acc : list BillSummary) (c : Client) (bills : list BillSummary) (c' : Client),
  base_url (settings c) = Ok base ->
  for_each bill_step' rows acc c = (Ok bills, c') ->
  exists added,
    bills = acc ++ added
    /\ Forall2 (bill_for' base) (List.filter has_main_link' rows) added
    /\ settings c' = settings c /\ sent c' = sent c /\ _logged_in c' = _logged_in c
    /\ length (warnings c') =
       (length (warnings c) + length (List.filter (fun r => negb (has_main_link' r)) rows))%nat.
Proof.
  induction rows as [|row rows IH]; intros acc c bills c' Hbase H.
  - injection H as <- <-. exists []. rewrite app_nil_r. cbn. repeat split; auto.
  - cbn [for_each] in H. unfold bind in H.
    rewrite (bill_step_run base _ _ _ Hbase) in H. cbn [List.filter].
    destruct (row_date' row) as [d|e] eqn:Ed; [|discriminate].
    destruct (has_main_link' row) eqn:Hm; cbn [negb].
    + apply IH in H as (added & -> & HF & Hs & Hsent & Hl & Hw); [|exact Hbase].
      exists (bill_of_row' base d row :: added). rewrite <- app_assoc.
      repeat split; auto. constructor; [|exact HF]. now exists d.
    + apply IH in H as (added & -> & HF & Hs & Hsent & Hl & Hw); [|exact Hbase].
      exists added. repeat split; auto. rewrite Hw. cbn. rewrite length_app. cbn. lia.
Qed.

(** The loop returns when every date cell is empty or a date. *)
Lemma bill_loop_returns (base : string) (rows : list Selector) :
  forall (acc : list BillSummary) (c : Client),
  base_url (settings c) = Ok base ->
  Forall (fun row => exists d, row_date' row = Ok d) rows ->
  exists bills c', for_each bill_step' rows acc c = (Ok bills, c').
Proof.
  induction rows as [|row rows IH]; intros acc c Hbase Hrows.
  - now exists acc, c.
  - inversion Hrows as [|r rs [d Hd] Hrest]; subst.
    cbn [for_each]. unfold bind. rewrite (bill_step_run base _ _ _ Hbase), Hd.
    destruct (has_main_link' row); now apply IH.
Qed.

(** What [list_bills] does once logged in and given the page. *)
Lemma list_bills_run (c : Client) (page : Response) :
  _logged_in c = true ->
  portal (sent c) (Get "rechnungen.php" []) = inl page ->
  is_success page = true ->
  let rows := xpath bill_rows_query (from_text (text page)) in
  forall bills c',
    list_bills' c = (Ok bills, c') ->
    exists c1, for_each bill_step' rows [] (after c (Get "rechnungen.php" [])) = (Ok bills, c1).
Proof.
  intros Hin Hget Hpage rows bills c' H. unfold list_bills in H.
  rewrite (bind_ok _ _ _ _ _ (ensure_logged_in_done c Hin)) in H.
  unfold catch in H. unfold session_get in H.
  rewrite (bind_ok _ _ _ _ _ (send_ok c _ _ Hget)) in H.
  rewrite (bind_ok _ _ _ _ _ (raise_for_status_ok page _ Hpage)) in H.
  fold rows in H. unfold bind at 1 in H.
  destruct (for_each bill_step' rows [] (after c (Get "rechnungen.php" [])))
    as [[bs|e] c1] eqn:E.
  - exists c1. f_equal. destruct bs as [|b bs]; cbn in H.
    + now injection H as <- _.
    + now injection H as <- _.
  - exfalso. destruct e; discriminate.
Qed.

Lemma list_bills_returns (base : string) (c : Client) (page : Response) :
  _logged_in c = true ->
  portal (sent c) (Get "rechnungen.php" []) = inl page ->
  is_success page = true ->
  base_url (settings c) = Ok base ->
  Forall (fun row => exists d, row_date' row = Ok d)
         (xpath bill_rows_query (from_text (text page))) ->
  exists bills c', list_bills' c = (Ok bills, c').
Proof.
  intros Hin Hget Hpage Hbase Hrows. unfold list_bills.
  rewrite (bind_ok _ _ _ _ _ (ensure_logged_in_done c Hin)).
  unfold catch, session_get.
  rewrite (bind_ok _ _ _ _ _ (send_ok c _ _ Hget)).
  rewrite (bind_ok _ _ _ _ _ (raise_for_status_ok page _ Hpage)).
  destruct (bill_loop_returns base _ [] (after c (Get "rechnungen.php" [])) Hbase Hrows)
    as (bills & c1 & E).
  unfold bind at 1. rewrite E.
  destruct bills as [|b bills]; cbn; eauto.
Qed.

Lemma Forall2_in_l {A B : Type} (R : A -> B -> Prop) (l : list A) (k : list B) (a : A) :
  Forall2 R l k -> In a l -> exists b, In b k /\ R a b.
Proof.
  induction 1 as [|x y l k Hxy HF IH]; intros Hin; [contradiction|].
  destruct Hin as [<- | Hin].
  - exists y. split; [now left | exact Hxy].
  - destruct (IH Hin) as (b & Hb & HR). exists b. split; [now right | exact HR].
Qed.

Lemma Forall2_in_r {A B : Type} (R : A -> B -> Prop) (l : list A) (k : list B) (b : B) :
  Forall2 R l k -> In b k -> exists a, In a l /\ R a b.
Proof.
  induction 1 as [|x y l k Hxy HF IH]; intros Hin; [contradiction|].
  destruct Hin as [<- | Hin].
  - exists x. split; [now left | exact Hxy].
  - destruct (IH Hin) as (a & Ha & HR). exists a. split; [now right | exact HR].
Qed.



(** *** Call history *)

Local Abbreviation history_step' := (history_step css xpath node_data).
Local Abbreviation block_data' := (block_data css xpath node_data).

Lemma str_split_cons (sep : ascii) (s : string) :
  exists p ps, str_split sep s = p :: ps.
Proof.
  induction s as [|c s (p & ps & IH)]; cbn [str_split]; [eauto|].
  destruct (Ascii.eqb c sep); [eauto|]. rewrite IH. eauto.
Qed.

(** [strptime] raises nothing but [ValueError]. *)
Lemma strptime_raises (s fmt : string) (e : exn) :
  strptime s fmt = Raise e -> exists msg, e = ValueError msg.
Proof.
  unfold strptime. destruct (format_regex fmt) as [r|]; [|intros [= <-]; eauto].
  destruct (re_match_at r s) as [[m rest]|]; [|intros [= <-]; eauto].
  destruct (negb (is_empty rest)); [intros [= <-]; eauto|].
  destruct (valid_date _ && valid_time _ _ _); [discriminate | intros [= <-]; eauto].
Qed.

(** A block without a timestamp is skipped with a warning. *)
Lemma history_step_no_timestamp (history : list CallHistoryEntry) (item : Selector)
    (c : Client) :
  truthy (block_data' item !! "datum/uhrzeit") = false ->
  history_step' history item c = (Ok history, warned c missing_timestamp_warning).
Proof. intros H. unfold history_step. now rewrite H. Qed.

(** A block with a timestamp: an entry when the timestamp is a date and a
    time, a warning and no entry when it is not; never an exception. *)
Lemma history_step_timestamp (history : list CallHistoryEntry) (item : Selector)
    (c : Client) (ts : string) :
  block_data' item !! "datum/uhrzeit" = Some ts -> is_empty ts = false ->
  let data := block_data' item in
  let dk := dict_get "dauer/kosten" "" data in
  history_step' history item c =
    match strptime ts "%d.%m.%Y %H:%M:%S" with
    | Ok t =>
        (Ok (history ++ [MkCallHistoryEntry t (dict_get "art" "Unbekannt" data)
                           (dict_get "nummer" "" data) (Some (duration_of dk))
                           (_parse_number (cost_text_of dk) 0)]), c)
    | Raise _ => (Ok history, warned c (bad_timestamp_warning ts))
    end.
Proof.
  intros Hts Hne data dk. subst data dk. unfold history_step. rewrite Hts.
  rewrite (truthy_some _ Hne), (or_else_some _ _ Hne). cbn [negb].
  destruct (strptime ts "%d.%m.%Y %H:%M:%S") as [t|e] eqn:E.
  - reflexivity.
  - apply strptime_raises in E as [msg ->]. reflexivity.
Qed.

(** The default duration "0:00:00" is never used: the duration is the
    stripped text before the first slash, whatever the field holds. *)
Lemma duration_of_head (dk : string) :
  exists p ps, str_split "/" dk = p :: ps /\ duration_of dk = str_strip p.
Proof.
  destruct (str_split_cons "/" dk) as (p & ps & E).
  exists p, ps. split; [exact E|]. unfold duration_of. now rewrite E.
Qed.

(** C5, at the point where the code departs from it: a block that has a
    timestamp which parses and no duration/cost field gets an entry whose
    cost is parsed from the text "0" and whose duration is the empty text,
    not the zero duration "0:00:00" that the code names as the default. *)
Theorem history_step_no_duration_field (history : list CallHistoryEntry)
    (item : Selector) (c : Client) (ts : string) (t : datetime) :
  block_data' item !! "datum/uhrzeit" = Some ts -> is_empty ts = false ->
  strptime ts "%d.%m.%Y %H:%M:%S" = Ok t ->
  block_data' item !! "dauer/kosten" = None ->
  exists e,
    history_step' history item c = (Ok (history ++ [e]), c)
    /\ timestamp e = t
    /\ duration e = Some ""
    /\ cost e = _parse_number "0" 0.
Proof.
  intros Hts Hne Ht Hdk.
  rewrite (history_step_timestamp history item c ts Hts Hne), Ht.
  unfold dict_get. rewrite Hdk.
  eexists. split; [reflexivity|]. now repeat split.
Qed.

(** The loop over the blocks never raises: a block gives an entry or a
    warning. *)
Lemma history_loop_returns (items : list Selector) :
  forall (history : list CallHistoryEntry) (c : Client),
  exists history' c',
    for_each history_step' items history c = (Ok history', c')
    /\ sent c' = sent c.
Proof.
  induction items as [|item items IH]; intros history c.
  - now exists history, c.
  - cbn [for_each]. unfold bind.
    destruct (truthy (block_data' item !! "datum/uhrzeit")) eqn:T.
    + apply truthy_inv in T as (ts & Hts & Hne).
      rewrite (history_step_timestamp history item c ts Hts Hne).
      destruct (strptime ts "%d.%m.%Y %H:%M:%S").
      * apply IH.
      * destruct (IH history (warned c (bad_timestamp_warning ts))) as (h & c' & E & Hs).
        now exists h, c'.
    + rewrite (history_step_no_timestamp history item c T).
      destruct (IH history (warned c missing_timestamp_warning)) as (h & c' & E & Hs).
      now exists h, c'.
Qed.

(** *** SIM settings *)

Lemma contains_str_in (l : list string) (s : string) :
  contains_str l s = true <-> In s l.
Proof.
  unfold contains_str. rewrite existsb_exists. split.
  - intros (x & Hx & E). apply String.eqb_eq in E. now subst.
  - intros H. exists s. split; [exact H | apply String.eqb_refl].
Qed.

(** The dictionary the loop over the items builds: under the name of a
    field, the value the items report for it; nothing under other names. *)
Lemma sim_items_loop_run (items : list (string * bool)) :
  forall d : gmap string json,
  exists d',
    sim_items_loop d (map sim_item items) = Ok d'
    /\ forall field,
         d' !! field =
         if contains_str sim_model_fields field
         then fold_left (fun acc kv =>
                if String.eqb (str_replace "-" "_" (fst kv)) field
                then Some (JBool (snd kv)) else acc) items (d !! field)
         else d !! field.
Proof.
  induction items as [|[k v] items IH]; intros d.
  - exists d. split; [reflexivity|]. intros field. now destruct (contains_str _ field).
  - cbn [map sim_items_loop]. unfold sim_item at 1, sim_item_step. cbn [fst snd].
    cbn [json_get obj_get result_bind String.eqb Ascii.eqb Bool.eqb].
    destruct (contains_str sim_model_fields (str_replace "-" "_" k)) eqn:Ek.
    + cbn [json_get obj_get result_bind String.eqb Ascii.eqb Bool.eqb].
      destruct (IH (<[str_replace "-" "_" k := JBool v]> d)) as (d' & -> & Hd').
      exists d'. split; [reflexivity|]. intros field. rewrite Hd'.
      destruct (contains_str sim_model_fields field) eqn:Ef.
      * cbn [fold_left fst snd].
        destruct (String.eqb_spec (str_replace "-" "_" k) field) as [<-|Hne].
        -- now rewrite lookup_insert_eq.
        -- now rewrite lookup_insert_ne.
      * apply lookup_insert_ne. intros <-. congruence.
    + cbn [result_bind].
      destruct (IH d) as (d' & -> & Hd').
      exists d'. split; [reflexivity|]. intros field. rewrite Hd'.
      destruct (contains_str sim_model_fields field) eqn:Ef; [|reflexivity].
      cbn [fold_left fst snd].
      destruct (String.eqb_spec (str_replace "-" "_" k) field) as [<-|Hne];
        [congruence | reflexivity].
Qed.

Lemma reported_json (field : string) (items : list (string * bool)) (acc : option bool) :
  fold_left (fun acc kv =>
     if String.eqb (str_replace "-" "_" (fst kv)) field
     then Some (JBool (snd kv)) else acc) items (JBool <$> acc)
  = JBool <$> reported_from field acc items.
Proof.
  revert acc. induction items as [|[k v] items IH]; intros acc; [reflexivity|].
  cbn [fold_left fst snd]. unfold reported_from. cbn [fold_left fst snd].
  destruct (String.eqb (str_replace "-" "_" k) field).
  - apply (IH (Some v)).
  - apply IH.
Qed.

Lemma sim_field_bool (d : gmap string json) (field : string) (o : option bool) :
  d !! field = JBool <$> o -> sim_field d field = Ok o.
Proof. unfold sim_field. intros ->. now destruct o. Qed.

(** A response with status "OK" and a list of key/value items. *)
Lemma sim_settings_of_items (items : list (string * bool)) :
  exists s,
    sim_settings_of_json (sim_response items) = Ok s
    /\ forall field, In field sim_model_fields ->
         sim_setting field s = reported field items.
Proof.
  unfold sim_settings_of_json, sim_response.
  cbn [json_get obj_get result_bind String.eqb Ascii.eqb Bool.eqb json_is_str negb json_iter].
  destruct (sim_items_loop_run items ∅) as (d & -> & Hd).
  cbn [result_bind].
  assert (Hf : forall field, In field sim_model_fields ->
                 sim_field d field = Ok (reported field items)).
  { intros field Hin. apply sim_field_bool. rewrite Hd.
    apply contains_str_in in Hin. rewrite Hin, lookup_empty.
    apply (reported_json field items None). }
  unfold make_sim_settings.
  rewrite !Hf by (cbn; tauto). cbn [result_bind].
  eexists. split; [reflexivity|].
  intros field Hin. cbn in Hin.
  repeat (destruct Hin as [<- | Hin]; [reflexivity|]). contradiction.
Qed.

(** A response whose status is not "OK". *)
Lemma sim_settings_bad_status (fields : list (string * json)) :
  obj_get "status" fields <> Some (JStr "OK") ->
  exists msg, sim_settings_of_json (JObj fields) = Raise (KontomanagerClientError msg).
Proof.
  intros H. unfold sim_settings_of_json. cbn [json_get result_bind].
  destruct (obj_get "status" fields) as [st|] eqn:E.
  - destruct st as [| | |s| |]; cbn [json_is_str negb]; eauto.
    destruct (String.eqb_spec s "OK") as [->|Hne]; [congruence|]. cbn [negb]. eauto.
  - cbn [json_is_str negb]. eauto.
Qed.

(** An item that names no field leaves the dictionary as it is. *)
Lemma sim_item_step_ignored (d : gmap string json) (item : json) :
  names_no_field item = true -> sim_item_step d item = Ok d.
Proof.
  unfold names_no_field, sim_item_step. destruct item as [| | | | |fields]; try discriminate.
  cbn [json_get result_bind].
  destruct (obj_get "key" fields) as [[| | |k| |]|]; try discriminate.
  - intros H. apply negb_true_iff in H. now rewrite H.
  - reflexivity.
Qed.

Lemma sim_items_loop_ignores (items : list json) :
  forall d : gmap string json,
  sim_items_loop d items
  = sim_items_loop d (List.filter (fun item => negb (names_no_field item)) items).
Proof.
  induction items as [|item items IH]; intros d; [reflexivity|].
  cbn [List.filter]. destruct (names_no_field item) eqn:E; cbn [negb sim_items_loop].
  - rewrite (sim_item_step_ignored d item E). cbn [result_bind]. apply IH.
  - destruct (sim_item_step d item) as [d'|e]; cbn [result_bind]; [apply IH | reflexivity].
Qed.

(** The items that name no field can be left out of a response. *)
Lemma sim_settings_ignores (items : list json) :
  sim_settings_of_json (ok_response items)
  = sim_settings_of_json
      (ok_response (List.filter (fun item => negb (names_no_field item)) items)).
Proof.
  unfold sim_settings_of_json, ok_response.
  cbn [json_get obj_get result_bind String.eqb Ascii.eqb Bool.eqb json_is_str negb json_iter].
  now rewrite sim_items_loop_ignores.
Qed.

Lemma get_sim_settings_run (c : Client) (response : Response) (api : json) :
  _logged_in c = true ->
  portal (sent c) (Post "einstellungen_sim_getdata.php" ∅) = inl response ->
  is_success response = true ->
  json_of_text (text response) = Some api ->
  get_sim_settings from_text css node_data json_of_text portal c
  = (sim_settings_of_json api, after c (Post "einstellungen_sim_getdata.php" ∅)).
Proof.
  intros Hin Hpost Hok Hjson. unfold get_sim_settings.
  rewrite (bind_ok _ _ _ _ _ (ensure_logged_in_done c Hin)).
  unfold session_post. rewrite (bind_ok _ _ _ _ _ (send_ok c _ _ Hpost)).
  rewrite (bind_ok _ _ _ _ _ (raise_for_status_ok response _ Hok)).
  now rewrite Hjson.
Qed.

(** C8: [get_sim_settings] raises the client error when the status of the
    response is not "OK"; for a response with status "OK" and a list of
    key/value items, each field of the model holds what the items report
    under its name (with "-" read as "_") and a field no item names stays
    unset; whatever the items are, those whose key names no field can be
    left out without changing the outcome; the response
    {"status":"OK","data":[{"key":"roaming-barred","value":true}]} gives
    the settings with roaming_barred true and every other field unset. *)
Theorem get_sim_settings_spec (c : Client) (response : Response) (api : json) :
  _logged_in c = true ->
  portal (sent c) (Post "einstellungen_sim_getdata.php" ∅) = inl response ->
  is_success response = true ->
  json_of_text (text response) = Some api ->
  let run := fst (get_sim_settings from_text css node_data json_of_text portal c) in
  (forall fields, api = JObj fields ->
     obj_get "status" fields <> Some (JStr "OK") ->
     exists msg, run = Raise (KontomanagerClientError msg))
  /\ (forall items, api = sim_response items ->
        exists s, run = Ok s
                  /\ forall field, In field sim_model_fields ->
                       sim_setting field s = reported field items)
  /\ (forall items, api = ok_response items ->
        run = sim_settings_of_json
                (ok_response (List.filter (fun item => negb (names_no_field item)) items)))
  /\ (api = sim_response [("roaming-barred", true)] ->
      run = Ok (MkSimSettings (Some true) None None None None None None None None None)).
Proof.
  intros Hin Hpost Hok Hjson run. subst run.
  rewrite (get_sim_settings_run c response api Hin Hpost Hok Hjson). cbn [fst].
  split; [|split; [|split]].
  - intros fields -> H. now apply sim_settings_bad_status.
  - intros items ->. apply sim_settings_of_items.
  - intros items ->. apply sim_settings_ignores.
  - intros ->. vm_compute. reflexivity.
Qed.

(** *** Call forwarding *)

Local Abbreviation read_rule' := (read_rule css node_data).
Local Abbreviation read_call_forwarding' := (read_call_forwarding css node_data).

Lemma read_rule_condition (sel : Selector) (rid : string) :
  condition (read_rule' sel rid) = rid.
Proof. reflexivity. Qed.

(** Only the no-answer rule is read with a delay, and a target number is
    read only for the target "a". *)
Lemma read_rule_delay (sel : Selector) (rid : string) :
  rid <> "nann" -> delay_seconds (read_rule' sel rid) = None.
Proof.
  intros H. unfold read_rule. cbn [delay_seconds].
  destruct (String.eqb_spec rid "nann"); [contradiction | reflexivity].
Qed.

(** The two page-wide fields of the form, from the flags of the settings. *)
Lemma forwarding_payload_flags (cur : CallForwardingSettings) (token : string)
    (rule_to_set : CallForwardingRule) :
  forwarding_payload cur token rule_to_set !! "btel_akt"
  = Some (if editable_on_phone cur then "a" else "d")
  /\ forwarding_payload cur token rule_to_set !! "voicemail_play_cli_disable"
     = Some (if voicemail_play_cli_disable cur then "a" else "d").
Proof.
  unfold forwarding_payload. split.
  - rewrite lookup_insert_ne by discriminate. apply lookup_insert_eq.
  - apply lookup_insert_eq.
Qed.

(** The selected value of "btel_akt" comes back in the form as it was read. *)
Lemma btel_round_trip (sel : Selector) (token : string) (rule_to_set : CallForwardingRule) :
  let v := get_or node_data "d" (css btel_query sel) in
  (v = "a" \/ v = "d") ->
  forwarding_payload (read_call_forwarding' sel) token rule_to_set !! "btel_akt" = Some v.
Proof.
  intros v Hv.
  rewrite (proj1 (forwarding_payload_flags _ _ _)).
  unfold read_call_forwarding. cbn [editable_on_phone]. fold btel_query. fold v.
  now destruct Hv as [-> | ->].
Qed.

(** The selected value of "voicemail_play_cli_disable" comes back inverted:
    the parser reads "d" as true, the form writes true as "a". *)
Lemma voicemail_inverted (sel : Selector) (token : string) (rule_to_set : CallForwardingRule) :
  let v := get_or node_data "d" (css voicemail_query sel) in
  forwarding_payload (read_call_forwarding' sel) token rule_to_set
    !! "voicemail_play_cli_disable"
  = Some (if String.eqb v "d" then "a" else "d").
Proof.
  intros v.
  rewrite (proj2 (forwarding_payload_flags _ _ _)).
  unfold read_call_forwarding. cbn [voicemail_play_cli_disable]. reflexivity.
Qed.

Lemma payload_step_emit (rule_to_set rule : CallForwardingRule)
    (payload : gmap string string) :
  payload_step rule_to_set payload rule
  = emit (if String.eqb (condition rule) (condition rule_to_set)
          then rule_to_set else rule) payload.
Proof.
  unfold emit, payload_step. rewrite String.eqb_refl.
  now destruct (String.eqb (condition rule) (condition rule_to_set)).
Qed.

(** A field of the form after a round, read off the rule the round applies. *)
Lemma emit_lookup (r : CallForwardingRule) (payload : gmap string string) (k : string) :
  emit r payload !! k =
    if String.eqb k "nann_sek" && String.eqb (condition r) "nann" && is_some (delay_seconds r)
    then str_of_Z <$> delay_seconds r
    else if String.eqb k (condition r +:+ "_rn") && truthy (target_number r)
    then target_number r
    else if String.eqb k (condition r +:+ "_akt") then Some (target r)
    else payload !! k.
Proof.
  unfold emit, payload_step. rewrite String.eqb_refl.
  destruct r as [c t n d]. cbn [condition target target_number delay_seconds is_some].
  assert (Hn : truthy n = true -> Some (or_else n "") = n).
  { intros (s & -> & Hs)%truthy_inv. now rewrite (or_else_some _ _ Hs). }
  destruct (String.eqb_spec k "nann_sek") as [K1|K1];
  destruct (String.eqb_spec c "nann") as [C|C];
  destruct d as [d|];
  destruct (String.eqb_spec k (c +:+ "_rn")) as [K2|K2];
  destruct (truthy n) eqn:T;
  destruct (String.eqb_spec k (c +:+ "_akt")) as [K3|K3];
  cbn [andb is_some fmap option_fmap option_map];
  repeat first
    [ rewrite lookup_insert_eq
    | rewrite <- K1, lookup_insert_eq
    | rewrite <- K2, lookup_insert_eq
    | rewrite <- K3, lookup_insert_eq
    | rewrite lookup_insert_ne by congruence ];
  auto.
Qed.

Ltac closed_strings :=
  repeat match goal with
         | |- context [String.append ?a ?b] =>
             let s := eval vm_compute in (String.append a b) in
             change (String.append a b) with s
         end.

(** The frame of an update: every rule read from the page whose condition
    is not the one requested has its fields in the form as they were read. *)
Lemma forwarding_payload_frame (sel : Selector) (token : string)
    (rule_to_set : CallForwardingRule) (rid : string) :
  In rid rule_ids -> rid <> condition rule_to_set ->
  rule_fields (read_rule' sel rid)
    (forwarding_payload (read_call_forwarding' sel) token rule_to_set).
Proof.
  intros Hin Hne. unfold rule_fields, forwarding_payload, read_call_forwarding.
  cbn [rules editable_on_phone voicemail_play_cli_disable map rule_ids fold_left].
  rewrite !payload_step_emit.
  cbn in Hin. destruct Hin as [<-|[<-|[<-|[<-|[]]]]].
  all: pose proof (read_rule_delay sel "alle" ltac:(discriminate)) as D1.
  all: pose proof (read_rule_delay sel "wtel" ltac:(discriminate)) as D3.
  all: pose proof (read_rule_delay sel "nerr" ltac:(discriminate)) as D4.
  all: pose proof (read_rule_condition sel "alle") as C1.
  all: pose proof (read_rule_condition sel "nann") as C2.
  all: pose proof (read_rule_condition sel "wtel") as C3.
  all: pose proof (read_rule_condition sel "nerr") as C4.
  all: generalize dependent (read_rule' sel "alle"); intros r1.
  all: generalize dependent (read_rule' sel "nann"); intros r2.
  all: generalize dependent (read_rule' sel "wtel"); intros r3.
  all: generalize dependent (read_rule' sel "nerr"); intros r4.
  all: intros D4 C4 D3 C3 C2 D1 C1.
  all: destruct r1 as [c1 t1 n1 d1]; destruct r2 as [c2 t2 n2 d2].
  all: destruct r3 as [c3 t3 n3 d3]; destruct r4 as [c4 t4 n4 d4].
  all: destruct rule_to_set as [c t n d].
  all: cbn [condition target target_number delay_seconds] in *; subst.
  all: destruct (String.eqb "alle" c) eqn:E1; destruct (String.eqb "nann" c) eqn:E2;
    destruct (String.eqb "wtel" c) eqn:E3; destruct (String.eqb "nerr" c) eqn:E4;
    try apply String.eqb_eq in E1; try apply String.eqb_eq in E2;
    try apply String.eqb_eq in E3; try apply String.eqb_eq in E4;
    try congruence; subst; try contradiction.
  all: (split; [|split]); try (intros ?; discriminate); try (intros _).
  all: rewrite !lookup_insert_ne by discriminate.
  all: rewrite !emit_lookup.
  all: cbn [condition target target_number delay_seconds is_some].
  all: closed_strings.
  all: cbn [String.eqb Ascii.eqb Bool.eqb andb].
  all: try reflexivity.
  all: try (destruct d2; reflexivity).
  all: match goal with
       | |- context [truthy ?x] => destruct (truthy x); reflexivity
       end.
Qed.

(** The rule requested, when its condition is one of the four, has its
    fields in the form in place of those of the rule read from the page. *)
Lemma forwarding_payload_replaced (sel : Selector) (token : string)
    (rule_to_set : CallForwardingRule) :
  In (condition rule_to_set) rule_ids ->
  rule_fields rule_to_set
    (forwarding_payload (read_call_forwarding' sel) token rule_to_set).
Proof.
  intros Hin. unfold rule_fields, forwarding_payload, read_call_forwarding.
  cbn [rules editable_on_phone voicemail_play_cli_disable map rule_ids fold_left].
  rewrite !payload_step_emit.
  pose proof (read_rule_delay sel "alle" ltac:(discriminate)) as D1.
  pose proof (read_rule_delay sel "wtel" ltac:(discriminate)) as D3.
  pose proof (read_rule_delay sel "nerr" ltac:(discriminate)) as D4.
  pose proof (read_rule_condition sel "alle") as C1.
  pose proof (read_rule_condition sel "nann") as C2.
  pose proof (read_rule_condition sel "wtel") as C3.
  pose proof (read_rule_condition sel "nerr") as C4.
  generalize dependent (read_rule' sel "alle"); intros r1.
  generalize dependent (read_rule' sel "nann"); intros r2.
  generalize dependent (read_rule' sel "wtel"); intros r3.
  generalize dependent (read_rule' sel "nerr"); intros r4.
  intros D4 C4 D3 C3 C2 D1 C1.
  destruct r1 as [c1 t1 n1 d1]; destruct r2 as [c2 t2 n2 d2].
  destruct r3 as [c3 t3 n3 d3]; destruct r4 as [c4 t4 n4 d4].
  destruct rule_to_set as [c t n d].
  cbn [condition target target_number delay_seconds] in *; subst.
  cbn in Hin. destruct Hin as [<-|[<-|[<-|[<-|[]]]]].
  all: cbn [String.eqb Ascii.eqb Bool.eqb].
  all: (split; [|split]); try (intros ?; discriminate); try (intros _).
  all: rewrite !lookup_insert_ne by discriminate.
  all: rewrite !emit_lookup.
  all: cbn [condition target target_number delay_seconds is_some].
  all: closed_strings.
  all: cbn [String.eqb Ascii.eqb Bool.eqb andb].
  all: try reflexivity.
  all: try (destruct d; reflexivity).
  all: match goal with
       | |- context [truthy ?x] => destruct (truthy x); reflexivity
       end.
Qed.

Local Abbreviation set_call_forwarding_rule' :=
  (set_call_forwarding_rule from_text css node_data portal).

(** The form [set_call_forwarding_rule] sends: the settings are read from
    the first answer of the portal, the token from the second. *)
Lemma set_call_forwarding_rule_sends (c : Client) (page1 page2 : Response)
    (tok : string) (rule_to_set : CallForwardingRule) :
  _logged_in c = true ->
  portal (sent c) forwarding_page = inl page1 -> is_success page1 = true ->
  portal (sent c ++ [forwarding_page]) forwarding_page = inl page2 ->
  is_success page2 = true ->
  get node_data (css "input[name='token']::attr(value)" (from_text (text page2))) = Some tok ->
  is_empty tok = false ->
  sent (snd (set_call_forwarding_rule' rule_to_set c))
  = sent c ++ [forwarding_page; forwarding_page;
               Post "einstellungen_rufumleitung.php"
                 (forwarding_payload (read_call_forwarding' (from_text (text page1)))
                    tok rule_to_set)].
Proof.
  intros Hin H1 S1 H2 S2 Htok Hne. unfold set_call_forwarding_rule.
  rewrite (bind_ok _ _ _ _ _ (ensure_logged_in_done c Hin)).
  assert (Hread : get_call_forwarding_settings from_text css node_data portal c
                  = (Ok (read_call_forwarding' (from_text (text page1))),
                     after c forwarding_page)).
  { unfold get_call_forwarding_settings.
    rewrite (bind_ok _ _ _ _ _ (ensure_logged_in_done c Hin)).
    unfold session_get. rewrite (bind_ok _ _ _ _ _ (send_ok c _ _ H1)).
    now rewrite (bind_ok _ _ _ _ _ (raise_for_status_ok page1 _ S1)). }
  rewrite (bind_ok _ _ _ _ _ Hread).
  unfold session_get.
  rewrite (bind_ok _ _ _ _ _ (send_ok (after c forwarding_page) _ _ H2)).
  rewrite (bind_ok _ _ _ _ _ (raise_for_status_ok page2 _ S2)).
  rewrite Htok, (truthy_some _ Hne), (or_else_some _ _ Hne). cbn [negb].
  unfold session_post, bind at 1, send.
  match goal with
  | |- context [portal ?h (Post ?u ?d)] => destruct (portal h (Post u d)) as [r|msg]
  end; cbn [sent after snd].
  - unfold bind, raise_for_status, raise, ret.
    destruct ((_ <=? _)%Z && _); [destruct (_ || _)|];
      cbn [sent after snd]; now rewrite <- !app_assoc.
  - now rewrite <- !app_assoc.
Qed.

(** C1, at the point where the code departs from it: in the form
    [set_call_forwarding_rule] posts, the field "btel_akt" says what the
    page said, but the field "voicemail_play_cli_disable" says "a" when the
    page had "d" selected (or nothing selected) and "d" when the page had
    anything else selected: the flag comes back inverted. *)
Theorem set_call_forwarding_rule_flags (c : Client) (page1 page2 : Response)
    (tok : string) (rule_to_set : CallForwardingRule) :
  _logged_in c = true ->
  portal (sent c) forwarding_page = inl page1 -> is_success page1 = true ->
  portal (sent c ++ [forwarding_page]) forwarding_page = inl page2 ->
  is_success page2 = true ->
  get node_data (css "input[name='token']::attr(value)" (from_text (text page2))) = Some tok ->
  is_empty tok = false ->
  let sel := from_text (text page1) in
  let btel := get_or node_data "d" (css btel_query sel) in
  let voicemail := get_or node_data "d" (css voicemail_query sel) in
  exists form,
    sent (snd (set_call_forwarding_rule' rule_to_set c))
    = sent c ++ [forwarding_page; forwarding_page;
                 Post "einstellungen_rufumleitung.php" form]
    /\ form !! "btel_akt" = Some (if String.eqb btel "a" then "a" else "d")
    /\ form !! "voicemail_play_cli_disable"
       = Some (if String.eqb voicemail "d" then "a" else "d").
Proof.
  intros Hin H1 S1 H2 S2 Htok Hne sel btel voicemail.
  eexists. split; [now apply (set_call_forwarding_rule_sends c page1 page2 tok)|].
  split.
  - now rewrite (proj1 (forwarding_payload_flags _ _ _)).
  - apply voicemail_inverted.
Qed.

(** *** The quotas of the overview page *)

Lemma bind_inv {A B : Type} (m : M A) (k : A -> M B) (c c' : Client) (b : B) :
  bind m k c = (Ok b, c') ->
  exists a c1, m c = (Ok a, c1) /\ k a c1 = (Ok b, c').
Proof.
  unfold bind. destruct (m c) as [[a|e] c1]; [eauto | discriminate].
Qed.

(** A loop keeps what each of its rounds keeps. *)
Lemma for_each_invariant {X S : Type} (body : S -> X -> M S) (I : S -> Prop) :
  (forall s x c s' c', body s x c = (Ok s', c') -> I s -> I s') ->
  forall l s c s' c', for_each body l s c = (Ok s', c') -> I s -> I s'.
Proof.
  intros Hbody l. induction l as [|x l IH]; intros s c s' c' H Hs.
  - now injection H as <- _.
  - cbn [for_each] in H. apply bind_inv in H as (s1 & c1 & H1 & H).
    eapply IH; [exact H|]. eapply Hbody; eauto.
Qed.

Lemma fold_left_invariant {X S : Type} (f : S -> X -> S) (I : S -> Prop) :
  (forall s x, I s -> I (f s x)) -> forall l s, I s -> I (fold_left f l s).
Proof.
  intros Hf l. induction l as [|x l IH]; intros s Hs; [exact Hs|].
  cbn. apply IH, Hf, Hs.
Qed.

Lemma new_package_quotas (title : string) : package_quotas (new_package title).
Proof. repeat split. Qed.

Lemma progress_step_quotas (st : PackageUsage * bool) (item : Selector) :
  package_quotas (fst st) ->
  package_quotas (fst (progress_step css node_data st item)).
Proof.
  destruct st as [p has]. unfold progress_step. cbn [fst].
  destruct (_parse_usage_bar _) as [[u t] un].
  destruct (is_empty un); [trivial|].
  intros (H1 & H2 & H3 & H4 & H5).
  destruct (str_contains "minuten/sms" _); [|destruct (str_contains "datenvolumen" _)];
    cbn [fst]; repeat split; trivial.
Qed.

Lemma detail_step_quotas (p : PackageUsage) (item : Selector) (c : Client)
    (p' : PackageUsage) (c' : Client) :
  detail_step css node_data p item c = (Ok p', c') ->
  package_quotas p -> package_quotas p'.
Proof.
  unfold detail_step. intros H (H1 & H2 & H3 & H4 & H5).
  destruct (negb (str_contains ":" _)); [now injection H as <- _|].
  destruct (key_value _) as [key value].
  repeat match type of H with
  | (if ?b then _ else _) _ = _ => destruct b
  | bind _ _ _ = _ => apply bind_inv in H as (v & c1 & _ & H)
  | match ?x with Some _ => _ | None => _ end _ = _ => destruct x
  | ret _ _ = _ => injection H as <- _
  end; repeat split; trivial.
Qed.

Lemma package_card_quotas (title : string) (card : Selector) (c : Client)
    (p : PackageUsage) (c' : Client) :
  package_card css node_data title card c = (Ok (Some p), c') -> package_quotas p.
Proof.
  unfold package_card.
  pose proof (fold_left_invariant (progress_step css node_data)
                (fun st => package_quotas (fst st))
                (fun st x H => progress_step_quotas st x H)
                (css ".progress-item" card) (new_package title, false)
                (new_package_quotas title)) as Hp.
  destruct (fold_left _ _ _) as [p0 has]. cbn [fst] in Hp.
  intros H. apply bind_inv in H as (p1 & c1 & Hloop & H).
  assert (Hp1 : package_quotas p1).
  { eapply (for_each_invariant _ package_quotas); [|exact Hloop|exact Hp].
    intros s x c2 s' c2' Hs. eapply detail_step_quotas; eauto. }
  unfold ret in H. destruct has; [|discriminate]. now injection H as <- _.
Qed.

Lemma tariff_step_quotas (pkgs : list PackageUsage) (item : Selector) :
  Forall package_quotas pkgs ->
  Forall package_quotas (tariff_step css node_data pkgs item).
Proof.
  intros H. unfold tariff_step. destruct (str_contains _ _); [|exact H].
  apply Forall_app. split; [exact H|]. constructor; [apply new_package_quotas | constructor].
Qed.

Lemma card_step_quotas (prepaid : bool) (ov : overview) (card : Selector) (c : Client)
    (ov' : overview) (c' : Client) :
  card_step css node_data prepaid ov card c = (Ok ov', c') ->
  Forall package_quotas (ov_packages ov) -> Forall package_quotas (ov_packages ov').
Proof.
  unfold card_step. intros H Hov.
  destruct (_ || _); [now injection H as <- _|].
  destruct (_ && _).
  - apply bind_inv in H as (si & c1 & _ & H). injection H as <- _. cbn [ov_packages].
    apply (fold_left_invariant (tariff_step css node_data) (Forall package_quotas));
      [|exact Hov].
    intros s x Hs. now apply tariff_step_quotas.
  - apply bind_inv in H as (p & c1 & Hp & H). injection H as <- _.
    destruct p as [p|]; [|exact Hov]. cbn [ov_packages].
    apply Forall_app. split; [exact Hov|].
    constructor; [|constructor]. eapply package_card_quotas; eauto.
Qed.

Lemma catch_ok_inv {A : Type} (m : M A) (h : exn -> M A) (c c' : Client) (a : A) :
  (forall e c1 x c2, h e c1 <> (Ok x, c2)) ->
  catch m h c = (Ok a, c') -> m c = (Ok a, c').
Proof.
  intros Hh. unfold catch. destruct (m c) as [[x|e] c1]; [trivial|].
  intros H. now apply Hh in H.
Qed.


(** *** Logging in *)

Variable attrib : string -> Selector -> option string.
Variable unquote : string -> string.
Variable header : string -> Response -> option string.

Local Abbreviation login' := (login from_text css node_data portal).
Local Abbreviation _ensure_logged_in' := (_ensure_logged_in from_text css node_data portal).

Ltac login_run :=
  unfold login, catch, bind, session_get, session_post, send, raise_for_status,
    set_logged_in, raise, ret;
  match goal with
  | |- context [portal (sent ?c) ?rq] =>
      destruct (portal (sent c) rq) as [?|?]; cbn [sent settings _logged_in]
  end;
  [ match goal with
    | |- context [portal ?h ?rq] =>
        destruct (portal h rq) as [?|?]; cbn [sent settings _logged_in]
    end;
    [ destruct ((_ <=? _)%Z && _); cbn [sent settings _logged_in];
      [ destruct (_ || _) | ] | ] | ].

(** What the other methods need to know of [login]. *)
Lemma login_state (c : Client) :
  match login' c with
  | (Ok _, c') => _logged_in c' = true
  | (Raise e, _) => is_client_error e
  end.
Proof. login_run; cbn; unfold is_client_error; eauto. Qed.

(** X5: [login] either sets the flag or raises the client error and leaves
    the flag as it was; it raises nothing else, and it keeps the settings. *)
Theorem login_outcome (c : Client) :
  match login' c with
  | (Ok _, c') => _logged_in c' = true /\ settings c' = settings c
  | (Raise e, c') =>
      (exists msg, e = KontomanagerClientError msg)
      /\ _logged_in c' = _logged_in c /\ settings c' = settings c
  end.
Proof.
  unfold login, catch, bind, session_get, session_post, send, raise_for_status,
    set_logged_in, raise, ret.
  destruct (portal (sent c) _) as [r0|msg0]; cbn [sent settings _logged_in].
  - destruct (portal _ _) as [r|msg]; cbn [sent settings _logged_in].
    + destruct ((_ <=? _)%Z && _); cbn [sent settings _logged_in].
      * destruct (_ || _); cbn; eauto.
      * cbn. eauto.
    + cbn. eauto.
  - cbn. eauto.
Qed.

(** *** What a method leaves of the session *)

Lemma session_kept_refl (c : Client) : _logged_in c = true -> session_kept c c.
Proof.
  intros H. split; [exact H|]. split; [reflexivity|].
  exists []. now rewrite app_nil_r.
Qed.

Lemma session_kept_trans (c1 c2 c3 : Client) :
  session_kept c1 c2 -> session_kept c2 c3 -> session_kept c1 c3.
Proof.
  intros (H1 & S1 & n1 & E1 & F1) (H2 & S2 & n2 & E2 & F2).
  split; [exact H2|]. split; [congruence|].
  exists (n1 ++ n2). split.
  - rewrite E2, E1. now rewrite <- app_assoc.
  - rewrite forallb_app. now rewrite F1, F2.
Qed.

Lemma steady_ret {A : Type} (a : A) : steady (ret a).
Proof. intros c H. now apply session_kept_refl. Qed.

Lemma steady_raise {A : Type} (e : exn) : steady (raise (A := A) e).
Proof. intros c H. now apply session_kept_refl. Qed.

Lemma steady_lift {A : Type} (r : result A) : steady (lift r).
Proof. intros c H. now apply session_kept_refl. Qed.

Lemma steady_warning (msg : string) : steady (warning msg).
Proof.
  intros c H. split; [exact H|]. split; [reflexivity|].
  exists []. cbn. now rewrite app_nil_r.
Qed.

Lemma steady_bind {A B : Type} (m : M A) (k : A -> M B) :
  steady m -> (forall a, steady (k a)) -> steady (bind m k).
Proof.
  intros Hm Hk c Hc. specialize (Hm c Hc). unfold bind.
  destruct (m c) as [[a|e] c1]; cbn [snd] in *; [|exact Hm].
  apply session_kept_trans with c1; [exact Hm|]. apply Hk, Hm.
Qed.

Lemma steady_catch {A : Type} (m : M A) (h : exn -> M A) :
  steady m -> (forall e, steady (h e)) -> steady (catch m h).
Proof.
  intros Hm Hh c Hc. specialize (Hm c Hc). unfold catch.
  destruct (m c) as [[a|e] c1]; cbn [snd] in *; [exact Hm|].
  apply session_kept_trans with c1; [exact Hm|]. apply Hh, Hm.
Qed.

Lemma steady_for_each {X S : Type} (body : S -> X -> M S) (l : list X) :
  (forall s x, steady (body s x)) -> forall s, steady (for_each body l s).
Proof.
  intros Hb. induction l as [|x l IH]; intros s; cbn [for_each].
  - apply steady_ret.
  - apply steady_bind; [apply Hb | exact IH].
Qed.

Lemma steady_send (rq : Request) :
  is_login_post rq = false -> steady (send portal rq).
Proof.
  intros Hrq c Hc. unfold send.
  assert (session_kept c (MkClient (settings c) (_logged_in c) (sent c ++ [rq]) (warnings c)))
    as K.
  { split; [exact Hc|]. split; [reflexivity|]. exists [rq]. split; [reflexivity|].
    cbn. now rewrite Hrq. }
  destruct (portal (sent c) rq); exact K.
Qed.

Lemma steady_raise_for_status (r : Response) : steady (raise_for_status r).
Proof.
  unfold raise_for_status. destruct (_ && _); [apply steady_ret | apply steady_raise].
Qed.

Lemma steady_ensure : steady _ensure_logged_in'.
Proof.
  intros c Hc. unfold _ensure_logged_in. rewrite Hc. now apply session_kept_refl.
Qed.

(** A computation that reads the settings of the client it runs on. *)
Lemma steady_reading {A : Type} (m : Settings -> M A) :
  (forall st, steady (m st)) -> steady (fun c => m (settings c) c).
Proof. intros H c Hc. now apply H. Qed.

Ltac steady_step :=
  first
    [ apply steady_ret | apply steady_raise | apply steady_lift | apply steady_warning
    | apply steady_raise_for_status | apply steady_ensure
    | apply steady_send; reflexivity
    | apply steady_bind; [|intros ?]
    | apply steady_catch; [|intros ?]
    | apply steady_for_each; intros ? ?
    | match goal with
      | |- steady (if ?b then _ else _) => destruct b
      | |- steady (match ?x with _ => _ end) => destruct x
      end
    | progress unfold session_get, session_post, card_step, package_card, sim_info_step,
        detail_step, costs_step, history_step, tool ].

Ltac steady_all := repeat steady_step.

Local Abbreviation get_account_usage' :=
  (get_account_usage from_text css xpath node_data portal).
Local Abbreviation get_phone_numbers' :=
  (get_phone_numbers from_text css xpath node_data portal attrib unquote).
Local Abbreviation switch_active_phone_number' :=
  (switch_active_phone_number from_text css node_data portal).
Local Abbreviation get_bill' :=
  (get_bill from_text css xpath node_data urljoin today portal header).
Local Abbreviation list_call_history' :=
  (list_call_history from_text css xpath node_data portal).
Local Abbreviation get_sim_settings' :=
  (get_sim_settings from_text css node_data json_of_text portal).
Local Abbreviation set_sim_setting' :=
  (set_sim_setting from_text css node_data portal).
Local Abbreviation get_call_forwarding_settings' :=
  (get_call_forwarding_settings from_text css node_data portal).

Lemma steady_bill_step (bills : list BillSummary) (row : Selector) :
  steady (bill_step' bills row).
Proof.
  apply (steady_reading (fun st =>
    let* bill_date_ := lift (row_date' row) in
    if negb (truthy (row_bill_pdf_url' row)) then
      let* _ := warning (skip_warning bill_date_) in ret bills
    else
      let* base := lift (base_url st) in
      ret (bills ++ [bill_of_row' base bill_date_ row]))).
  intros st. steady_all.
Qed.

Lemma steady_list_bills : steady list_bills'.
Proof.
  unfold list_bills. steady_all. apply steady_bill_step.
Qed.

Lemma steady_get_account_usage : steady get_account_usage'.
Proof. unfold get_account_usage. steady_all. Qed.

Lemma steady_get_bill (n t : string) : steady (get_bill' n t).
Proof.
  unfold get_bill.
  destruct (negb _); [apply steady_raise|].
  apply steady_bind; [apply steady_ensure|intros _].
  apply steady_bind; [apply steady_list_bills|intros bills].
  steady_all.
Qed.

Lemma steady_get_call_forwarding_settings : steady get_call_forwarding_settings'.
Proof. unfold get_call_forwarding_settings. steady_all. Qed.

(** X6: a client that is logged in stays logged in through every method, with
    the settings it had, and no method posts the credentials again. *)
Theorem logged_in_session_is_kept (c : Client) (subscriber n t name : string)
    (enabled : bool) (rule : CallForwardingRule) :
  _logged_in c = true ->
  session_kept c (snd (get_account_usage' c))
  /\ session_kept c (snd (get_phone_numbers' c))
  /\ session_kept c (snd (switch_active_phone_number' subscriber c))
  /\ session_kept c (snd (list_bills' c))
  /\ session_kept c (snd (get_bill' n t c))
  /\ session_kept c (snd (list_call_history' c))
  /\ session_kept c (snd (get_sim_settings' c))
  /\ session_kept c (snd (set_sim_setting' name enabled c))
  /\ session_kept c (snd (get_call_forwarding_settings' c))
  /\ session_kept c (snd (set_call_forwarding_rule' rule c)).
Proof.
  intros Hc.
  split; [now apply steady_get_account_usage|].
  split; [revert c Hc; change (steady get_phone_numbers');
          unfold get_phone_numbers; steady_all|].
  split; [revert c Hc; change (steady (switch_active_phone_number' subscriber));
          unfold switch_active_phone_number; steady_all|].
  split; [now apply steady_list_bills|].
  split; [now apply steady_get_bill|].
  split; [revert c Hc; change (steady list_call_history');
          unfold list_call_history; steady_all|].
  split; [revert c Hc; change (steady get_sim_settings');
          unfold get_sim_settings; steady_all|].
  split; [revert c Hc; change (steady (set_sim_setting' name enabled));
          unfold set_sim_setting; steady_all|].
  split; [now apply steady_get_call_forwarding_settings|].
  revert c Hc. change (steady (set_call_forwarding_rule' rule)).
  unfold set_call_forwarding_rule.
  apply steady_bind; [apply steady_ensure|intros _].
  apply steady_bind; [apply steady_get_call_forwarding_settings|intros cur].
  steady_all.
Qed.

(** *** Which exceptions leave a method *)

Lemma raises_only_bind {A B : Type} (P : exn -> Prop) (m : M A) (k : A -> M B) (c : Client) :
  raises_only P (fst (m c)) ->
  (forall a c1, raises_only P (fst (k a c1))) ->
  raises_only P (fst (bind m k c)).
Proof.
  intros Hm Hk. unfold bind. destruct (m c) as [[a|e] c1]; cbn [fst] in *; [apply Hk | exact Hm].
Qed.

Lemma raises_only_catch {A : Type} (P : exn -> Prop) (m : M A) (h : exn -> M A) (c : Client) :
  (forall e c1, raises_only P (fst (h e c1))) ->
  raises_only P (fst (catch m h c)).
Proof.
  intros Hh. unfold catch. destruct (m c) as [[a|e] c1]; cbn [fst]; [exact I | apply Hh].
Qed.

Lemma ensure_raises (c : Client) :
  raises_only is_client_error (fst (_ensure_logged_in' c)).
Proof.
  unfold _ensure_logged_in. destruct (_logged_in c); [exact I|].
  pose proof (login_state c) as H.
  destruct (login' c) as [[u|e] c1]; [exact I | exact H].
Qed.

Ltac client_error := cbn; unfold is_client_error; eauto.

Lemma list_bills_raises (c : Client) : raises_only is_client_error (fst (list_bills' c)).
Proof.
  unfold list_bills. apply raises_only_bind; [apply ensure_raises|].
  intros _ c1. apply raises_only_catch. intros e c2. destruct e; client_error.
Qed.

Lemma get_bill_raises (c : Client) (n t : string) :
  raises_only is_client_error (fst (get_bill' n t c)).
Proof.
  unfold get_bill. destruct (negb _); [client_error|].
  apply raises_only_bind; [apply ensure_raises|]. intros _ c1.
  apply raises_only_bind; [apply list_bills_raises|]. intros bills c2.
  destruct (find_bill n bills) as [b|]; [|client_error].
  destruct (negb (truthy _)); [client_error|].
  unfold catch, bind, session_get, send.
  destruct (portal _ _) as [r|msg]; [|client_error].
  unfold raise_for_status. destruct (_ && _); [|client_error].
  cbn. destruct (negb (str_contains _ _)); cbn; exact I.
Qed.


(** *** The call history *)

(** Every block gives an entry or a warning. *)
Lemma history_loop_counts (items : list Selector) :
  forall (history : list CallHistoryEntry) (c : Client),
  exists added skipped,
    for_each history_step' items history c
    = (Ok (history ++ added),
       MkClient (settings c) (_logged_in c) (sent c) (warnings c ++ skipped))
    /\ (length added + length skipped = length items)%nat.
Proof.
  induction items as [|item items IH]; intros history c.
  - exists [], []. rewrite !app_nil_r. destruct c. split; reflexivity.
  - cbn [for_each]. unfold bind.
    assert (exists a s, history_step' history item c
                        = (Ok (history ++ a),
                           MkClient (settings c) (_logged_in c) (sent c) (warnings c ++ s))
                        /\ (length a + length s = 1)%nat) as (a & s & E & L).
    { destruct (truthy (block_data' item !! "datum/uhrzeit")) eqn:T.
      - apply truthy_inv in T as (ts & Hts & Hne).
        rewrite (history_step_timestamp history item c ts Hts Hne).
        destruct (strptime ts "%d.%m.%Y %H:%M:%S").
        + eexists [_], []. rewrite app_nil_r. destruct c. split; reflexivity.
        + eexists [], [_]. rewrite app_nil_r. split; reflexivity.
      - rewrite (history_step_no_timestamp history item c T).
        eexists [], [_]. rewrite app_nil_r. split; reflexivity. }
    rewrite E.
    destruct (IH (history ++ a)
                 (MkClient (settings c) (_logged_in c) (sent c) (warnings c ++ s)))
      as (a' & s' & E' & L').
    exists (a ++ a'), (s ++ s'). rewrite E'. cbn [settings _logged_in sent warnings].
    rewrite <- !app_assoc. split; [reflexivity|].
    rewrite !length_app. cbn [length]. lia.
Qed.

(** X8: once the history page has arrived, [list_call_history] returns:
    every block of the page gives an entry or a warning, never an
    exception, and nothing more is sent.  A page with an error status is
    the one failure, and it leaves the method as the HTTP error itself, not
    as the client error. *)
Theorem list_call_history_outcome (c : Client) (page : Response) :
  _logged_in c = true ->
  portal (sent c) (Get "gespraeche.php" []) = inl page ->
  let blocks := css "ul.list-group.mt-3" (from_text (text page)) in
  (is_success page = false ->
   list_call_history' c
   = (Raise (HTTPStatusError (status_code page)), after c (Get "gespraeche.php" [])))
  /\ (is_success page = true ->
      exists history skipped,
        list_call_history' c
        = (Ok history,
           MkClient (settings c) true (sent c ++ [Get "gespraeche.php" []])
                    (warnings c ++ skipped))
        /\ (length history + length skipped = length blocks)%nat).
Proof.
  intros Hin Hget blocks. unfold list_call_history.
  rewrite (bind_ok _ _ _ _ _ (ensure_logged_in_done c Hin)).
  unfold session_get. rewrite (bind_ok _ _ _ _ _ (send_ok c _ _ Hget)).
  split; intros Hs.
  - unfold bind, raise_for_status. unfold is_success in Hs. now rewrite Hs.
  - rewrite (bind_ok _ _ _ _ _ (raise_for_status_ok _ _ Hs)).
    destruct (history_loop_counts blocks [] (after c (Get "gespraeche.php" [])))
      as (added & skipped & E & L).
    exists added, skipped. fold blocks. rewrite E. cbn. now rewrite Hin.
Qed.

(** *** Phone numbers *)

Local Abbreviation active_entry' := (active_entry css xpath node_data).
Local Abbreviation other_entry_step' := (other_entry_step css xpath node_data attrib unquote).
Local Abbreviation read_phone_numbers' :=
  (read_phone_numbers css xpath node_data attrib unquote).

Lemma normalized_number (x : string) :
  _normalize_phone_number x = "" \/ startswith "+43" (_normalize_phone_number x) = true.
Proof.
  destruct (normalize_shape x) as [E | (d & _ & E)]; [now left | right].
  now rewrite E.
Qed.

Lemma active_entry_shape (sel : Selector) :
  (length (active_entry' sel) <= 1)%nat
  /\ Forall (fun p => is_active p = true /\ subscriber_id p = None) (active_entry' sel)
  /\ Forall well_formed_entry (active_entry' sel).
Proof.
  unfold active_entry. destruct (xpath _ sel) as [|a l]; [cbn; auto|].
  destruct (negb (is_empty _)) eqn:N; [|cbn; auto]. cbn [andb].
  destruct (negb (is_empty (entry_number_raw _ _ _))); [|cbn; auto].
  split; [cbn; lia|]. split; constructor; auto. split; cbn.
  - now apply negb_true_iff in N.
  - apply normalized_number.
Qed.

Lemma other_entries_shape (items : list Selector) :
  forall acc, exists added,
    fold_left other_entry_step' items acc = acc ++ added
    /\ (length added <= length items)%nat
    /\ Forall (fun p => is_active p = false) added
    /\ Forall well_formed_entry added.
Proof.
  induction items as [|item items IH]; intros acc; cbn [fold_left].
  - exists []. rewrite app_nil_r. cbn. auto.
  - unfold other_entry_step at 2.
    destruct (negb (is_empty (entry_name _ _ _))) eqn:N; cbn [andb].
    + destruct (negb (is_empty (entry_number_raw _ _ _))) eqn:R.
      * destruct (IH (acc ++ [MkPhoneNumber
                                (entry_name css node_data [item])
                                (_normalize_phone_number (entry_number_raw xpath node_data [item]))
                                (entry_subscriber attrib unquote item) false]))
          as (added & E & L & A & W).
        eexists (_ :: added). rewrite E, <- app_assoc. split; [reflexivity|].
        split; [cbn; lia|]. split; constructor; auto. split; cbn.
        -- now apply negb_true_iff in N.
        -- apply normalized_number.
      * destruct (IH acc) as (added & E & L & A & W).
        exists added. split; [exact E|]. split; [cbn; lia | auto].
    + destruct (IH acc) as (added & E & L & A & W).
      exists added. split; [exact E|]. split; [cbn; lia | auto].
Qed.

(** X9: once the page has arrived, [get_phone_numbers] returns.  At most
    one entry is marked active; it comes first and has no subscriber
    identifier.  Every other entry is inactive.  Every entry has a name,
    and its number is empty or starts with "+43".  An empty list costs a
    warning, not an error. *)
Theorem get_phone_numbers_spec (c : Client) (page : Response) :
  _logged_in c = true ->
  portal (sent c) (Get "kundendaten.php" []) = inl page ->
  is_success page = true ->
  exists act others,
    get_phone_numbers' c
    = (Ok (act ++ others),
       match act ++ others with
       | [] => warned (after c (Get "kundendaten.php" [])) no_numbers_warning
       | _ :: _ => after c (Get "kundendaten.php" [])
       end)
    /\ (length act <= 1)%nat
    /\ Forall (fun p => is_active p = true /\ subscriber_id p = None) act
    /\ Forall (fun p => is_active p = false) others
    /\ Forall well_formed_entry (act ++ others).
Proof.
  intros Hin Hget Hs. unfold get_phone_numbers.
  rewrite (bind_ok _ _ _ _ _ (ensure_logged_in_done c Hin)).
  unfold session_get. rewrite (bind_ok _ _ _ _ _ (send_ok c _ _ Hget)).
  rewrite (bind_ok _ _ _ _ _ (raise_for_status_ok _ _ Hs)).
  set (sel := from_text (text page)).
  destruct (active_entry_shape sel) as (L & A & W).
  unfold read_phone_numbers.
  destruct (other_entries_shape
              (xpath ".//h6[contains(text(), 'Rufnummer wechseln:')]/following-sibling::ul/li/a" sel)
              (active_entry' sel)) as (added & E & _ & Ao & Wo).
  exists (active_entry' sel), added. rewrite E.
  split; [|split; [exact L|split; [exact A|split; [exact Ao|]]]].
  - destruct (active_entry' sel ++ added); reflexivity.
  - apply Forall_app. now split.
Qed.

(** X10: once the page has arrived, [switch_active_phone_number] reports
    success whatever the page shows: one request that carries the
    subscriber identifier, and a message that names the number of the
    page's menu in normal form, which is empty when the menu shows none. *)
Theorem switch_active_phone_number_spec (c : Client) (subscriber : string)
    (page : Response) :
  _logged_in c = true ->
  portal (sent c) (switch_request subscriber) = inl page ->
  is_success page = true ->
  exists n,
    switch_active_phone_number' subscriber c
    = (Ok ("Successfully switched active number to " +:+ n +:+ "."),
       after c (switch_request subscriber))
    /\ (n = "" \/ startswith "+43" n = true)
    /\ (get node_data (css "#user-dropdown span::text" (from_text (text page))) = None ->
        n = "").
Proof.
  intros Hin Hget Hs. unfold switch_active_phone_number.
  rewrite (bind_ok _ _ _ _ _ (ensure_logged_in_done c Hin)).
  unfold session_get. fold (switch_request subscriber).
  rewrite (bind_ok _ _ _ _ _ (send_ok c _ _ Hget)).
  rewrite (bind_ok _ _ _ _ _ (raise_for_status_ok _ _ Hs)).
  eexists. split; [reflexivity|]. split; [apply normalized_number|].
  intros E. unfold get_or. rewrite E. reflexivity.
Qed.

(** *** Downloading a bill *)

(** X11: what [get_bill] returns is the body of one more request, sent
    after the list of bills was fetched: a GET of the address that the
    first bill with the requested number carries for the requested kind of
    document, answered with a success status.  A body that is not
    announced as a PDF is returned all the same, with a warning. *)
Theorem get_bill_download (c : Client) (n t content : string) (c' : Client) :
  _logged_in c = true ->
  get_bill' n t c = (Ok content, c') ->
  exists bills c1 b url response,
    list_bills' c = (Ok bills, c1)
    /\ find_bill n bills = Some b /\ bill_number b = n /\ In b bills
    /\ (if String.eqb (str_lower t) "bill" then Some (bill_pdf_url b) else egn_pdf_url b)
       = Some url
    /\ is_empty url = false
    /\ portal (sent c1) (Get url []) = inl response
    /\ is_success response = true
    /\ content = text response
    /\ sent c' = sent c1 ++ [Get url []]
    /\ warnings c'
       = warnings c1
         ++ (if str_contains "application/pdf"
                  (match header "content-type" response with Some v => v | None => "" end)
             then []
             else ["Expected a PDF but got content-type: "
                   +:+ match header "content-type" response with
                       | Some v => v
                       | None => "None"
                       end +:+ "."]).
Proof.
  intros Hin H. unfold get_bill in H.
  destruct (negb (contains_str _ _)); [discriminate|].
  rewrite (bind_ok _ _ _ _ _ (ensure_logged_in_done c Hin)) in H.
  apply bind_inv in H as (bills & c1 & Hbills & H).
  destruct (find_bill n bills) as [b|] eqn:F; [|discriminate].
  set (u := if String.eqb (str_lower t) "bill" then Some (bill_pdf_url b) else egn_pdf_url b)
    in *.
  destruct (truthy u) eqn:T; [|discriminate]. cbn [negb] in H.
  apply truthy_inv in T as (url & Hu & Hne).
  rewrite Hu, (or_else_some _ _ Hne) in H.
  unfold catch, bind, session_get, send in H.
  destruct (portal (sent c1) (Get url [])) as [response|msg] eqn:P; [|discriminate].
  unfold raise_for_status in H.
  destruct ((200 <=? status_code response)%Z && (status_code response <=? 299)%Z) eqn:S;
    [|discriminate].
  exists bills, c1, b, url, response.
  unfold find_bill in F. pose proof (find_some _ _ F) as [Hb Hnum].
  apply String.eqb_eq in Hnum.
  repeat (split; [first [assumption | reflexivity]|]).
  destruct (str_contains _ _); cbn in H; injection H as <- <-; cbn;
    rewrite ?app_nil_r; repeat split; reflexivity.
Qed.

(** X12: the three ways [get_bill] refuses.  A kind of document other than
    "bill" and "egn", in any case of letters, is refused before anything
    else happens: no login, no request.  A number that no listed bill has,
    and an itemized record that the bill does not have, are refused after
    the list was fetched, and nothing more is sent. *)
Theorem get_bill_refusals (c : Client) (n t : string) :
  (contains_str ["bill"; "egn"] (str_lower t) = false ->
   get_bill' n t c
   = (Raise (KontomanagerClientError
               ("Invalid bill_type: '" +:+ t +:+ "'. Must be 'bill' or 'egn'.")), c))
  /\ (forall bills c1,
        contains_str ["bill"; "egn"] (str_lower t) = true ->
        _logged_in c = true ->
        list_bills' c = (Ok bills, c1) ->
        (find_bill n bills = None ->
         get_bill' n t c
         = (Raise (KontomanagerClientError ("Bill with number '" +:+ n +:+ "' not found.")),
            c1))
        /\ (forall b,
              find_bill n bills = Some b -> str_lower t = "egn" -> egn_pdf_url b = None ->
              get_bill' n t c
              = (Raise (KontomanagerClientError
                          ("Document type '" +:+ t +:+ "' is not available for bill "
                           +:+ n +:+ ".")), c1))).
Proof.
  split.
  - intros E. unfold get_bill. now rewrite E.
  - intros bills c1 E Hin Hbills. unfold get_bill. rewrite E. cbn [negb].
    rewrite (bind_ok _ _ _ _ _ (ensure_logged_in_done c Hin)).
    rewrite (bind_ok _ _ _ _ _ Hbills). split.
    + now intros ->.
    + intros b -> Ht Hegn. rewrite Ht, Hegn. reflexivity.
Qed.

(** *** The packages of the overview *)

Local Abbreviation progress_step' := (progress_step css node_data).
Local Abbreviation detail_step' := (detail_step css node_data).
Local Abbreviation package_card' := (package_card css node_data).
Local Abbreviation card_step' := (card_step css node_data).
Local Abbreviation shows_usage' := (shows_usage css node_data).

Lemma unit_empty_iff (text : string) :
  is_empty (snd (_parse_usage_bar text)) = negb (is_some (re_search usage_bar_re text)).
Proof.
  unfold _parse_usage_bar.
  destruct (re_search usage_bar_re text) as [m|] eqn:E; [|reflexivity].
  destruct (search_usage_bar_groups text m E) as (g1 & g2 & g3 & G & _ & _ & _ & Hne).
  cbn [snd is_some negb]. unfold group_text, group. rewrite G. exact Hne.
Qed.

Lemma progress_step_flag (st : PackageUsage * bool) (item : Selector) :
  snd (progress_step' st item) = snd st || shows_usage' item
  /\ package_name (fst (progress_step' st item)) = package_name (fst st).
Proof.
  destruct st as [p has]. unfold progress_step, shows_usage. cbn [fst snd].
  pose proof (unit_empty_iff (get_or node_data "" (css ".bar-label-right::text" item))) as U.
  destruct (_parse_usage_bar _) as [[u t] un]. cbn [snd] in U. rewrite U.
  destruct (is_some _); cbn [negb].
  - rewrite orb_true_r.
    destruct (str_contains "minuten/sms" _); [|destruct (str_contains "datenvolumen" _)];
      split; reflexivity.
  - rewrite orb_false_r. split; reflexivity.
Qed.

Lemma progress_loop_flag (items : list Selector) :
  forall st,
    snd (fold_left progress_step' items st) = snd st || existsb shows_usage' items
    /\ package_name (fst (fold_left progress_step' items st)) = package_name (fst st).
Proof.
  induction items as [|item items IH]; intros st; cbn [fold_left existsb].
  - now rewrite orb_false_r.
  - destruct (IH (progress_step' st item)) as [E1 E2].
    destruct (progress_step_flag st item) as [G1 G2].
    rewrite E1, E2, G1, G2. now rewrite orb_assoc.
Qed.

Lemma detail_step_name (p : PackageUsage) (item : Selector) (c : Client)
    (p' : PackageUsage) (c' : Client) :
  detail_step' p item c = (Ok p', c') -> package_name p' = package_name p.
Proof.
  unfold detail_step. intros H.
  destruct (negb (str_contains ":" _)); [now injection H as <- _|].
  destruct (key_value _) as [key value].
  repeat match type of H with
  | (if ?b then _ else _) _ = _ => destruct b
  | bind _ _ _ = _ => apply bind_inv in H as (v & c1 & _ & H)
  | match ?x with Some _ => _ | None => _ end _ = _ => destruct x
  | ret _ _ = _ => injection H as <- _
  end; reflexivity.
Qed.

Lemma package_loop_name (title : string) (items : list Selector) :
  forall (p0 : PackageUsage) (c : Client) (p : PackageUsage) (c' : Client),
  for_each detail_step' items p0 c = (Ok p, c') ->
  package_name p0 = title -> package_name p = title.
Proof.
  intros p0 c p c' Hloop N.
  eapply (for_each_invariant _ (fun p => package_name p = title)); [|exact Hloop|exact N].
  intros s x c2 s' c2' Hs Hn. rewrite <- Hn. eapply detail_step_name; eauto.
Qed.

Lemma package_card_name (title : string) (card : Selector) (c : Client)
    (p : PackageUsage) (c' : Client) :
  package_card' title card c = (Ok (Some p), c') -> package_name p = title.
Proof.
  unfold package_card.
  destruct (progress_loop_flag (css ".progress-item" card) (new_package title, false))
    as [_ N].
  destruct (fold_left _ _ _) as [p0 has]. cbn [fst new_package package_name] in N.
  intros H. apply bind_inv in H as (p1 & c1 & Hloop & H).
  destruct has; [|discriminate]. injection H as <- _.
  eapply package_loop_name; eauto.
Qed.


Lemma card_step_contract (ov : overview) (card : Selector) (c : Client)
    (ov' : overview) (c' : Client) :
  card_step' false ov card c = (Ok ov', c') ->
  contract_overview ov -> contract_overview ov'.
Proof.
  unfold card_step. intros H (H1 & H2 & H3 & H4).
  set (title := str_replace ":" "" _) in *.
  destruct (is_empty title) eqn:E1; [now injection H as <- _|].
  destruct (contains_str _excluded_sections title) eqn:E2; [now injection H as <- _|].
  cbn [orb andb] in H.
  apply bind_inv in H as (p & c1 & Hp & H). injection H as <- _.
  destruct p as [p|]; [|now repeat split].
  repeat split; trivial. cbn [ov_packages]. apply Forall_app. split; [exact H4|].
  constructor; [|constructor].
  rewrite (package_card_name title card c p c1 Hp). now split.
Qed.

(** X14: what [get_account_usage] returns has a phone number that is empty
    or starts with "+43".  For a prepaid account no date of a next bill is
    given.  For a contract the fields of a prepaid card stay unset, and
    every package has as its name the title of a card: not empty and none
    of the excluded sections. *)
Theorem get_account_usage_shape (c : Client) (usage : AccountUsage) (c' : Client) :
  get_account_usage' c = (Ok usage, c') ->
  (phone_number usage = "" \/ startswith "+43" (phone_number usage) = true)
  /\ (is_prepaid usage = true -> next_bill_date usage = None)
  /\ (is_prepaid usage = false ->
      credit usage = None /\ sim_valid_until usage = None /\ last_recharge usage = None
      /\ Forall (fun p => package_title (package_name p)) (packages usage)).
Proof.
  unfold get_account_usage. intros H.
  apply bind_inv in H as (u & c1 & _ & H).
  apply catch_ok_inv in H; [|intros e c2 x c3; destruct e; discriminate].
  apply bind_inv in H as (response & c2 & _ & H).
  apply bind_inv in H as (u2 & c3 & _ & H).
  apply bind_inv in H as (ov & c4 & Hloop & H).
  apply bind_inv in H as (costs & c5 & Hcosts & H).
  injection H as <- _.
  cbn [phone_number is_prepaid next_bill_date credit sim_valid_until last_recharge packages].
  split; [apply normalized_number|]. split.
  - intros Hp. rewrite Hp in Hcosts.
    destruct (xpath _ _); injection Hcosts as <- _; reflexivity.
  - intros Hp. rewrite Hp in Hloop.
    apply (for_each_invariant _ contract_overview) in Hloop.
    + exact Hloop.
    + intros s x c6 s' c6' Hs. eapply card_step_contract; eauto.
    + repeat split. constructor.
Qed.

(** *** Call forwarding *)

Lemma digits_value_nonneg (s : string) : forall acc, (0 <= acc)%Z -> (0 <= digits_value acc s)%Z.
Proof.
  induction s as [|c s IH]; intros acc H; cbn [digits_value]; [exact H|].
  apply IH. unfold digit_value. lia.
Qed.

Lemma read_rule_as_read (sel : Selector) (rid : string) : rule_as_read (read_rule' sel rid).
Proof.
  unfold rule_as_read, read_rule. cbn [target_number target delay_seconds condition].
  split; [|split].
  - destruct (String.eqb _ "a") eqn:E; [intros _; now apply String.eqb_eq in E | discriminate].
  - destruct (String.eqb rid "nann") eqn:E; [intros _; now apply String.eqb_eq in E | discriminate].
  - intros d. destruct (String.eqb rid "nann"); [|discriminate].
    destruct (_ && _); [|discriminate]. intros [= <-]. now apply digits_value_nonneg.
Qed.

(** X15: the settings [get_call_forwarding_settings] returns hold one rule
    for each of the four conditions, in the order "alle", "nann", "wtel",
    "nerr".  A rule has a target number only when its target is "a", and a
    delay, which is never negative, only when it is the no-answer rule. *)
Theorem get_call_forwarding_settings_shape (c : Client) (s : CallForwardingSettings)
    (c' : Client) :
  get_call_forwarding_settings' c = (Ok s, c') ->
  map condition (rules s) = ["alle"; "nann"; "wtel"; "nerr"]
  /\ Forall rule_as_read (rules s).
Proof.
  unfold get_call_forwarding_settings. intros H.
  apply bind_inv in H as (u & c1 & _ & H).
  apply bind_inv in H as (response & c2 & _ & H).
  apply bind_inv in H as (u2 & c3 & _ & H).
  injection H as <- _. unfold read_call_forwarding. cbn [rules].
  split; [reflexivity|].
  cbn [map rule_ids]. repeat constructor; apply read_rule_as_read.
Qed.


(** X17: a rule for a condition that is none of the four changes nothing:
    the form is the same whatever such a rule says. *)
Theorem forwarding_payload_unknown_condition (sel : Selector) (token : string)
    (r1 r2 : CallForwardingRule) :
  ~ In (condition r1) rule_ids -> ~ In (condition r2) rule_ids ->
  forwarding_payload (read_call_forwarding' sel) token r1
  = forwarding_payload (read_call_forwarding' sel) token r2.
Proof.
  intros N1 N2.
  assert (forall r rid, ~ In (condition r) rule_ids -> In rid rule_ids ->
            String.eqb (condition (read_rule' sel rid)) (condition r) = false) as F.
  { intros r rid N Hrid. rewrite read_rule_condition.
    apply String.eqb_neq. intros E. rewrite <- E in N. contradiction. }
  unfold forwarding_payload, read_call_forwarding.
  cbn [rules map rule_ids fold_left]. rewrite !payload_step_emit.
  rewrite !(F r1), !(F r2); cbn; auto 6.
Qed.

Lemma get_call_forwarding_settings_run (c : Client) (page : Response) :
  _logged_in c = true ->
  portal (sent c) forwarding_page = inl page -> is_success page = true ->
  get_call_forwarding_settings' c
  = (Ok (read_call_forwarding' (from_text (text page))), after c forwarding_page).
Proof.
  intros Hin H1 S1. unfold get_call_forwarding_settings.
  rewrite (bind_ok _ _ _ _ _ (ensure_logged_in_done c Hin)).
  unfold session_get. rewrite (bind_ok _ _ _ _ _ (send_ok c _ _ H1)).
  now rewrite (bind_ok _ _ _ _ _ (raise_for_status_ok page _ S1)).
Qed.


(** *** The tools of the server *)

Local Abbreviation tool_set_call_forwarding_rule' :=
  (tool_set_call_forwarding_rule from_text css node_data portal).
Local Abbreviation tool_set_sim_setting' :=
  (tool_set_sim_setting from_text css node_data portal).
Local Abbreviation tool_toggle_roaming' :=
  (tool_toggle_roaming from_text css node_data portal).

(** Handing an exception on as it is changes nothing. *)
Lemma tool_run {A : Type} (m : M A) (c : Client) : tool m c = m c.
Proof. unfold tool, catch, raise. now destruct (m c) as [[a|e] c1]. Qed.

Lemma target_number_ok_shape (n : string) : target_number_ok n = true <-> phone_shape n.
Proof.
  unfold target_number_ok. split.
  - destruct (re_run _ _ _ _) as [u|] eqn:E; [intros _ | discriminate].
    apply re_run_sound in E as (s1 & s2 & caps & -> & Hm & Hk).
    destruct (at_end s2) eqn:Ha; [|discriminate].
    apply matches_target_number in Hm as (sign & digits & -> & Hs & F & L).
    apply at_end_inv in Ha. exists sign, digits, s2. rewrite append_assoc. auto.
  - intros (sign & digits & nl & -> & Hs & F & L & Hnl).
    rewrite <- append_assoc.
    destruct (re_run_complete target_number_re (sign +:+ digits) nl []
                (fun rest _ => if at_end rest then Some tt else None)) as [x ->];
      [|intros caps; rewrite (proj2 (at_end_inv nl) Hnl); eauto|reflexivity].
    apply matches_target_number. now exists sign, digits.
Qed.

(** X19: what the tool [set_call_forwarding_rule] checks before it calls
    the client.  Without a target number it refuses the target "a" and
    lets every other target pass.  A target number passes when it is an
    optional plus sign and five to thirty digits, with or without a line
    feed at its end, and no other text of ASCII passes.  What passes goes
    to the client as it is, and the outcome of the client is the outcome of
    the tool; what is refused raises the value error and sends nothing. *)
Theorem tool_set_call_forwarding_rule_checks (condition_ target_ : string)
    (target_number_ : option string) (delay : option Z) (c : Client) :
  let run := tool_set_call_forwarding_rule' condition_ target_ target_number_ delay c in
  let rule := MkCallForwardingRule condition_ target_ target_number_ delay in
  (truthy target_number_ = false ->
   run = if String.eqb target_ "a"
         then (Raise (ValueError "target_number must be provided when target is 'a'."), c)
         else set_call_forwarding_rule' rule c)
  /\ (forall n,
        target_number_ = Some n -> is_empty n = false ->
        (phone_shape n -> run = set_call_forwarding_rule' rule c)
        /\ (str_forall is_ascii n = true -> ~ phone_shape n ->
            run = (Raise (ValueError
                            "Invalid target_number format. It should be a valid international phone number."),
                   c))).
Proof.
  intros run rule. subst run. unfold tool_set_call_forwarding_rule. split.
  - intros T. rewrite T. cbn [negb andb].
    destruct (String.eqb target_ "a"); cbn [andb]; [reflexivity | apply tool_run].
  - intros n -> Hne. rewrite (truthy_some _ Hne), (or_else_some _ _ Hne).
    rewrite andb_false_r. cbn [negb andb]. split.
    + intros Hs. apply target_number_ok_shape in Hs. rewrite Hs. cbn [negb].
      apply tool_run.
    + intros _ Hs. destruct (target_number_ok n) eqn:E; [|reflexivity].
      now apply target_number_ok_shape in E.
Qed.

(** X20: the tool [toggle_roaming] sets the bar on roaming to the opposite
    of what it is asked: to switch roaming on it posts the key
    "roaming-barred" with the value "f", and the message of success then
    says that "roaming-barred" was disabled. *)
Theorem tool_toggle_roaming_spec (c : Client) (enabled : bool) (page response : Response)
    (tok : string) :
  _logged_in c = true ->
  portal (sent c) (Get "einstellungen_sim.php" []) = inl page ->
  is_success page = true ->
  get node_data (css "input[name='token']::attr(value)" (from_text (text page))) = Some tok ->
  is_empty tok = false ->
  let c1 := after c (Get "einstellungen_sim.php" []) in
  let form :=
    <["key" := "roaming-barred"]>
      (<["value" := if enabled then "f" else "t"]> (<["token" := tok]> ∅)) in
  portal (sent c1) (Post "einstellungen_sim_setdata.php" form) = inl response ->
  is_success response = true ->
  str_upper (str_strip (text response)) = "OK" ->
  tool_toggle_roaming' enabled c
  = (Ok ("Successfully set 'roaming-barred' to "
         +:+ (if enabled then "disabled" else "enabled") +:+ "."),
     after c1 (Post "einstellungen_sim_setdata.php" form))
  /\ tool_toggle_roaming' enabled c = tool_set_sim_setting' "roaming_barred" (negb enabled) c.
Proof.
  intros Hin Hget Hs Htok Hne c1 form Hpost Hs2 Hok.
  split; [|reflexivity].
  unfold tool_toggle_roaming. rewrite tool_run. unfold set_sim_setting.
  rewrite (bind_ok _ _ _ _ _ (ensure_logged_in_done c Hin)).
  unfold session_get. rewrite (bind_ok _ _ _ _ _ (send_ok c _ _ Hget)).
  rewrite (bind_ok _ _ _ _ _ (raise_for_status_ok page _ Hs)).
  rewrite Htok, (truthy_some _ Hne), (or_else_some _ _ Hne). cbn [negb].
  assert (sim_payload "roaming-barred" (negb enabled) tok = form) as ->.
  { subst form. unfold sim_payload. now destruct enabled. }
  unfold session_post. fold c1.
  rewrite (bind_ok _ _ _ _ _ (send_ok c1 _ _ Hpost)).
  rewrite (bind_ok _ _ _ _ _ (raise_for_status_ok response _ Hs2)).
  rewrite Hok. cbn [String.eqb Ascii.eqb Bool.eqb negb]. now destruct enabled.
Qed.

Local Abbreviation tool_download_bill' :=
  (tool_download_bill from_text css xpath node_data urljoin today portal header).


(** X22: an answer to [get_sim_settings] that is no JSON, or a JSON value
    that is no object, does not end in the client error: the error of the
    decoder, or the error of the missing method, leaves the method as it
    is. *)
Theorem get_sim_settings_malformed_answer (c : Client) (response : Response) :
  _logged_in c = true ->
  portal (sent c) (Post "einstellungen_sim_getdata.php" ∅) = inl response ->
  is_success response = true ->
  match json_of_text (text response) with
  | None => fst (get_sim_settings' c) = Raise (JSONDecodeError "Expecting value")
  | Some (JObj _) => True
  | Some _ =>
      fst (get_sim_settings' c) = Raise (AttributeError "object has no attribute 'get'")
  end.
Proof.
  intros Hin Hpost Hs.
  destruct (json_of_text (text response)) as [api|] eqn:J.
  - rewrite (get_sim_settings_run c response api Hin Hpost Hs J).
    destruct api; try exact I; reflexivity.
  - unfold get_sim_settings.
    rewrite (bind_ok _ _ _ _ _ (ensure_logged_in_done c Hin)).
    unfold session_post. rewrite (bind_ok _ _ _ _ _ (send_ok c _ _ Hpost)).
    rewrite (bind_ok _ _ _ _ _ (raise_for_status_ok response _ Hs)).
    now rewrite J.
Qed.

(** *** More on logging in *)

(** X23: [login] sends the page request and then, if that was answered,
    the credentials; the status of the first answer plays no part.  It
    succeeds exactly when the second answer has a success status, shows no
    login form and does not say that the data were wrong. *)
Theorem login_succeeds_iff (c : Client) (r0 r : Response) :
  portal (sent c) login_page = inl r0 ->
  portal (sent c ++ [login_page]) (login_post (settings c)) = inl r ->
  sent (snd (login' c)) = sent c ++ [login_page; login_post (settings c)]
  /\ (fst (login' c) = Ok tt <->
      is_success r = true
      /\ truthy (get node_data (css "#loginform" (from_text (text r)))) = false
      /\ str_contains "Die eingegebenen Daten sind leider nicht korrekt" (text r) = false).
Proof.
  intros H0 H1. unfold login, catch, session_get, session_post.
  fold login_page. fold (credentials (settings c)). fold (login_post (settings c)).
  rewrite (bind_ok _ _ _ _ _ (send_ok c _ _ H0)).
  rewrite (bind_ok _ _ _ _ _ (send_ok (after c login_page) _ _ H1)).
  unfold bind, raise_for_status, is_success.
  destruct ((200 <=? status_code r)%Z && (status_code r <=? 299)%Z).
  - unfold ret. destruct (truthy _); cbn [orb].
    + cbn. rewrite <- app_assoc. split; [reflexivity|].
      split; [discriminate | intros (_ & ? & _); discriminate].
    + destruct (str_contains _ _).
      * cbn. rewrite <- app_assoc. split; [reflexivity|].
        split; [discriminate | intros (_ & _ & ?); discriminate].
      * cbn. rewrite <- app_assoc. split; [reflexivity|]. split; auto.
  - cbn. rewrite <- app_assoc. split; [reflexivity|].
    split; [discriminate | intros (? & _); discriminate].
Qed.

(** *** When the portal cannot be reached *)

(** X24: a request that is not answered ends every method of a client
    that is logged in.  The overview and the bill list report it as the
    client error; every other method lets the error of the transport
    through as it is. *)
Theorem transport_failure_surfaces (c : Client) (msg subscriber name : string)
    (enabled : bool) (rule : CallForwardingRule) :
  _logged_in c = true ->
  (forall rq, portal (sent c) rq = inr msg) ->
  fst (get_account_usage' c)
    = Raise (KontomanagerClientError ("HTTP error fetching account usage: " +:+ msg))
  /\ fst (list_bills' c)
     = Raise (KontomanagerClientError ("HTTP error fetching bills list: " +:+ msg))
  /\ fst (get_phone_numbers' c) = Raise (RequestError msg)
  /\ fst (switch_active_phone_number' subscriber c) = Raise (RequestError msg)
  /\ fst (list_call_history' c) = Raise (RequestError msg)
  /\ fst (get_sim_settings' c) = Raise (RequestError msg)
  /\ fst (set_sim_setting' name enabled c) = Raise (RequestError msg)
  /\ fst (get_call_forwarding_settings' c) = Raise (RequestError msg)
  /\ fst (set_call_forwarding_rule' rule c) = Raise (RequestError msg).
Proof.
  intros Hin Hoff.
  assert (forall rq, send portal rq c = (Raise (RequestError msg), after c rq)) as Hsend.
  { intros rq. unfold send. now rewrite Hoff. }
  assert (fst (get_call_forwarding_settings' c) = Raise (RequestError msg)) as Hcf.
  { unfold get_call_forwarding_settings.
    rewrite (bind_ok _ _ _ _ _ (ensure_logged_in_done c Hin)).
    unfold session_get. now rewrite (bind_raise _ _ _ _ _ (Hsend _)). }
  repeat split.
  - unfold get_account_usage. rewrite (bind_ok _ _ _ _ _ (ensure_logged_in_done c Hin)).
    unfold catch, session_get. now rewrite (bind_raise _ _ _ _ _ (Hsend _)).
  - unfold list_bills. rewrite (bind_ok _ _ _ _ _ (ensure_logged_in_done c Hin)).
    unfold catch, session_get. now rewrite (bind_raise _ _ _ _ _ (Hsend _)).
  - unfold get_phone_numbers. rewrite (bind_ok _ _ _ _ _ (ensure_logged_in_done c Hin)).
    unfold session_get. now rewrite (bind_raise _ _ _ _ _ (Hsend _)).
  - unfold switch_active_phone_number.
    rewrite (bind_ok _ _ _ _ _ (ensure_logged_in_done c Hin)).
    unfold session_get. now rewrite (bind_raise _ _ _ _ _ (Hsend _)).
  - unfold list_call_history. rewrite (bind_ok _ _ _ _ _ (ensure_logged_in_done c Hin)).
    unfold session_get. now rewrite (bind_raise _ _ _ _ _ (Hsend _)).
  - unfold get_sim_settings. rewrite (bind_ok _ _ _ _ _ (ensure_logged_in_done c Hin)).
    unfold session_post. now rewrite (bind_raise _ _ _ _ _ (Hsend _)).
  - unfold set_sim_setting. rewrite (bind_ok _ _ _ _ _ (ensure_logged_in_done c Hin)).
    unfold session_get. now rewrite (bind_raise _ _ _ _ _ (Hsend _)).
  - exact Hcf.
  - unfold set_call_forwarding_rule.
    rewrite (bind_ok _ _ _ _ _ (ensure_logged_in_done c Hin)).
    unfold bind at 1.
    destruct (get_call_forwarding_settings' c) as [[s|e] c1]; [discriminate|].
    cbn [fst] in *. now injection Hcf as ->.
Qed.

(** *** More on the bill list *)

Lemma bill_step_listed (bills : list BillSummary) (row : Selector) (c : Client)
    (bills' : list BillSummary) (c' : Client) :
  bill_step' bills row c = (Ok bills', c') ->
  Forall bill_as_listed bills -> Forall bill_as_listed bills'.
Proof.
  unfold bill_step. intros H Hb.
  apply bind_inv in H as (d & c1 & _ & H).
  destruct (negb (truthy (row_bill_pdf_url' row))).
  - apply bind_inv in H as (u & c2 & _ & H). now injection H as <- _.
  - apply bind_inv in H as (base & c2 & _ & H). injection H as <- _.
    apply Forall_app. split; [exact Hb|]. constructor; [|constructor].
    unfold bill_as_listed, bill_of_row. cbn [currency has_egn egn_pdf_url].
    split; [reflexivity|]. now destruct (truthy _).
Qed.

Lemma row_date_raises (row : Selector) (e : exn) :
  row_date' row = Raise e -> exists msg, e = ValueError msg.
Proof.
  unfold row_date, strptime_date. destruct (negb _); [|discriminate].
  destruct (strptime _ _) eqn:E; [discriminate|].
  intros [= <-]. now apply strptime_raises in E.
Qed.

Lemma base_url_raises (st : Settings) (e : exn) :
  base_url st = Raise e -> exists msg, e = ValueError msg.
Proof. unfold base_url. destruct (assoc _ _); [discriminate|]. intros [= <-]. eauto. Qed.

Lemma bill_step_raises (bills : list BillSummary) (row : Selector) (c : Client)
    (e : exn) (c' : Client) :
  bill_step' bills row c = (Raise e, c') -> exists msg, e = ValueError msg.
Proof.
  unfold bill_step, bind at 1, lift.
  destruct (row_date' row) as [d|e0] eqn:D.
  - destruct (negb _); [discriminate|].
    unfold bind, lift. destruct (base_url (settings c)) as [b|e1] eqn:B; [discriminate|].
    intros [= <- _]. now apply base_url_raises in B.
  - intros [= <- _]. now apply row_date_raises in D.
Qed.

(** A row whose date cell is neither empty nor a date ends the loop. *)
Lemma bill_loop_bad_date (rows : list Selector) :
  Exists (fun row => exists e, row_date' row = Raise e) rows ->
  forall acc c, exists msg c', for_each bill_step' rows acc c = (Raise (ValueError msg), c').
Proof.
  induction 1 as [row rows [e He] | row rows _ IH]; intros acc c; cbn [for_each].
  - destruct (row_date_raises row e He) as [msg ->].
    exists msg, c. unfold bind at 1. unfold bill_step, bind at 1, lift. now rewrite He.
  - unfold bind at 1. destruct (bill_step' acc row c) as [[bills|e] c1] eqn:E; [apply IH|].
    destruct (bill_step_raises _ _ _ _ _ E) as [msg ->]. eauto.
Qed.


(** *** Logging in on demand *)

Lemma login_logs_in (c : Client) (u : unit) (c1 : Client) :
  login' c = (Ok u, c1) -> _logged_in c1 = true.
Proof. intros H. pose proof (login_state c) as L. now rewrite H in L. Qed.

Lemma ensure_bind {A : Type} (k : unit -> M A) (c : Client) :
  _logged_in c = false ->
  bind _ensure_logged_in' k c
  = match login' c with
    | (Ok _, c1) => bind _ensure_logged_in' k c1
    | (Raise e, c1) => (Raise e, c1)
    end.
Proof.
  intros H. unfold bind at 1. unfold _ensure_logged_in at 1. rewrite H.
  destruct (login' c) as [[u|e] c1] eqn:E; [|reflexivity].
  rewrite (bind_ok _ _ _ _ _ (ensure_logged_in_done c1 (login_logs_in c u c1 E))).
  now destruct u.
Qed.

(** X26: a client that is not logged in logs in first.  When that fails,
    the method ends with the error of the login and asks for no page; when
    it succeeds, the method goes on as it does for the client that is
    logged in.  Only the check of the kind of document in [get_bill] comes
    before the login. *)
Theorem login_on_demand (c : Client) (subscriber n t name : string)
    (enabled : bool) (rule : CallForwardingRule) :
  _logged_in c = false ->
  let after_login {A : Type} (m : M A) : Prop :=
    m c = match login' c with
          | (Ok _, c1) => m c1
          | (Raise e, c1) => (Raise e, c1)
          end in
  after_login get_account_usage'
  /\ after_login get_phone_numbers'
  /\ after_login (switch_active_phone_number' subscriber)
  /\ after_login list_bills'
  /\ (contains_str ["bill"; "egn"] (str_lower t) = true -> after_login (get_bill' n t))
  /\ after_login list_call_history'
  /\ after_login get_sim_settings'
  /\ after_login (set_sim_setting' name enabled)
  /\ after_login get_call_forwarding_settings'
  /\ after_login (set_call_forwarding_rule' rule).
Proof.
  intros H after_login. subst after_login. cbv beta.
  repeat split; try (now apply ensure_bind).
  intros Ht. unfold get_bill. rewrite Ht. cbn [negb]. now apply ensure_bind.
Qed.

End ClientProperties.

(** ** The example site *)

(** On the example page "voicemail_play_cli_disable" has "d" selected and
    "btel_akt" has "a"; the form posted for a new busy rule says "a" for
    both. *)
Lemma set_call_forwarding_rule_flags_witness :
  get_or node_text "d" (node_query voicemail_query example_forwarding) = "d"
  /\ get_or node_text "d" (node_query btel_query example_forwarding) = "a"
  /\ exists form,
       sent (snd (set_call_forwarding_rule example_from_text node_query node_text
                    example_portal example_rule logged_in_client))
       = [forwarding_page; forwarding_page; Post "einstellungen_rufumleitung.php" form]
       /\ form !! "btel_akt" = Some "a"
       /\ form !! "voicemail_play_cli_disable" = Some "a".
Proof.
  split; [reflexivity|]. split; [reflexivity|].
  exact (set_call_forwarding_rule_flags example_from_text node_query node_text
           example_portal logged_in_client
           (MkResponse 200 "forwarding") (MkResponse 200 "forwarding")
           "tok456" example_rule
           eq_refl eq_refl eq_refl eq_refl eq_refl eq_refl eq_refl).
Defined.

(** The other rules of the example page keep their fields in that form. *)
Example forwarding_frame_example :
  let form := forwarding_payload
                (read_call_forwarding node_query node_text example_forwarding)
                "tok456" example_rule in
  form !! "alle_akt" = Some "a" /\ form !! "alle_rn" = Some "06601234567"
  /\ form !! "nann_akt" = Some "m" /\ form !! "nann_sek" = Some "20"
  /\ form !! "nerr_akt" = Some "d" /\ form !! "nerr_rn" = None
  /\ form !! "wtel_akt" = Some "a" /\ form !! "wtel_rn" = Some "06769876543".
Proof. vm_compute. repeat split. Qed.



(** The block of the example history has a timestamp and no duration/cost
    field: its entry has the empty text as duration. *)
Lemma history_step_no_duration_field_witness :
  exists e,
    history_step node_query node_query node_text [] example_block logged_in_client
    = (Ok [e], logged_in_client)
    /\ timestamp e = MkDatetime (MkDate 2024 10 1) 10 15 0
    /\ duration e = Some ""
    /\ cost e = 0%float.
Proof.
  exact (history_step_no_duration_field node_query node_query node_text []
           example_block logged_in_client "01.10.2024 10:15:00"
           (MkDatetime (MkDate 2024 10 1) 10 15 0)
           eq_refl eq_refl eq_refl eq_refl).
Defined.



Lemma example_rows_dated :
  Forall (fun row => exists d, row_date node_query node_text example_today row = Ok d)
         example_bill_rows.
Proof. repeat constructor; eexists; vm_compute; reflexivity. Qed.



(** The response {"status":"OK","data":[{"key":"roaming-barred","value":true}]}
    of the example portal. *)
Lemma get_sim_settings_spec_witness :
  fst (get_sim_settings example_from_text node_query node_text example_json
         example_portal logged_in_client)
  = Ok (MkSimSettings (Some true) None None None None None None None None None).
Proof.
  exact (proj2 (proj2 (proj2 (get_sim_settings_spec example_from_text node_query node_text
                         example_json example_portal logged_in_client
                         (MkResponse 200 "sim-settings")
                         (sim_response [("roaming-barred", true)])
                         eq_refl eq_refl eq_refl eq_refl))) eq_refl).
Defined.

(** ** More of the example site *)

(** The example client stays logged in through the overview, the bill list
    and the change of a SIM setting, and posts no credentials. *)
Lemma logged_in_session_is_kept_witness :
  session_kept logged_in_client (snd example_usage_run)
  /\ session_kept logged_in_client (snd example_bills_run)
  /\ session_kept logged_in_client (snd example_sim_run).
Proof.
  destruct (logged_in_session_is_kept example_from_text node_query node_query node_text
              example_urljoin example_json example_today example_portal node_attrib
              (fun s => s) example_header logged_in_client "abc123" "R-1001" "bill"
              "roaming_barred" true example_rule eq_refl)
    as (H1 & _ & _ & H4 & _ & _ & _ & H8 & _).
  split; [exact H1|]. split; [exact H4 | exact H8].
Defined.

(** The history page of the example site has one block. *)
Lemma list_call_history_outcome_witness :
  exists history skipped,
    list_call_history example_from_text node_query node_query node_text example_portal
      logged_in_client
    = (Ok history, MkClient (settings logged_in_client) true [Get "gespraeche.php" []] skipped)
    /\ (length history + length skipped = 1)%nat.
Proof.
  exact (proj2 (list_call_history_outcome example_from_text node_query node_query node_text
                  example_portal logged_in_client (MkResponse 200 "calls") eq_refl eq_refl)
               eq_refl).
Defined.

(** The menu of the example page: the active number, one other number, and
    a link without a name, which is left out. *)
Lemma get_phone_numbers_spec_witness :
  fst example_numbers_run
  = Ok [ MkPhoneNumber "Anna" "+436641234567" None true;
         MkPhoneNumber "Ben" "+436767654321" (Some "abc123") false ]
  /\ exists act others,
       example_numbers_run
       = (Ok (act ++ others),
          match act ++ others with
          | [] => warned (after logged_in_client (Get "kundendaten.php" [])) no_numbers_warning
          | _ :: _ => after logged_in_client (Get "kundendaten.php" [])
          end)
       /\ (length act <= 1)%nat
       /\ Forall (fun p => is_active p = true /\ subscriber_id p = None) act
       /\ Forall (fun p => is_active p = false) others
       /\ Forall well_formed_entry (act ++ others).
Proof.
  split; [vm_compute; reflexivity|].
  exact (get_phone_numbers_spec (fun _ => example_numbers) node_query node_query node_text
           example_portal node_attrib (fun s => s) logged_in_client
           (MkResponse 200 "overview") eq_refl eq_refl eq_refl).
Defined.

(** The menu of the example overview names the number 0664 1234567. *)
Lemma switch_active_phone_number_spec_witness :
  exists n,
    switch_active_phone_number example_from_text node_query node_text example_portal
      "abc123" logged_in_client
    = (Ok ("Successfully switched active number to " +:+ n +:+ "."),
       after logged_in_client (switch_request "abc123"))
    /\ (n = "" \/ startswith "+43" n = true)
    /\ (get node_text (node_query "#user-dropdown span::text" (example_from_text "overview"))
        = None -> n = "").
Proof.
  exact (switch_active_phone_number_spec example_from_text node_query node_text
           example_portal logged_in_client "abc123" (MkResponse 200 "overview")
           eq_refl eq_refl eq_refl).
Defined.

(** The first bill of the example list, behind the address of its link. *)
Lemma get_bill_download_witness :
  fst (example_get_bill "R-1001" "bill") = Ok "%PDF-1.4 R-1001"
  /\ exists bills c1 b url response,
       list_bills example_from_text node_query node_query node_text example_urljoin
         example_today bill_portal logged_in_client = (Ok bills, c1)
       /\ find_bill "R-1001" bills = Some b /\ bill_number b = "R-1001" /\ In b bills
       /\ Some (bill_pdf_url b) = Some url
       /\ is_empty url = false
       /\ bill_portal (sent c1) (Get url []) = inl response
       /\ is_success response = true
       /\ "%PDF-1.4 R-1001" = text response
       /\ sent (snd (example_get_bill "R-1001" "bill")) = sent c1 ++ [Get url []]
       /\ warnings (snd (example_get_bill "R-1001" "bill"))
          = warnings c1
            ++ (if str_contains "application/pdf"
                     (match example_header "content-type" response with
                      | Some v => v
                      | None => ""
                      end)
                then []
                else ["Expected a PDF but got content-type: "
                      +:+ match example_header "content-type" response with
                          | Some v => v
                          | None => "None"
                          end +:+ "."]).
Proof.
  split; [vm_compute; reflexivity|].
  exact (get_bill_download example_from_text node_query node_query node_text example_urljoin
           example_today bill_portal example_header logged_in_client "R-1001" "bill"
           "%PDF-1.4 R-1001" (snd (example_get_bill "R-1001" "bill")) eq_refl
           ltac:(vm_compute; reflexivity)).
Defined.

(** A kind of document that is unknown, a number that is unknown, and the
    itemized record of the third bill, which has none. *)
Lemma get_bill_refusals_witness :
  example_get_bill "R-1001" "pdf"
  = (Raise (KontomanagerClientError "Invalid bill_type: 'pdf'. Must be 'bill' or 'egn'."),
     logged_in_client)
  /\ fst (example_get_bill "R-1" "BILL")
     = Raise (KontomanagerClientError "Bill with number 'R-1' not found.")
  /\ fst (example_get_bill "R-0999" "egn")
     = Raise (KontomanagerClientError
                "Document type 'egn' is not available for bill R-0999.").
Proof.
  split; [|split].
  - exact (proj1 (get_bill_refusals example_from_text node_query node_query node_text
                    example_urljoin example_today bill_portal example_header
                    logged_in_client "R-1001" "pdf") eq_refl).
  - destruct (list_bills example_from_text node_query node_query node_text example_urljoin
                example_today bill_portal logged_in_client) as [[bills|e] c1] eqn:E;
      [|vm_compute in E; discriminate].
    destruct (proj2 (get_bill_refusals example_from_text node_query node_query node_text
                       example_urljoin example_today bill_portal example_header
                       logged_in_client "R-1" "BILL") bills c1 eq_refl eq_refl E)
      as [H _].
    unfold example_get_bill. rewrite H; [reflexivity|].
    vm_compute in E. injection E as <- _. reflexivity.
  - destruct (list_bills example_from_text node_query node_query node_text example_urljoin
                example_today bill_portal logged_in_client) as [[bills|e] c1] eqn:E;
      [|vm_compute in E; discriminate].
    destruct (proj2 (get_bill_refusals example_from_text node_query node_query node_text
                       example_urljoin example_today bill_portal example_header
                       logged_in_client "R-0999" "egn") bills c1 eq_refl eq_refl E)
      as [_ H].
    vm_compute in E. injection E as <- _.
    unfold example_get_bill. erewrite H; reflexivity.
Defined.




(** The example overview is that of a contract. *)
Lemma get_account_usage_shape_witness :
  match fst example_usage_run with
  | Ok usage =>
      phone_number usage = "+436641234567"
      /\ is_prepaid usage = false
      /\ credit usage = None /\ sim_valid_until usage = None /\ last_recharge usage = None
      /\ Forall (fun p => package_title (package_name p)) (packages usage)
  | Raise _ => False
  end.
Proof.
  unfold example_usage_run.
  destruct (get_account_usage example_from_text node_query node_query node_text
              example_portal logged_in_client) as [[usage|e] c'] eqn:E.
  - cbn [fst].
    destruct (get_account_usage_shape example_from_text node_query node_query node_text
                example_portal logged_in_client usage c' E) as (_ & _ & H).
    assert (is_prepaid usage = false) as P by (vm_compute in E; now injection E as <- _).
    split; [vm_compute in E; now injection E as <- _|]. split; [exact P | exact (H P)].
  - vm_compute in E. discriminate.
Defined.

(** The rules of the example forwarding page. *)
Lemma get_call_forwarding_settings_shape_witness :
  match fst (get_call_forwarding_settings example_from_text node_query node_text
               example_portal logged_in_client) with
  | Ok s =>
      map condition (rules s) = ["alle"; "nann"; "wtel"; "nerr"]
      /\ map target (rules s) = ["a"; "m"; "d"; "d"]
      /\ Forall rule_as_read (rules s)
  | Raise _ => False
  end.
Proof.
  destruct (get_call_forwarding_settings example_from_text node_query node_text
              example_portal logged_in_client) as [[s|e] c'] eqn:E.
  - cbn [fst].
    destruct (get_call_forwarding_settings_shape example_from_text node_query node_text
                example_portal logged_in_client s c' E) as [H1 H2].
    split; [exact H1|]. split; [|exact H2].
    vm_compute in E. now injection E as <- _.
  - vm_compute in E. discriminate.
Defined.


(** Two rules for conditions that the portal does not know. *)
Lemma forwarding_payload_unknown_condition_witness :
  forwarding_payload (read_call_forwarding node_query node_text example_forwarding)
    "tok456" unknown_rule_1
  = forwarding_payload (read_call_forwarding node_query node_text example_forwarding)
      "tok456" unknown_rule_2.
Proof.
  apply (forwarding_payload_unknown_condition node_query node_text example_forwarding
           "tok456" unknown_rule_1 unknown_rule_2).
  - cbn. intros [H|[H|[H|[H|[]]]]]; discriminate.
  - cbn. intros [H|[H|[H|[H|[]]]]]; discriminate.
Defined.


(** Target numbers at the tool: none with the target "a", a number with a
    line feed at its end, and a number with a blank. *)
Lemma tool_set_call_forwarding_rule_checks_witness :
  tool_set_call_forwarding_rule example_from_text node_query node_text example_portal
    "wtel" "a" None None logged_in_client
  = (Raise (ValueError "target_number must be provided when target is 'a'."),
     logged_in_client)
  /\ tool_set_call_forwarding_rule example_from_text node_query node_text example_portal
       "wtel" "a" (Some ("06769876543" +:+ line_feed)) None logged_in_client
     = set_call_forwarding_rule example_from_text node_query node_text example_portal
         (MkCallForwardingRule "wtel" "a" (Some ("06769876543" +:+ line_feed)) None)
         logged_in_client
  /\ tool_set_call_forwarding_rule example_from_text node_query node_text example_portal
       "wtel" "a" (Some "0676 9876543") None logged_in_client
     = (Raise (ValueError
                 "Invalid target_number format. It should be a valid international phone number."),
        logged_in_client).
Proof.
  split; [|split].
  - exact (proj1 (tool_set_call_forwarding_rule_checks example_from_text node_query
                    node_text example_portal "wtel" "a" None None logged_in_client)
                 eq_refl).
  - apply (proj2 (tool_set_call_forwarding_rule_checks example_from_text node_query
                    node_text example_portal "wtel" "a"
                    (Some ("06769876543" +:+ line_feed)) None logged_in_client)
                 ("06769876543" +:+ line_feed) eq_refl eq_refl).
    exists "", "06769876543", line_feed. repeat split; auto. cbn. lia. cbn. lia.
  - apply (proj2 (tool_set_call_forwarding_rule_checks example_from_text node_query
                    node_text example_portal "wtel" "a"
                    (Some "0676 9876543") None logged_in_client)
                 "0676 9876543" eq_refl eq_refl); [reflexivity|].
    intros H. apply target_number_ok_shape in H. vm_compute in H. discriminate.
Defined.


(** Roaming is switched on at the example portal. *)
Lemma tool_toggle_roaming_spec_witness :
  tool_toggle_roaming example_from_text node_query node_text example_portal true
    logged_in_client
  = (Ok "Successfully set 'roaming-barred' to disabled.",
     after (after logged_in_client (Get "einstellungen_sim.php" []))
       (Post "einstellungen_sim_setdata.php"
          (<["key" := "roaming-barred"]> (<["value" := "f"]> (<["token" := "tok123"]> ∅))))).
Proof.
  exact (proj1 (tool_toggle_roaming_spec example_from_text node_query node_text
                  example_portal logged_in_client true (MkResponse 200 "sim")
                  example_sim_answer "tok123"
                  eq_refl eq_refl eq_refl eq_refl eq_refl eq_refl eq_refl eq_refl)).
Defined.

(** A portal that lets the client in. *)
Lemma login_succeeds_iff_witness :
  fst (login example_from_text node_query node_text login_portal new_example_client) = Ok tt
  /\ sent (snd (login example_from_text node_query node_text login_portal
                  new_example_client))
     = [login_page; login_post (settings new_example_client)].
Proof.
  destruct (login_succeeds_iff example_from_text node_query node_text login_portal
              new_example_client (MkResponse 200 "login") (MkResponse 200 "welcome")
              eq_refl eq_refl) as [S [_ H]].
  split; [|exact S]. apply H. repeat split.
Defined.

(** A portal that cannot be reached. *)
Lemma transport_failure_surfaces_witness :
  fst (list_bills example_from_text node_query node_query node_text example_urljoin
         example_today offline_portal logged_in_client)
  = Raise (KontomanagerClientError "HTTP error fetching bills list: connection refused")
  /\ fst (list_call_history example_from_text node_query node_query node_text
            offline_portal logged_in_client)
     = Raise (RequestError "connection refused").
Proof.
  destruct (transport_failure_surfaces example_from_text node_query node_query node_text
              example_urljoin example_json example_today offline_portal node_attrib
              (fun s => s) logged_in_client "connection refused" "abc123"
              "roaming_barred" true example_rule eq_refl (fun _ => eq_refl))
    as (_ & H2 & _ & _ & H5 & _).
  split; [exact H2 | exact H5].
Defined.


(** The example portal has no login page: the client that is not logged in
    gets no further than the login. *)
Lemma login_on_demand_witness :
  fst (list_call_history example_from_text node_query node_query node_text example_portal
         new_example_client)
  = Raise (KontomanagerClientError "HTTP error during login: 404")
  /\ sent (snd (list_call_history example_from_text node_query node_query node_text
                  example_portal new_example_client))
     = [login_page; login_post (settings new_example_client)].
Proof.
  destruct (login_on_demand example_from_text node_query node_query node_text
              example_urljoin example_json example_today example_portal node_attrib
              (fun s => s) example_header new_example_client "abc123" "R-1001" "bill"
              "roaming_barred" true example_rule eq_refl)
    as (_ & _ & _ & _ & _ & H & _).
  rewrite H. split; reflexivity.
Defined.


(** A portal that answers the request for the SIM settings with a page
    that is no JSON. *)
Lemma get_sim_settings_malformed_answer_witness :
  fst (get_sim_settings example_from_text node_query node_text (fun _ => None)
         example_portal logged_in_client)
  = Raise (JSONDecodeError "Expecting value")
  /\ fst (get_sim_settings example_from_text node_query node_text
            (fun _ => Some (JArr [])) example_portal logged_in_client)
     = Raise (AttributeError "object has no attribute 'get'").
Proof.
  split.
  - exact (get_sim_settings_malformed_answer example_from_text node_query node_text
             (fun _ => None) example_portal logged_in_client
             (MkResponse 200 "sim-settings") eq_refl eq_refl eq_refl).
  - exact (get_sim_settings_malformed_answer example_from_text node_query node_text
             (fun _ => Some (JArr [])) example_portal logged_in_client
             (MkResponse 200 "sim-settings") eq_refl eq_refl eq_refl).
Defined.
